(** * QR box inventory: the item-line parser and the box store

    A shallow embedding of [garage_boxes.py], and the properties its
    specification states of it.

    - [Text]: the string methods, [int()] and the regular expression the
      parsing loop of [add_box] relies on.
    - [Py]: the operations on the values [json.loads] returns that the
      handlers use, with the exceptions they raise.
    - [ItemLineParser]: the loop of [add_box] over the lines of its [items]
      field.
    - Section [Store]: [load_data], [save_data], [find_box] and the route
      handlers, as functions from the content of the data file to a result
      and the content after.
    - Then the lemmas, and one theorem for each claim, C1 to C10.

    Conventions of the embedding.
    - A Python [str] is a [string]; one [ascii] stands for one code point
      below 256 (Latin-1), which covers every character the source names
      (the comma, [x], and the multiplication sign U+00D7, code 215).
    - A Python [int] is a [Z]: unbounded, with the limit the interpreter
      puts on the number of digits [int()] reads from a string (4300 by
      default, a [ValueError] beyond).
    - An exception is a value of [exn]; a computation that may raise returns
      a [res].
    - The handlers are taken with the arguments the framework has decoded
      from the form; QR images and the server are left out, and the
      rendering of a template is a function the pages are given. *)

From Stdlib Require Import ZArith Lia Ascii NArith.
From stdpp Require Import base list strings.

Local Open Scope Z_scope.
Set Warnings "-register-all".

(** ** Exceptions and results *)

Inductive exn : Type :=
| HTTPException (status_code : Z) (detail : option string)
| KeyError
| TypeError
| AttributeError
| IndexError
| ValueError.

Inductive res (A : Type) : Type :=
| OK (a : A)
| Raise (e : exn).
Arguments OK {A} a.
Arguments Raise {A} e.

Definition res_bind {A B : Type} (r : res A) (k : A -> res B) : res B :=
  match r with
  | OK a => k a
  | Raise e => Raise e
  end.

Module Text.

(** ** Characters *)

Definition ord (c : ascii) : N := N_of_ascii c.

(** [str.isspace] on one character, which is also the class [\s] of [re] on
    a [str] pattern and the set removed by [str.strip()]. *)
Definition isspace (c : ascii) : bool :=
  let n := ord c in
  (((9 <=? n) && (n <=? 13)) || ((28 <=? n) && (n <=? 31))
   || (n =? 32) || (n =? 133) || (n =? 160))%N.

(** The class [\d]: below 256 the decimal digits are [0] to [9]. *)
Definition isdigit (c : ascii) : bool :=
  let n := ord c in ((48 <=? n) && (n <=? 57))%N.

Definition digit_value (c : ascii) : Z := Z.of_N (ord c) - 48.

(** The line boundaries of [str.splitlines]. *)
Definition is_linebreak (c : ascii) : bool :=
  let n := ord c in
  (((10 <=? n) && (n <=? 13)) || ((28 <=? n) && (n <=? 30)) || (n =? 133))%N.

Definition LF : ascii := "010"%char.
Definition CR : ascii := "013"%char.
Definition COMMA : ascii := ","%char.
(** U+00D7, the multiplication sign. *)
Definition TIMES : ascii := "215"%char.

(** The class [[x×]] under [re.IGNORECASE]. *)
Definition is_sep (c : ascii) : bool :=
  Ascii.eqb c "x" || Ascii.eqb c "X" || Ascii.eqb c TIMES.

(** ** String methods *)

Definition is_empty (s : string) : bool :=
  match s with
  | EmptyString => true
  | String _ _ => false
  end.

Fixpoint lstrip (s : string) : string :=
  match s with
  | EmptyString => EmptyString
  | String c s' => if isspace c then lstrip s' else s
  end.

Fixpoint rstrip (s : string) : string :=
  match s with
  | EmptyString => EmptyString
  | String c s' =>
      let r := rstrip s' in
      if is_empty r && isspace c then EmptyString else String c r
  end.

(** [s.strip()] *)
Definition strip (s : string) : string := lstrip (rstrip s).

(** [c in s] for a one-character [c]. *)
Fixpoint contains (c : ascii) (s : string) : bool :=
  match s with
  | EmptyString => false
  | String d s' => Ascii.eqb c d || contains c s'
  end.

(** [s.rsplit(c, 1)]: the parts before and after the last [c]; [None] stands
    for the one-element list Python returns when [c] does not occur. *)
Fixpoint rsplit1 (c : ascii) (s : string) : option (string * string) :=
  match s with
  | EmptyString => None
  | String d s' =>
      match rsplit1 c s' with
      | Some (l, r) => Some (String d l, r)
      | None => if Ascii.eqb c d then Some (EmptyString, s') else None
      end
  end.

(** [s.splitlines()]: a line ends at a boundary character, [\r\n] counts as
    one boundary, and a final boundary opens no further line. *)
Fixpoint splitlines (s : string) : list string :=
  match s with
  | EmptyString => []
  | String c s' =>
      if is_linebreak c then
        match s' with
        | String c' s'' =>
            if Ascii.eqb c CR && Ascii.eqb c' LF
            then EmptyString :: splitlines s''
            else EmptyString :: splitlines s'
        | EmptyString => [EmptyString]
        end
      else
        match splitlines s' with
        | [] => [String c EmptyString]
        | l :: ls => String c l :: ls
        end
  end.

(** ** [int(s)] in base ten *)

(** After the sign: digits, with single underscores allowed between two
    digits. [prev] tells whether the previous character was a digit. *)
Fixpoint int_digits (acc : Z) (prev : bool) (s : string) : option Z :=
  match s with
  | EmptyString => if prev then Some acc else None
  | String c s' =>
      if isdigit c then int_digits (10 * acc + digit_value c) true s'
      else if Ascii.eqb c "_" && prev then
        match s' with
        | EmptyString => None
        | String _ _ => int_digits acc false s'
        end
      else None
  end.

(** The number of decimal digits of a literal. *)
Fixpoint count_digits (s : string) : Z :=
  match s with
  | EmptyString => 0
  | String c s' => (if isdigit c then 1 else 0) + count_digits s'
  end.

(** [sys.get_int_max_str_digits()]: the interpreter refuses to convert a
    string of more decimal digits, zeros at the front counted, with a
    [ValueError]. 4300 is its default, which the source leaves as it is. *)
Definition int_max_str_digits : Z := 4300.

Definition int_signed (neg : bool) (t : string) : res Z :=
  match int_digits 0 false t with
  | Some n =>
      if count_digits t <=? int_max_str_digits
      then OK (if neg then - n else n)
      else Raise ValueError
  | None => Raise ValueError
  end.

Definition int (s : string) : res Z :=
  match strip s with
  | String "-" t => int_signed true t
  | String "+" t => int_signed false t
  | t => int_signed false t
  end.

(** ** The regular expression of the shorthand form

    [re.search(r"(.+?)[x×]\s*(\d+)$", line, flags=re.IGNORECASE)] *)

Fixpoint take_digits (s : string) : string * string :=
  match s with
  | EmptyString => (EmptyString, EmptyString)
  | String c s' =>
      if isdigit c then let '(ds, r) := take_digits s' in (String c ds, r)
      else (EmptyString, s)
  end.

(** [$]: the end of the string, or just before a newline that ends it. *)
Definition at_end (s : string) : bool :=
  match s with
  | EmptyString => true
  | String c EmptyString => Ascii.eqb c LF
  | _ => false
  end.

(** [[x×]\s*(\d+)$] matched at the head of [s]; the result is group 2. The
    classes [\s] and [\d] are disjoint and [$] cannot hold before a digit,
    so the two greedy repetitions never give characters back. *)
Definition tail_match (s : string) : option string :=
  match s with
  | EmptyString => None
  | String c r =>
      if is_sep c then
        let '(ds, r2) := take_digits (lstrip r) in
        if negb (is_empty ds) && at_end r2 then Some ds else None
      else None
  end.

(** The lazy group [(.+?)] once its first character has been taken: it is
    extended one character at a time ([.] is any character but a newline)
    until the rest of the pattern matches. The result is the rest of group 1
    and group 2. *)
Fixpoint lazy_group (s : string) : option (string * string) :=
  match tail_match s with
  | Some ds => Some (EmptyString, ds)
  | None =>
      match s with
      | EmptyString => None
      | String c s' =>
          if Ascii.eqb c LF then None
          else
            match lazy_group s' with
            | Some (g, ds) => Some (String c g, ds)
            | None => None
            end
      end
  end.

Definition match_here (s : string) : option (string * string) :=
  match s with
  | EmptyString => None
  | String c s' =>
      if Ascii.eqb c LF then None
      else
        match lazy_group s' with
        | Some (g, ds) => Some (String c g, ds)
        | None => None
        end
  end.

(** [re.search]: the first start position at which the pattern matches. *)
Fixpoint search (s : string) : option (string * string) :=
  match match_here s with
  | Some m => Some m
  | None =>
      match s with
      | EmptyString => None
      | String _ s' => search s'
      end
  end.

(** [s.upper()] on the letters [a] to [z]. Every other character is left
    as it is; Python maps no character outside ASCII to an ASCII letter, so
    a comparison of the result with an ASCII word is not affected. *)
Definition upper_char (c : ascii) : ascii :=
  let n := ord c in
  if ((97 <=? n) && (n <=? 122))%N then ascii_of_N (n - 32) else c.

Fixpoint upper (s : string) : string :=
  match s with
  | EmptyString => EmptyString
  | String c s' => String (upper_char c) (upper s')
  end.

End Text.

(** ** Python values

    What [json.loads] returns and the handlers work on: [None], booleans,
    integers, strings, lists, and dictionaries in insertion order. The keys
    of a loaded dictionary are strings; an integer key can only come from an
    assignment [items[idx] = ...] on a dictionary. Floating-point numbers are
    left out. *)

Inductive key : Type :=
| KStr (s : string)
| KInt (n : Z).

Inductive value : Type :=
| VNone
| VBool (b : bool)
| VInt (n : Z)
| VStr (s : string)
| VList (l : list value)
| VDict (kvs : list (key * value)).

Module Py.

Definition key_eqb (a b : key) : bool :=
  match a, b with
  | KStr s, KStr t => String.eqb s t
  | KInt m, KInt n => Z.eqb m n
  | _, _ => false
  end.

(** [d.get(k)] on the entries of a dictionary. *)
Fixpoint dict_get (k : key) (kvs : list (key * value)) : option value :=
  match kvs with
  | [] => None
  | (k', v) :: rest => if key_eqb k k' then Some v else dict_get k rest
  end.

(** [d[k] = v]: an existing key keeps its place, a new key goes last. *)
Fixpoint dict_set (k : key) (v : value) (kvs : list (key * value))
  : list (key * value) :=
  match kvs with
  | [] => [(k, v)]
  | (k', v') :: rest =>
      if key_eqb k k' then (k, v) :: rest else (k', v') :: dict_set k v rest
  end.

Fixpoint dict_del (k : key) (kvs : list (key * value)) : list (key * value) :=
  match kvs with
  | [] => []
  | (k', v') :: rest =>
      if key_eqb k k' then rest else (k', v') :: dict_del k rest
  end.

Definition key_value (k : key) : value :=
  match k with
  | KStr s => VStr s
  | KInt n => VInt n
  end.

Fixpoint chars (s : string) : list value :=
  match s with
  | EmptyString => []
  | String c s' => VStr (String c EmptyString) :: chars s'
  end.

(** [v[k]] for a string [k]. *)
Definition getitem (v : value) (k : string) : res value :=
  match v with
  | VDict kvs =>
      match dict_get (KStr k) kvs with
      | Some x => OK x
      | None => Raise KeyError
      end
  | _ => Raise TypeError
  end.

(** [v[k] = x] for a string [k]. *)
Definition setitem (v : value) (k : string) (x : value) : res value :=
  match v with
  | VDict kvs => OK (VDict (dict_set (KStr k) x kvs))
  | _ => Raise TypeError
  end.

(** The elements a [for] loop over [v] visits. *)
Definition iter (v : value) : res (list value) :=
  match v with
  | VList l => OK l
  | VStr s => OK (chars s)
  | VDict kvs => OK (map (fun kv => key_value (fst kv)) kvs)
  | _ => Raise TypeError
  end.

(** [len(v)] *)
Definition len (v : value) : res Z :=
  match v with
  | VList l => OK (Z.of_nat (length l))
  | VStr s => OK (Z.of_nat (String.length s))
  | VDict kvs => OK (Z.of_nat (length kvs))
  | _ => Raise TypeError
  end.

(** [v == s] for a string [s]: only an equal string is equal to it. *)
Definition eq_str (v : value) (s : string) : bool :=
  match v with
  | VStr t => String.eqb t s
  | _ => false
  end.

(** The truth value of [v]. *)
Definition truthy (v : value) : bool :=
  match v with
  | VNone => false
  | VBool b => b
  | VInt n => negb (Z.eqb n 0)
  | VStr s => negb (Text.is_empty s)
  | VList l => match l with [] => false | _ => true end
  | VDict kvs => match kvs with [] => false | _ => true end
  end.

(** [isinstance(v, list)] *)
Definition is_list (v : value) : bool :=
  match v with
  | VList _ => true
  | _ => false
  end.

(** [b.setdefault(k, dflt)]: the value under [k], which is [dflt], stored
    as a new last entry, when [k] is missing; and the dictionary after. *)
Definition setdefault (b : value) (k : string) (dflt : value)
  : res (value * value) :=
  match b with
  | VDict kvs =>
      match dict_get (KStr k) kvs with
      | Some x => OK (x, b)
      | None => OK (dflt, VDict (kvs ++ [(KStr k, dflt)]))
      end
  | _ => Raise AttributeError
  end.

(** [l.append(x)] *)
Definition append (l : value) (x : value) : res value :=
  match l with
  | VList xs => OK (VList (xs ++ [x]))
  | _ => Raise AttributeError
  end.

(** [l.insert(0, x)] *)
Definition insert0 (l : value) (x : value) : res value :=
  match l with
  | VList xs => OK (VList (x :: xs))
  | _ => Raise AttributeError
  end.

(** [items[idx] = x] for an integer [idx]: a list takes it in range (a
    negative index counts from the end), a dictionary takes it as a key, a
    string refuses. *)
Definition setitem_int (items : value) (idx : Z) (x : value) : res value :=
  match items with
  | VList l =>
      let n := Z.of_nat (length l) in
      if (0 <=? idx) && (idx <? n) then OK (VList (<[Z.to_nat idx := x]> l))
      else if (- n <=? idx) && (idx <? 0)
           then OK (VList (<[Z.to_nat (n + idx) := x]> l))
           else Raise IndexError
  | VDict kvs => OK (VDict (dict_set (KInt idx) x kvs))
  | _ => Raise TypeError
  end.

(** [items.pop(idx)], of which the handlers keep only the effect. *)
Definition pop (items : value) (idx : Z) : res value :=
  match items with
  | VList l =>
      let n := Z.of_nat (length l) in
      if (0 <=? idx) && (idx <? n) then OK (VList (delete (Z.to_nat idx) l))
      else if (- n <=? idx) && (idx <? 0)
           then OK (VList (delete (Z.to_nat (n + idx)) l))
           else Raise IndexError
  | VDict kvs =>
      match dict_get (KInt idx) kvs with
      | Some _ => OK (VDict (dict_del (KInt idx) kvs))
      | None => Raise KeyError
      end
  | _ => Raise AttributeError
  end.

(** [t in s] for two strings. *)
Fixpoint prefix_of (t s : string) : bool :=
  match t, s with
  | EmptyString, _ => true
  | String a t', String b s' => Ascii.eqb a b && prefix_of t' s'
  | String _ _, EmptyString => false
  end.

Fixpoint substring_of (t s : string) : bool :=
  prefix_of t s ||
  match s with
  | EmptyString => false
  | String _ s' => substring_of t s'
  end.

(** [k in v] for a string [k]. *)
Definition contains (v : value) (k : string) : res bool :=
  match v with
  | VDict kvs =>
      OK (match dict_get (KStr k) kvs with Some _ => true | None => false end)
  | VList l => OK (existsb (fun x => eq_str x k) l)
  | VStr s => OK (substring_of k s)
  | _ => Raise TypeError
  end.

End Py.

Declare Scope res_scope.
Notation "x <- r ;; k" := (res_bind r (fun x => k))
  (at level 100, r at next level, right associativity, only parsing)
  : res_scope.
Delimit Scope res_scope with res.

(** ** The item-line parser: the loop of [add_box] over the [items] field *)

Module ItemLineParser.

Import Text.

(** [{"name": name_part, "qty": qty}] *)
Definition item (name_part : string) (qty : Z) : value :=
  VDict [(KStr "name", VStr name_part); (KStr "qty", VInt qty)].

(** The body of the loop on one element of [items.splitlines()]: the item
    to append, or [None] when the line adds nothing. *)
Definition parse_line (line0 : string) : res (option value) :=
  let line := strip line0 in
  if is_empty line then OK None
  else
    (p <-
       (if contains COMMA line then
          match rsplit1 COMMA line with
          | Some (left_, right_) =>
              let name_part := strip left_ in
              match int (strip right_) with
              | OK qty => OK (name_part, qty)
              | Raise ValueError => OK (name_part, 1)
              | Raise e => Raise e
              end
          | None => Raise ValueError
          end
        else
          match search line with
          | Some (g1, g2) => (qty <- int g2 ;; OK (strip g1, qty))%res
          | None => OK (line, 1)
          end) ;;
     let '(name_part, qty) := p in
     if is_empty name_part then OK None else OK (Some (item name_part qty)))%res.

Fixpoint parse_lines (lines : list string) (parsed_items : list value)
  : res (list value) :=
  match lines with
  | [] => OK parsed_items
  | line :: rest =>
      (r <- parse_line line ;;
       parse_lines rest
         (match r with
          | Some it => parsed_items ++ [it]
          | None => parsed_items
          end))%res
  end.

Definition parsed_items (items : string) : res (list value) :=
  parse_lines (splitlines items) [].

End ItemLineParser.

(** ** [uuid.uuid4().hex] *)

Module Uuid.

Definition hex_char (n : N) : ascii :=
  ascii_of_N (if (n <? 10)%N then 48 + n else 87 + n)%N.

Fixpoint hex_digits (k : nat) (n : N) (acc : string) : string :=
  match k with
  | O => acc
  | S k' => hex_digits k' (n / 16)%N (String (hex_char (n mod 16)%N) acc)
  end.

(** The 128 bits drawn from the system's random source, with the variant
    and version fields of a version-4 UUID set, as 32 hexadecimal digits. *)
Definition uuid4_hex (random : N) : string :=
  let i0 := (random mod 2 ^ 128)%N in
  let i1 := N.ldiff i0 (N.shiftl 49152 48) in
  let i2 := N.lor i1 (N.shiftl 32768 48) in
  let i3 := N.ldiff i2 (N.shiftl 61440 64) in
  let i4 := N.lor i3 (N.shiftl 4 76) in
  hex_digits 32 i4 EmptyString.

End Uuid.

(** ** The [json] module

    [json.dumps] and [json.loads] (with the UTF-8 coding of the file) are
    taken through their interface: what is read back from a dump is the value
    dumped, for every value made of what JSON has (string keys, no key
    twice), and [loads] returns such values only. *)

Fixpoint nodup_keys (ks : list key) : bool :=
  match ks with
  | [] => true
  | k :: rest => negb (existsb (Py.key_eqb k) rest) && nodup_keys rest
  end.

Definition is_kstr (k : key) : bool :=
  match k with
  | KStr _ => true
  | KInt _ => false
  end.

Fixpoint json_value (v : value) : bool :=
  match v with
  | VList l => forallb json_value l
  | VDict kvs =>
      nodup_keys (map fst kvs)
      && forallb (fun kv => let '(k, x) := kv in is_kstr k && json_value x) kvs
  | _ => true
  end.

Class JsonCodec : Type := {
  bytes : Type;
  dumps : option nat -> value -> bytes;
  loads : bytes -> option value;
  loads_dumps : forall indent v,
    json_value v = true -> loads (dumps indent v) = Some v;
  loads_json : forall c v, loads c = Some v -> json_value v = true
}.

(** ** The box store: the data layer and the route handlers *)

Inductive response (B : Type) : Type :=
| RedirectResponse (url : string) (status_code : Z)
| StreamingResponse (content : B) (media_type : string).
Arguments RedirectResponse {B} url status_code.
Arguments StreamingResponse {B} content media_type.

Declare Scope store_scope.
Delimit Scope store_scope with store.

Section Store.

Context {J : JsonCodec}.
(** [ADMIN_PIN], read from the environment when the module is loaded. *)
Variable ADMIN_PIN : option string.

(** The state: the content of [DATA_FILE], [None] while it does not exist. *)
Definition file_state : Type := option bytes.

(** A handler: from the file before to a result and the file after. A
    write made before an exception is raised stays made. *)
Definition M (A : Type) : Type := file_state -> res A * file_state.

Definition ret {A : Type} (a : A) : M A := fun f => (OK a, f).

Definition raise {A : Type} (e : exn) : M A := fun f => (Raise e, f).

Definition lift {A : Type} (r : res A) : M A := fun f => (r, f).

Definition bind {A B : Type} (m : M A) (k : A -> M B) : M B :=
  fun f =>
    match m f with
    | (OK a, f') => k a f'
    | (Raise e, f') => (Raise e, f')
    end.

Notation "x <- m ;; k" := (bind m (fun x => k))
  (at level 100, m at next level, right associativity, only parsing)
  : store_scope.
Notation "m ;;; k" := (bind m (fun _ => k))
  (at level 100, right associativity, only parsing) : store_scope.

Local Open Scope store_scope.

(** [EMPTY = {"boxes": []}] *)
Definition EMPTY : value := VDict [(KStr "boxes", VList [])].

Definition load_data : M value :=
  fun f =>
    let content :=
      match f with
      | Some c => c
      | None => dumps (Some 2%nat) EMPTY
      end in
    (match loads content with
     | Some d => OK d
     | None => Raise ValueError
     end, Some content).

Definition save_data (d : value) : M unit :=
  fun _ => (OK tt, Some (dumps (Some 2%nat) d)).

(** [next((b for b in d["boxes"] if b["id"] == bid), None)]. The box comes
    with its position: the handlers change the box they found in place, so
    the position stands for the reference into [d["boxes"]]. *)
Fixpoint find_in (bs : list value) (bid : string) (i : nat)
  : res (option (nat * value)) :=
  match bs with
  | [] => OK None
  | b :: rest =>
      (id_ <- Py.getitem b "id" ;;
       if Py.eq_str id_ bid then OK (Some (i, b))
       else find_in rest bid (S i))%res
  end.

Definition find_box (d : value) (bid : string) : res (option (nat * value)) :=
  (boxes <- Py.getitem d "boxes" ;;
   bs <- Py.iter boxes ;;
   find_in bs bid 0%nat)%res.

(** [if not b: raise HTTPException(404)] *)
Definition or_404 (r : option (nat * value)) : res (nat * value) :=
  match r with
  | Some (i, b) =>
      if Py.truthy b then OK (i, b) else Raise (HTTPException 404 None)
  | None => Raise (HTTPException 404 None)
  end.

(** The document once the box found at position [i] has become [b]: the box
    is an element of the list [d["boxes"]], and a change made to it is a
    change of that element. *)
Definition put_box (d : value) (i : nat) (b : value) : value :=
  match d with
  | VDict kvs =>
      match Py.dict_get (KStr "boxes") kvs with
      | Some (VList l) =>
          VDict (Py.dict_set (KStr "boxes") (VList (<[i := b]> l)) kvs)
      | _ => d
      end
  | _ => d
  end.

Definition require_pin (pin : option string) : res unit :=
  match ADMIN_PIN with
  | Some a =>
      if negb (Text.is_empty a)
         && negb (match pin with Some p => String.eqb p a | None => false end)
      then Raise (HTTPException 403 (Some "Invalid PIN"))
      else OK tt
  | None => OK tt
  end.

(** [POST /boxes]. [random] is what the system's random source gives to
    [uuid.uuid4()] during the call. *)
Definition add_box (name location items : string) (pin : option string)
    (random : N) : M (response bytes) :=
  lift (require_pin pin) ;;;
  d <- load_data ;;
  parsed_items <- lift (ItemLineParser.parsed_items items) ;;
  let b := VDict [(KStr "id", VStr (Uuid.uuid4_hex random));
                  (KStr "name", VStr (Text.strip name));
                  (KStr "location", VStr (Text.strip location));
                  (KStr "items", VList parsed_items)] in
  boxes <- lift (Py.getitem d "boxes") ;;
  boxes' <- lift (Py.insert0 boxes b) ;;
  d' <- lift (Py.setitem d "boxes" boxes') ;;
  save_data d' ;;;
  ret (RedirectResponse "/" 303).

(** [POST /items] *)
Definition add_item (box_id name : string) (qty : Z) (pin : option string)
  : M (response bytes) :=
  lift (require_pin pin) ;;;
  d <- load_data ;;
  r <- lift (find_box d box_id) ;;
  ib <- lift (or_404 r) ;;
  let '(i, b) := ib in
  sd <- lift (Py.setdefault b "items" (VList [])) ;;
  let '(items, b1) := sd in
  items' <- lift (Py.append items (ItemLineParser.item (Text.strip name) qty)) ;;
  b2 <- lift (Py.setitem b1 "items" items') ;;
  save_data (put_box d i b2) ;;;
  ret (RedirectResponse ("/boxes/" +:+ box_id) 303).

(** [GET /export] *)
Definition export_json : M (response bytes) :=
  fun f =>
    let content :=
      match f with
      | Some c => c
      | None => dumps None EMPTY
      end in
    (OK (StreamingResponse content "application/json"), f).

(** [POST /import]. [file] is the content of the uploaded file. *)
Definition import_json (file : bytes) (pin : option string)
  : M (response bytes) :=
  lift (require_pin pin) ;;;
  payload <- lift (match loads file with
                   | Some v => OK v
                   | None => Raise ValueError
                   end) ;;
  has_boxes <- lift (Py.contains payload "boxes") ;;
  bad <- lift (if negb has_boxes then OK true
               else (boxes <- Py.getitem payload "boxes" ;;
                     OK (negb (Py.is_list boxes)))%res) ;;
  if (bad : bool) then
    raise (HTTPException 400 (Some "Invalid JSON (expected {'boxes': [...]})"))
  else
    save_data payload ;;;
    ret (RedirectResponse "/" 303).

(** [POST /boxes/update] *)
Definition update_box (box_id name location : string) (pin : option string)
  : M (response bytes) :=
  lift (require_pin pin) ;;;
  d <- load_data ;;
  r <- lift (find_box d box_id) ;;
  ib <- lift (or_404 r) ;;
  let '(i, b) := ib in
  b1 <- lift (Py.setitem b "name" (VStr (Text.strip name))) ;;
  b2 <- lift (Py.setitem b1 "location" (VStr (Text.strip location))) ;;
  save_data (put_box d i b2) ;;;
  ret (RedirectResponse ("/boxes/" +:+ box_id) 303).

(** [[bx for bx in d["boxes"] if bx["id"] != box_id]] *)
Fixpoint keep_other (bs : list value) (box_id : string) : res (list value) :=
  match bs with
  | [] => OK []
  | bx :: rest =>
      (id_ <- Py.getitem bx "id" ;;
       kept <- keep_other rest box_id ;;
       OK (if Py.eq_str id_ box_id then kept else bx :: kept))%res
  end.

(** ['Type "DELETE" to confirm'] *)
Definition confirm_detail : string :=
  "Type " +:+ String "034" ("DELETE" +:+ String "034" " to confirm").

(** [POST /boxes/delete] *)
Definition delete_box (box_id confirm : string) (pin : option string)
  : M (response bytes) :=
  lift (require_pin pin) ;;;
  if negb (String.eqb (Text.upper (Text.strip confirm)) "DELETE") then
    raise (HTTPException 400 (Some confirm_detail))
  else
    d <- load_data ;;
    boxes <- lift (Py.getitem d "boxes") ;;
    before <- lift (Py.len boxes) ;;
    bs <- lift (Py.iter boxes) ;;
    kept <- lift (keep_other bs box_id) ;;
    d' <- lift (Py.setitem d "boxes" (VList kept)) ;;
    if Z.eqb (Z.of_nat (length kept)) before then
      raise (HTTPException 404 None)
    else
      save_data d' ;;;
      ret (RedirectResponse "/" 303).

(** [idx < 0 or idx >= len(items)] *)
Definition check_index (items : value) (idx : Z) : res unit :=
  if idx <? 0 then Raise (HTTPException 400 (Some "Invalid item index"))
  else
    (n <- Py.len items ;;
     if idx >=? n
     then Raise (HTTPException 400 (Some "Invalid item index"))
     else OK tt)%res.

(** [POST /items/update] *)
Definition update_item (box_id : string) (idx : Z) (name : string) (qty : Z)
    (pin : option string) : M (response bytes) :=
  lift (require_pin pin) ;;;
  d <- load_data ;;
  r <- lift (find_box d box_id) ;;
  ib <- lift (or_404 r) ;;
  let '(i, b) := ib in
  sd <- lift (Py.setdefault b "items" (VList [])) ;;
  let '(items, b1) := sd in
  lift (check_index items idx) ;;;
  items' <- lift (Py.setitem_int items idx
                    (ItemLineParser.item (Text.strip name) (Z.max 1 qty))) ;;
  b2 <- lift (Py.setitem b1 "items" items') ;;
  save_data (put_box d i b2) ;;;
  ret (RedirectResponse ("/boxes/" +:+ box_id) 303).

(** [POST /items/delete] *)
Definition delete_item (box_id : string) (idx : Z) (pin : option string)
  : M (response bytes) :=
  lift (require_pin pin) ;;;
  d <- load_data ;;
  r <- lift (find_box d box_id) ;;
  ib <- lift (or_404 r) ;;
  let '(i, b) := ib in
  sd <- lift (Py.setdefault b "items" (VList [])) ;;
  let '(items, b1) := sd in
  lift (check_index items idx) ;;;
  items' <- lift (Py.pop items idx) ;;
  b2 <- lift (Py.setitem b1 "items" items') ;;
  save_data (put_box d i b2) ;;;
  ret (RedirectResponse ("/boxes/" +:+ box_id) 303).

(** The operations of the store, as requests. *)
Inductive request : Type :=
| AddBox (name location items : string) (pin : option string) (random : N)
| AddItem (box_id name : string) (qty : Z) (pin : option string)
| ExportJson
| ImportJson (file : bytes) (pin : option string)
| UpdateBox (box_id name location : string) (pin : option string)
| DeleteBox (box_id confirm : string) (pin : option string)
| UpdateItem (box_id : string) (idx : Z) (name : string) (qty : Z)
    (pin : option string)
| DeleteItem (box_id : string) (idx : Z) (pin : option string).

Definition handle (rq : request) : M (response bytes) :=
  match rq with
  | AddBox name location items pin random =>
      add_box name location items pin random
  | AddItem box_id name qty pin => add_item box_id name qty pin
  | ExportJson => export_json
  | ImportJson file pin => import_json file pin
  | UpdateBox box_id name location pin => update_box box_id name location pin
  | DeleteBox box_id confirm pin => delete_box box_id confirm pin
  | UpdateItem box_id idx name qty pin => update_item box_id idx name qty pin
  | DeleteItem box_id idx pin => delete_item box_id idx pin
  end.

End Store.

(** ** Definitions the statements use *)

(** The item record of the document: [{"name": ..., "qty": ...}]. *)
Abbreviation name_qty n q :=
  (VDict [(KStr "name", VStr n); (KStr "qty", VInt q)]) (only parsing).

Section TextSpec.

Import Text ItemLineParser.

(** Every character of [s] is in the class [p]. *)
Fixpoint all_chars (p : ascii -> bool) (s : string) : bool :=
  match s with
  | EmptyString => true
  | String c s' => p c && all_chars p s'
  end.

(** The number a string of decimal digits denotes, read from the left. *)
Fixpoint decimal (acc : Z) (ds : string) : Z :=
  match ds with
  | EmptyString => acc
  | String c ds' => decimal (10 * acc + digit_value c) ds'
  end.

(** Some character of [s] is in the class [p]. *)
Fixpoint any_char (p : ascii -> bool) (s : string) : bool :=
  match s with
  | EmptyString => false
  | String c s' => p c || any_char p s'
  end.

(** The string has a whitespace character at its front, at its end. *)
Definition head_space (t : string) : bool :=
  match t with
  | EmptyString => false
  | String c _ => isspace c
  end.

Fixpoint last_space (t : string) : bool :=
  match t with
  | EmptyString => false
  | String c t' => if is_empty t' then isspace c else last_space t'
  end.

(** [t] is [s] trimmed: [s] without the whitespace at its two ends. *)
Definition trimmed (s t : string) : Prop :=
  exists a b,
    s = a +:+ t +:+ b /\
    all_chars isspace a = true /\ all_chars isspace b = true /\
    head_space t = false /\ last_space t = false.

(** [n] times the digit 9. *)
Fixpoint nines (n : nat) : string :=
  match n with
  | O => EmptyString
  | S n' => String "9" (nines n')
  end.

(** A line in the shorthand form whose quantity has more digits than
    [int()] reads: no comma, a name part, the separator, spaces if any, and
    more than 4300 digits up to the end. *)
Definition overlong (line0 : string) : Prop :=
  exists name sep ws ds,
    trimmed line0 (name +:+ String sep (ws +:+ ds)) /\
    contains COMMA (name +:+ String sep (ws +:+ ds)) = false /\
    name <> EmptyString /\ is_sep sep = true /\
    all_chars isspace ws = true /\ all_chars isdigit ds = true /\
    4300 < Z.of_nat (String.length ds).

(** The quantity of a comma line: [int] of the trimmed right part, 1 when
    [int] raises. *)
Definition qty_or_1 (right_ : string) : Z :=
  match int (strip right_) with
  | OK n => n
  | Raise _ => 1
  end.

(** What one line adds to the result. *)
Definition line_items (line : string) : list value :=
  match parse_line line with
  | OK (Some it) => [it]
  | _ => []
  end.

(** A line that is skipped: blank once trimmed, or a comma line whose part
    before the last comma is blank once trimmed. *)
Definition skipped (line : string) : Prop :=
  trimmed line EmptyString \/
  exists left_ right_,
    trimmed line (left_ +:+ String COMMA right_) /\
    contains COMMA right_ = false /\ trimmed left_ EmptyString.

End TextSpec.

(** A codec to run the handlers with: the file holds the value and the
    indentation it was written with. *)
Definition layout_codec : JsonCodec.
Proof.
  refine {| bytes := option nat * value;
            dumps := fun indent v => (indent, v);
            loads := fun c => if json_value (snd c) then Some (snd c)
                              else None |}.
  - intros indent v H. cbn [snd]. rewrite H. reflexivity.
  - intros c v. destruct (json_value (snd c)) eqn:E; [|discriminate].
    intros [= <-]. exact E.
Defined.

(** The item list of a box record: the list under ["items"], the empty list
    when the record has no such field. *)
Definition box_items (b : value) : option (list value) :=
  match b with
  | VDict kvs =>
      match Py.dict_get (KStr "items") kvs with
      | None => Some []
      | Some (VList l) => Some l
      | Some _ => None
      end
  | _ => None
  end.

(** The box record with its item list replaced. *)
Definition with_items (b : value) (l : list value) : value :=
  match b with
  | VDict kvs => VDict (Py.dict_set (KStr "items") (VList l) kvs)
  | _ => b
  end.

(** The list under ["boxes"] of a document. *)
Definition boxes_of (d : value) : option (list value) :=
  match d with
  | VDict kvs =>
      match Py.dict_get (KStr "boxes") kvs with
      | Some (VList l) => Some l
      | _ => None
      end
  | _ => None
  end.

(** [b] is a record whose ["id"] is the string [bid]. *)
Definition has_id (bid : string) (b : value) : bool :=
  match Py.getitem b "id" with
  | OK v => Py.eq_str v bid
  | Raise _ => false
  end.


(** The record [add_box] builds, given the items it has parsed. *)
Definition new_box (random : N) (name location : string)
    (parsed_items : list value) : value :=
  VDict [(KStr "id", VStr (Uuid.uuid4_hex random));
         (KStr "name", VStr (Text.strip name));
         (KStr "location", VStr (Text.strip location));
         (KStr "items", VList parsed_items)].

(** The number [uuid4] makes of its draw. *)
Definition uuid_int (random : N) : N :=
  N.lor
    (N.ldiff
       (N.lor (N.ldiff (random mod 2 ^ 128) (N.shiftl 49152 48))
              (N.shiftl 32768 48))
       (N.shiftl 61440 64))
    (N.shiftl 4 76).

(** The bits of a draw that a version-4 UUID keeps: the 128 bits less the
    four that hold the version and the two that hold the variant. *)
Definition random_bits (random : N) : N :=
  N.ldiff (random mod 2 ^ 128)
    (N.lor (N.shiftl 49152 48) (N.shiftl 61440 64)).

(** The document with [b] put before its boxes. *)
Definition prepend_box (d b : value) : value :=
  match d with
  | VDict kvs =>
      match Py.dict_get (KStr "boxes") kvs with
      | Some (VList bs) =>
          VDict (Py.dict_set (KStr "boxes") (VList (b :: bs)) kvs)
      | _ => d
      end
  | _ => d
  end.

(** Documents to run the handlers on: one box with two items, and one box
    whose record has no ["items"] field, as an import may leave it. *)
Definition box_tools : value :=
  VDict [(KStr "id", VStr "a"); (KStr "name", VStr "Tools");
         (KStr "location", VStr "Shelf");
         (KStr "items",
          VList [ItemLineParser.item "Hammer" 1;
                 ItemLineParser.item "Nails" 40])].

Definition doc_tools : value := VDict [(KStr "boxes", VList [box_tools])].

Definition box_bare : value :=
  VDict [(KStr "id", VStr "b"); (KStr "name", VStr "Bare")].

Definition doc_bare : value := VDict [(KStr "boxes", VList [box_bare])].

Section StoreSpec.

Context {J : JsonCodec}.

(** The two errors of the item handlers, as the source raises them: the
    index out of the bounds of the item list, and the box that is not
    there. *)
Definition index_error : exn := HTTPException 400 (Some "Invalid item index").
Definition not_found : exn := HTTPException 404 None.

(** The file after a handler that raised: as it was, or created with the
    empty document by [load_data] where there was none. *)
Definition touched (f f' : file_state) : Prop :=
  f' = f \/ (f = None /\ f' = Some (dumps (Some 2%nat) EMPTY)).

(** A computation that leaves the file as it is when it raises. *)
Definition safe {A : Type} (m : M A) : Prop :=
  forall f e f', m f = (Raise e, f') -> f' = f.

(** A computation that never changes the file. *)
Definition quiet {A : Type} (m : M A) : Prop :=
  forall f r f', m f = (r, f') -> f' = f.

End StoreSpec.

(** ** The pages

    The handlers of the [GET] routes that show boxes. The pages of one box
    are taken up to the template they name and the context they hand to it
    (the request object apart). The two pages that list the boxes go through
    the rendering: [templates.TemplateResponse] renders the template while
    the handler builds the response, so that what the rendering raises on
    the boxes it is given, the handler raises. *)

Inductive template_response : Type :=
| TemplateResponse (name : string) (context : list (string * value)).

Section Pages.

Context {J : JsonCodec}.
Variable ADMIN_PIN : option string.
(** The rendering of the template of a name on a context: the page, or the
    exception Jinja raises. *)
Context {page : Type}.
Variable render : string -> list (string * value) -> res page.

Notation "x <- m ;; k" := (bind m (fun x => k))
  (at level 100, m at next level, right associativity, only parsing)
  : store_scope.

Local Open Scope store_scope.

(** [bool(ADMIN_PIN)] *)
Definition pin_required : value :=
  VBool (match ADMIN_PIN with
         | Some a => negb (Text.is_empty a)
         | None => false
         end).

(** [GET /] *)
Definition home : M page :=
  d <- load_data ;;
  boxes <- lift (Py.getitem d "boxes") ;;
  lift (render "index.html"
          [("boxes", boxes); ("pin_required", pin_required)]).

(** [GET /b/{bid}] *)
Definition box_public (bid : string) : M template_response :=
  d <- load_data ;;
  r <- lift (find_box d bid) ;;
  ib <- lift (or_404 r) ;;
  ret (TemplateResponse "box_public.html" [("box", snd ib)]).

(** [GET /boxes/{bid}] *)
Definition box_admin (bid : string) : M template_response :=
  d <- load_data ;;
  r <- lift (find_box d bid) ;;
  ib <- lift (or_404 r) ;;
  ret (TemplateResponse "box_admin.html"
         [("box", snd ib); ("pin_required", pin_required)]).

(** [GET /labels] *)
Definition labels : M page :=
  d <- load_data ;;
  boxes <- lift (Py.getitem d "boxes") ;;
  lift (render "labels.html" [("boxes", boxes)]).

End Pages.

(** ** Definitions the further statements use *)

(** [b] is a record with an ["id"] that is not the string [bid]. *)
Definition other_id (bid : string) (b : value) : bool :=
  match Py.getitem b "id" with
  | OK v => negb (Py.eq_str v bid)
  | Raise _ => false
  end.

(** [b] is a record with an ["id"] field. *)
Definition has_some_id (b : value) : bool :=
  match Py.getitem b "id" with
  | OK _ => true
  | Raise _ => false
  end.

(** The request goes through [require_pin]: every handler of [handle] but
    [export_json]. *)
Definition pin_of (J : JsonCodec) (rq : request) : option (option string) :=
  match rq with
  | AddBox _ _ _ pin _ => Some pin
  | AddItem _ _ _ pin => Some pin
  | ExportJson => None
  | ImportJson _ pin => Some pin
  | UpdateBox _ _ _ pin => Some pin
  | DeleteBox _ _ pin => Some pin
  | UpdateItem _ _ _ _ pin => Some pin
  | DeleteItem _ _ pin => Some pin
  end.

(** The document with the list under ["boxes"] replaced. *)
Definition set_boxes (d : value) (l : list value) : value :=
  match d with
  | VDict kvs => VDict (Py.dict_set (KStr "boxes") (VList l) kvs)
  | _ => d
  end.

(** The boxes that [delete_box] keeps. *)
Definition without_id (box_id : string) (bs : list value) : list value :=
  List.filter (fun b => negb (has_id box_id b)) bs.

(** What each record of a list gives for its ["id"]. *)
Definition ids_of (bs : list value) : list (res value) :=
  map (fun b => Py.getitem b "id") bs.

(** The requests that change one box in place. *)
Definition changes_one_box (J : JsonCodec) (rq : request) : bool :=
  match rq with
  | AddItem _ _ _ _ | UpdateBox _ _ _ _ | UpdateItem _ _ _ _ _
  | DeleteItem _ _ _ => true
  | _ => false
  end.

(** The error of [import_json] on a payload of the wrong shape. *)
Definition invalid_json : exn :=
  HTTPException 400 (Some "Invalid JSON (expected {'boxes': [...]})").

(** A document in which two boxes have one id, as two equal draws or an
    import leave it. *)
Definition doc_twins : value :=
  VDict [(KStr "boxes",
          VList [box_tools;
                 VDict [(KStr "id", VStr "b"); (KStr "name", VStr "Bare")];
                 VDict [(KStr "id", VStr "a"); (KStr "name", VStr "Twin")]])].

(** A rendering to run the pages with: the page is the template's name
    with the context. *)
Definition unrendered (name : string) (context : list (string * value))
  : res template_response := OK (TemplateResponse name context).

(** A PIN, and two data files as the codec [layout_codec] holds them. *)
Definition pin1 : option string := Some "1234".

Definition file_tools : @file_state layout_codec :=
  Some (Some 2%nat, doc_tools).

Definition file_twins : @file_state layout_codec :=
  Some (Some 2%nat, doc_twins).

(** ** The templates

    [seed(name, content)]: the directory of templates is a map from the
    names of its files to their text. *)
Definition seed (name content : string) (dir : string -> option string)
  : string -> option string :=
  match dir name with
  | Some _ => dir
  | None =>
      fun p => if String.eqb p name then Some (Text.strip content) else dir p
  end.

(** * Properties *)

(** ** Characters and strings *)

Section TextFacts.

Import Text.

Lemma eqb_ascii_true (a b : ascii) : Ascii.eqb a b = true <-> a = b.
Proof. apply Ascii.eqb_eq. Qed.

Lemma sep_not_space c : is_sep c = true -> isspace c = false.
Proof.
  unfold is_sep, TIMES. intros H.
  repeat (apply orb_prop in H; destruct H as [H | H]);
    apply eqb_ascii_true in H; subst c; reflexivity.
Qed.

Lemma sep_not_digit c : is_sep c = true -> isdigit c = false.
Proof.
  unfold is_sep, TIMES. intros H.
  repeat (apply orb_prop in H; destruct H as [H | H]);
    apply eqb_ascii_true in H; subst c; reflexivity.
Qed.

Lemma sep_not_newline c : is_sep c = true -> Ascii.eqb c LF = false.
Proof.
  unfold is_sep, TIMES. intros H.
  repeat (apply orb_prop in H; destruct H as [H | H]);
    apply eqb_ascii_true in H; subst c; reflexivity.
Qed.

Lemma digit_not_space c : isdigit c = true -> isspace c = false.
Proof.
  unfold isdigit, isspace. intros H. cbv zeta in *.
  apply andb_prop in H as [H1 H2].
  apply N.leb_le in H1. apply N.leb_le in H2.
  repeat match goal with
  | |- context [(?a <=? ?b)%N] => destruct (N.leb_spec a b)
  | |- context [(?a =? ?b)%N] => destruct (N.eqb_spec a b)
  end; try reflexivity; lia.
Qed.

End TextFacts.
Section StripFacts.

Import Text.

Lemma is_empty_true s : is_empty s = true <-> s = EmptyString.
Proof. destruct s; simpl; split; congruence. Qed.

Lemma is_empty_false s : is_empty s = false <-> s <> EmptyString.
Proof. destruct s; simpl; split; congruence. Qed.

Lemma append_nil s : EmptyString +:+ s = s.
Proof. reflexivity. Qed.

Lemma append_cons c s t : String c s +:+ t = String c (s +:+ t).
Proof. reflexivity. Qed.

(** *** [strip] *)

Lemma lstrip_head s c r : lstrip s = String c r -> isspace c = false.
Proof.
  induction s as [|d s IH]; simpl; [discriminate|].
  destruct (isspace d) eqn:E; [exact IH|].
  intros [= -> _]. exact E.
Qed.

Lemma lstrip_nonspace c s : isspace c = false -> lstrip (String c s) = String c s.
Proof. intros H. simpl. now rewrite H. Qed.

Lemma rstrip_nonspace c s :
  isspace c = false -> rstrip (String c s) = String c (rstrip s).
Proof. intros H. simpl. rewrite H. now rewrite andb_false_r. Qed.

(** The first character of a stripped string is not a space. *)
Lemma strip_head s c r : strip s = String c r -> isspace c = false.
Proof. apply lstrip_head. Qed.

Lemma strip_nonspace c s :
  isspace c = false -> strip (String c s) = String c (rstrip s).
Proof.
  intros H. unfold strip. rewrite (rstrip_nonspace _ _ H).
  now apply lstrip_nonspace.
Qed.

Lemma lstrip_space_prefix ws s :
  all_chars isspace ws = true -> lstrip (ws +:+ s) = lstrip s.
Proof.
  induction ws as [|c ws IH]; [reflexivity|].
  rewrite append_cons. simpl.
  intros H. apply andb_prop in H as [Hc Hs]. rewrite Hc. now apply IH.
Qed.

Lemma rstrip_digits ds :
  all_chars isdigit ds = true -> rstrip ds = ds.
Proof.
  induction ds as [|c ds IH]; simpl; [reflexivity|].
  intros H. apply andb_prop in H as [Hc Hs].
  rewrite (IH Hs), (digit_not_space _ Hc). now rewrite andb_false_r.
Qed.

Lemma lstrip_digits ds : all_chars isdigit ds = true -> lstrip ds = ds.
Proof.
  destruct ds as [|c ds]; simpl; [reflexivity|].
  intros H. apply andb_prop in H as [Hc _]. now rewrite (digit_not_space _ Hc).
Qed.

Lemma strip_digits ds : all_chars isdigit ds = true -> strip ds = ds.
Proof.
  intros H. unfold strip. rewrite (rstrip_digits _ H). now apply lstrip_digits.
Qed.

(** *** [strip] and the trimmed string *)

Lemma append_assoc s t u : (s +:+ t) +:+ u = s +:+ (t +:+ u).
Proof.
  induction s as [|c s IH]; [reflexivity|].
  rewrite !append_cons. now rewrite IH.
Qed.

Lemma append_nil_r s : s +:+ EmptyString = s.
Proof.
  induction s as [|c s IH]; [reflexivity|]. rewrite append_cons. now rewrite IH.
Qed.

Lemma lstrip_split s :
  exists a, s = a +:+ lstrip s /\ all_chars isspace a = true.
Proof.
  induction s as [|c s (a & E & Ha)]; [now exists EmptyString|].
  cbn [lstrip]. destruct (isspace c) eqn:Ec.
  - exists (String c a). rewrite append_cons, <- E. split; [reflexivity|].
    cbn [all_chars]. now rewrite Ec.
  - now exists EmptyString.
Qed.

Lemma rstrip_split s :
  exists b, s = rstrip s +:+ b /\ all_chars isspace b = true.
Proof.
  induction s as [|c s (b & E & Hb)]; [now exists EmptyString|].
  cbn [rstrip]. destruct (is_empty (rstrip s) && isspace c) eqn:Ec.
  - apply andb_prop in Ec as [Er Ec]. apply is_empty_true in Er.
    rewrite Er, append_nil in E. subst s.
    exists (String c b). split; [reflexivity|]. cbn [all_chars]. now rewrite Ec.
  - exists b. rewrite append_cons, <- E. now split.
Qed.

Lemma last_space_rstrip s : last_space (rstrip s) = false.
Proof.
  induction s as [|c s IH]; [reflexivity|]. cbn [rstrip].
  destruct (is_empty (rstrip s)) eqn:Er; cbn [andb].
  - destruct (isspace c) eqn:Ec; [reflexivity|].
    cbn [last_space]. now rewrite Er.
  - cbn [last_space]. now rewrite Er.
Qed.

Lemma last_space_lstrip s :
  last_space s = false -> last_space (lstrip s) = false.
Proof.
  induction s as [|c s IH]; [reflexivity|]. cbn [lstrip].
  destruct (isspace c) eqn:Ec; [|exact id].
  cbn [last_space]. rewrite Ec. destruct (is_empty s); [discriminate|exact IH].
Qed.

Lemma head_space_lstrip s : head_space (lstrip s) = false.
Proof.
  destruct (lstrip s) as [|c r] eqn:E; [reflexivity|].
  exact (lstrip_head _ _ _ E).
Qed.

Lemma strip_trimmed s : trimmed s (strip s).
Proof.
  destruct (rstrip_split s) as (b & Eb & Hb).
  destruct (lstrip_split (rstrip s)) as (a & Ea & Ha).
  exists a, b. unfold strip. split.
  - rewrite <- append_assoc, <- Ea. exact Eb.
  - repeat split; try assumption.
    + apply head_space_lstrip.
    + apply last_space_lstrip, last_space_rstrip.
Qed.

Lemma rstrip_spaces b : all_chars isspace b = true -> rstrip b = EmptyString.
Proof.
  induction b as [|c b IH]; [reflexivity|]. cbn [all_chars rstrip].
  intros H. apply andb_prop in H as [Hc Hb]. now rewrite (IH Hb), Hc.
Qed.

Lemma rstrip_space_suffix u b :
  all_chars isspace b = true -> rstrip (u +:+ b) = rstrip u.
Proof.
  intros Hb. induction u as [|c u IH].
  - rewrite append_nil. now apply rstrip_spaces.
  - rewrite append_cons. cbn [rstrip]. now rewrite IH.
Qed.

Lemma rstrip_clean t : last_space t = false -> rstrip t = t.
Proof.
  induction t as [|c t IH]; [reflexivity|]. cbn [last_space rstrip].
  destruct t as [|d t].
  - cbn [is_empty rstrip andb]. now intros ->.
  - cbn [is_empty]. intros H. now rewrite (IH H).
Qed.

Lemma lstrip_clean t : head_space t = false -> lstrip t = t.
Proof. destruct t as [|c t]; [reflexivity|]. cbn. now intros ->. Qed.

Lemma last_space_app a t :
  t <> EmptyString -> last_space (a +:+ t) = last_space t.
Proof.
  intros Hne. induction a as [|c a IH]; [reflexivity|].
  rewrite append_cons. cbn [last_space].
  destruct (a +:+ t) as [|d r] eqn:E; [|exact IH].
  destruct a; [now rewrite append_nil in E | now rewrite append_cons in E].
Qed.

(** The trimmed string is the one [strip] returns. *)
Lemma trimmed_strip s t : trimmed s t -> t = strip s.
Proof.
  intros (a & b & -> & Ha & Hb & Hh & Hl). unfold strip.
  rewrite <- append_assoc, (rstrip_space_suffix _ _ Hb).
  destruct t as [|c t].
  - rewrite append_nil_r, (rstrip_spaces _ Ha). reflexivity.
  - rewrite rstrip_clean.
    + rewrite (lstrip_space_prefix _ _ Ha). symmetry. now apply lstrip_clean.
    + now rewrite last_space_app.
Qed.

Lemma trimmed_iff s t : trimmed s t <-> t = strip s.
Proof. split; [apply trimmed_strip | intros ->; apply strip_trimmed]. Qed.

(** *** [in] and [rsplit] *)

Lemma contains_app c s t :
  contains c (s +:+ t) = contains c s || contains c t.
Proof.
  induction s as [|d s IH]; [reflexivity|].
  rewrite append_cons. simpl. rewrite IH. now rewrite orb_assoc.
Qed.

(** [rsplit1] cuts at the last occurrence, and finds one whenever there is
    one. *)
Lemma rsplit1_some c s l r :
  rsplit1 c s = Some (l, r) ->
  s = l +:+ String c r /\ contains c r = false.
Proof.
  revert l r. induction s as [|d s IH]; simpl; [discriminate|].
  intros l r. destruct (rsplit1 c s) as [[l' r']|] eqn:E.
  - intros [= <- <-]. destruct (IH _ _ eq_refl) as [-> Hr].
    now split.
  - destruct (Ascii.eqb c d) eqn:Ecd; [|discriminate].
    intros [= <- <-]. apply eqb_ascii_true in Ecd as ->. split; [reflexivity|].
    clear IH. induction s as [|e s IH]; simpl in *; [reflexivity|].
    destruct (rsplit1 d s) as [[? ?]|]; [discriminate|].
    destruct (Ascii.eqb d e); [discriminate|]. now apply IH.
Qed.

Lemma rsplit1_none c s : rsplit1 c s = None <-> contains c s = false.
Proof.
  induction s as [|d s IH]; simpl; [tauto|].
  destruct (rsplit1 c s) as [[l r]|] eqn:E.
  - split; [discriminate|]. intros H. apply orb_false_elim in H as [_ H].
    apply IH in H. discriminate.
  - destruct (Ascii.eqb c d); simpl; [split; discriminate|].
    split; intros _; [now apply IH|reflexivity].
Qed.

(** *** [int] *)

Lemma int_signed_raises neg t e : int_signed neg t = Raise e -> e = ValueError.
Proof.
  unfold int_signed. destruct (int_digits 0 false t); [|congruence].
  destruct (count_digits t <=? int_max_str_digits); congruence.
Qed.

Lemma int_raises s e : int s = Raise e -> e = ValueError.
Proof.
  unfold int. destruct (strip s) as [|c t]; [apply int_signed_raises|].
  destruct c as [[] [] [] [] [] [] [] []]; apply int_signed_raises.
Qed.

Lemma int_digits_decimal ds acc prev :
  all_chars isdigit ds = true -> (ds <> EmptyString \/ prev = true) ->
  int_digits acc prev ds = Some (decimal acc ds).
Proof.
  revert acc prev. induction ds as [|c ds IH]; simpl; intros acc prev H Hne.
  - destruct Hne as [Hne | ->]; [congruence | reflexivity].
  - apply andb_prop in H as [Hc Hs]. rewrite Hc. apply IH; auto.
Qed.

Lemma count_digits_length ds :
  all_chars isdigit ds = true -> count_digits ds = Z.of_nat (String.length ds).
Proof.
  induction ds as [|c ds IH]; [reflexivity|].
  cbn [all_chars count_digits String.length]. intros H.
  apply andb_prop in H as [-> Hs]. rewrite (IH Hs). lia.
Qed.

Lemma int_signed_digits neg ds :
  all_chars isdigit ds = true -> ds <> EmptyString ->
  int_signed neg ds =
    if Z.of_nat (String.length ds) <=? int_max_str_digits
    then OK (if neg then - decimal 0 ds else decimal 0 ds)
    else Raise ValueError.
Proof.
  intros H Hne. unfold int_signed.
  rewrite (int_digits_decimal ds 0 false H (or_introl Hne)).
  now rewrite (count_digits_length _ H).
Qed.

(** [int] on a string of digits: the number they denote, up to the limit
    on their count. *)
Lemma int_digits_cases ds :
  all_chars isdigit ds = true -> ds <> EmptyString ->
  int ds =
    if Z.of_nat (String.length ds) <=? int_max_str_digits
    then OK (decimal 0 ds) else Raise ValueError.
Proof.
  intros H Hne. unfold int. rewrite (strip_digits _ H).
  pose proof (int_signed_digits false ds H Hne) as E.
  destruct ds as [|c t]; [congruence|].
  simpl in H. apply andb_prop in H as [Hc _].
  destruct c as [[] [] [] [] [] [] [] []]; try discriminate Hc; exact E.
Qed.

Lemma int_of_digits ds :
  all_chars isdigit ds = true -> ds <> EmptyString ->
  Z.of_nat (String.length ds) <= 4300 ->
  int ds = OK (decimal 0 ds).
Proof.
  intros H Hne Hlen. rewrite (int_digits_cases _ H Hne).
  unfold int_max_str_digits.
  now destruct (Z.leb_spec (Z.of_nat (String.length ds)) 4300); [|lia].
Qed.

Lemma int_of_long_digits ds :
  all_chars isdigit ds = true -> 4300 < Z.of_nat (String.length ds) ->
  int ds = Raise ValueError.
Proof.
  intros H Hlen.
  assert (Hne : ds <> EmptyString) by (intros ->; cbn in Hlen; lia).
  rewrite (int_digits_cases _ H Hne). unfold int_max_str_digits.
  now destruct (Z.leb_spec (Z.of_nat (String.length ds)) 4300); [lia|].
Qed.

(** A sign before the digits. *)
Lemma int_of_minus_digits ds :
  all_chars isdigit ds = true -> ds <> EmptyString ->
  Z.of_nat (String.length ds) <= 4300 ->
  int (String "-" ds) = OK (- decimal 0 ds).
Proof.
  intros H Hne Hlen. unfold int.
  rewrite (strip_nonspace "-" ds eq_refl), (rstrip_digits _ H).
  rewrite (int_signed_digits true ds H Hne). unfold int_max_str_digits.
  now destruct (Z.leb_spec (Z.of_nat (String.length ds)) 4300); [|lia].
Qed.

End StripFacts.
Section RegexFacts.

Import Text.

Lemma any_char_app p s t : any_char p (s +:+ t) = any_char p s || any_char p t.
Proof.
  induction s as [|c s IH]; [reflexivity|].
  rewrite append_cons. simpl. rewrite IH. now rewrite orb_assoc.
Qed.

Lemma take_digits_spec s ds r :
  take_digits s = (ds, r) -> s = ds +:+ r /\ all_chars isdigit ds = true.
Proof.
  revert ds r. induction s as [|c s IH]; simpl; intros ds r.
  - intros [= <- <-]. now split.
  - destruct (isdigit c) eqn:Ec.
    + destruct (take_digits s) as [ds' r'] eqn:E. intros [= <- <-].
      destruct (IH _ _ eq_refl) as [-> Hd]. split; [reflexivity|].
      simpl. now rewrite Ec.
    + intros [= <- <-]. now split.
Qed.

Lemma take_digits_all ds :
  all_chars isdigit ds = true -> take_digits ds = (ds, EmptyString).
Proof.
  induction ds as [|c ds IH]; simpl; [reflexivity|].
  intros H. apply andb_prop in H as [Hc Hs]. now rewrite Hc, (IH Hs).
Qed.

(** A separator further on blocks the end of the pattern: it is neither a
    space nor a digit, and [$] does not hold before it. *)
Lemma any_sep_lstrip r :
  any_char is_sep r = true -> any_char is_sep (lstrip r) = true.
Proof.
  induction r as [|c r IH]; simpl; [discriminate|].
  intros H. destruct (isspace c) eqn:Ec; [|exact H].
  apply IH. destruct (is_sep c) eqn:Es; [|exact H].
  now rewrite (sep_not_space _ Es) in Ec.
Qed.

Lemma any_sep_take_digits r ds r2 :
  any_char is_sep r = true -> take_digits r = (ds, r2) ->
  any_char is_sep r2 = true.
Proof.
  revert ds r2. induction r as [|c r IH]; simpl; [discriminate|].
  intros ds r2 H. destruct (isdigit c) eqn:Ec.
  - destruct (take_digits r) as [ds' r'] eqn:E. intros [= <- <-].
    refine (IH _ _ _ eq_refl).
    destruct (is_sep c) eqn:Es; [|exact H].
    now rewrite (sep_not_digit _ Es) in Ec.
  - intros [= <- <-]. exact H.
Qed.

Lemma any_sep_not_at_end r : any_char is_sep r = true -> at_end r = false.
Proof.
  destruct r as [|c [|d r]]; simpl; try reflexivity; [discriminate|].
  rewrite orb_false_r. apply sep_not_newline.
Qed.

Lemma tail_match_blocked c r :
  any_char is_sep r = true -> tail_match (String c r) = None.
Proof.
  intros H. unfold tail_match. destruct (is_sep c); [|reflexivity].
  destruct (take_digits (lstrip r)) as [ds r2] eqn:E.
  apply any_sep_lstrip in H.
  rewrite (any_sep_not_at_end _ (any_sep_take_digits _ _ _ H E)).
  now rewrite andb_false_r.
Qed.

Lemma tail_match_here sep ws ds :
  is_sep sep = true -> all_chars isspace ws = true ->
  all_chars isdigit ds = true -> ds <> EmptyString ->
  tail_match (String sep (ws +:+ ds)) = Some ds.
Proof.
  intros Hs Hw Hd Hne. unfold tail_match. rewrite Hs.
  rewrite (lstrip_space_prefix _ _ Hw), (lstrip_digits _ Hd).
  rewrite (take_digits_all _ Hd).
  apply is_empty_false in Hne. now rewrite Hne.
Qed.

Lemma any_sep_tail name sep rest :
  is_sep sep = true -> any_char is_sep (name +:+ String sep rest) = true.
Proof.
  intros H. rewrite any_char_app. simpl. rewrite H. now rewrite orb_true_r.
Qed.

(** The lazy group stops at the separator that the end of the pattern
    follows, and not before. *)
Lemma lazy_group_found name sep ws ds :
  contains LF name = false ->
  is_sep sep = true -> all_chars isspace ws = true ->
  all_chars isdigit ds = true -> ds <> EmptyString ->
  lazy_group (name +:+ String sep (ws +:+ ds)) = Some (name, ds).
Proof.
  intros Hn Hs Hw Hd Hne. induction name as [|c name IH].
  - rewrite append_nil.
    assert (E := tail_match_here _ _ _ Hs Hw Hd Hne).
    unfold lazy_group. destruct ws; simpl in *; now rewrite E.
  - rewrite append_cons. cbn [contains] in Hn.
    apply orb_false_elim in Hn as [Hc Hn].
    assert (E : tail_match (String c (name +:+ String sep (ws +:+ ds))) = None)
      by (apply tail_match_blocked, any_sep_tail, Hs).
    cbn [lazy_group]. rewrite E.
    rewrite Ascii.eqb_sym, Hc. now rewrite (IH Hn).
Qed.

Lemma search_found name sep ws ds :
  name <> EmptyString -> contains LF name = false ->
  is_sep sep = true -> all_chars isspace ws = true ->
  all_chars isdigit ds = true -> ds <> EmptyString ->
  search (name +:+ String sep (ws +:+ ds)) = Some (name, ds).
Proof.
  intros Hne Hn Hs Hw Hd Hds. destruct name as [|c name]; [congruence|].
  rewrite append_cons. cbn [contains] in Hn.
  apply orb_false_elim in Hn as [Hc Hn].
  assert (E : match_here (String c (name +:+ String sep (ws +:+ ds)))
              = Some (String c name, ds)).
  { unfold match_here. rewrite Ascii.eqb_sym, Hc.
    now rewrite (lazy_group_found _ _ _ _ Hn Hs Hw Hd Hds). }
  cbn [search]. now rewrite E.
Qed.

(** No match when the line ends in the separator itself. *)
Lemma tail_match_sep_end u sep :
  is_sep sep = true -> tail_match (u +:+ String sep EmptyString) = None.
Proof.
  intros Hs. destruct u as [|c u].
  - rewrite append_nil. unfold tail_match. now rewrite Hs.
  - rewrite append_cons. apply tail_match_blocked, any_sep_tail, Hs.
Qed.

Lemma lazy_group_sep_end u sep :
  is_sep sep = true -> lazy_group (u +:+ String sep EmptyString) = None.
Proof.
  intros Hs. induction u as [|c u IH].
  - assert (E := tail_match_sep_end EmptyString _ Hs).
    rewrite append_nil in *. cbn [lazy_group]. rewrite E.
    now rewrite (sep_not_newline _ Hs).
  - assert (E := tail_match_sep_end (String c u) _ Hs).
    rewrite append_cons in *. cbn [lazy_group]. rewrite E, IH.
    now destruct (Ascii.eqb c LF).
Qed.

Lemma search_sep_end u sep :
  is_sep sep = true -> search (u +:+ String sep EmptyString) = None.
Proof.
  intros Hs. induction u as [|c u IH].
  - rewrite append_nil. cbn. now rewrite (sep_not_newline _ Hs).
  - rewrite append_cons. cbn [search match_here].
    rewrite (lazy_group_sep_end _ _ Hs), IH.
    now destruct (Ascii.eqb c LF).
Qed.

(** Group 2 of a match is a non-empty string of digits. *)
Lemma tail_match_digits s ds :
  tail_match s = Some ds ->
  all_chars isdigit ds = true /\ ds <> EmptyString.
Proof.
  unfold tail_match. destruct s as [|c r]; [discriminate|].
  destruct (is_sep c); [|discriminate].
  destruct (take_digits (lstrip r)) as [ds' r2] eqn:E.
  destruct (negb (is_empty ds')) eqn:Ene; simpl; [|discriminate].
  destruct (at_end r2); [|discriminate]. intros [= <-].
  split; [apply (take_digits_spec _ _ _ E)|].
  apply is_empty_false. now destruct (is_empty ds').
Qed.

Lemma lazy_group_digits s g ds :
  lazy_group s = Some (g, ds) ->
  all_chars isdigit ds = true /\ ds <> EmptyString.
Proof.
  revert g. induction s as [|c s IH]; intros g; cbn [lazy_group].
  - destruct (tail_match EmptyString) eqn:E; [|discriminate].
    intros [= _ <-]. now apply tail_match_digits in E.
  - destruct (tail_match (String c s)) eqn:E.
    + intros [= _ <-]. now apply tail_match_digits in E.
    + destruct (Ascii.eqb c LF); [discriminate|].
      destruct (lazy_group s) as [[g' ds']|]; [|discriminate].
      intros [= _ <-]. now apply (IH g').
Qed.

Lemma search_digits s g ds :
  search s = Some (g, ds) ->
  all_chars isdigit ds = true /\ ds <> EmptyString.
Proof.
  induction s as [|c s IH]; cbn [search match_here]; [discriminate|].
  destruct (Ascii.eqb c LF).
  - exact IH.
  - destruct (lazy_group s) as [[g' ds']|] eqn:E.
    + intros [= _ <-]. now apply lazy_group_digits in E.
    + exact IH.
Qed.

(** The shape of a match: group 1, the separator, spaces, group 2. *)
Lemma at_end_no_newline r : contains LF r = false -> at_end r = true -> r = EmptyString.
Proof.
  destruct r as [|c [|d r]]; cbn [at_end contains]; [reflexivity| |discriminate].
  rewrite orb_false_r, Ascii.eqb_sym. congruence.
Qed.

Lemma tail_match_shape s ds :
  contains LF s = false -> tail_match s = Some ds ->
  exists sep ws,
    s = String sep (ws +:+ ds) /\ is_sep sep = true /\
    all_chars isspace ws = true.
Proof.
  unfold tail_match. destruct s as [|c r]; [discriminate|].
  cbn [contains]. intros Hn. apply orb_false_elim in Hn as [_ Hn].
  destruct (is_sep c) eqn:Es; [|discriminate].
  destruct (take_digits (lstrip r)) as [ds' r2] eqn:E.
  destruct (negb (is_empty ds')); cbn [andb]; [|discriminate].
  destruct (at_end r2) eqn:Ee; [|discriminate]. intros [= <-].
  destruct (lstrip_split r) as (ws & Er & Hws).
  apply take_digits_spec in E as [E _].
  assert (Hr2 : r2 = EmptyString).
  { apply at_end_no_newline; [|exact Ee].
    rewrite Er, E, !contains_app in Hn.
    apply orb_false_elim in Hn as [_ Hn]. now apply orb_false_elim in Hn. }
  subst r2. rewrite append_nil_r in E.
  exists c, ws. rewrite <- E, <- Er. now repeat split.
Qed.

Lemma lazy_group_shape t g ds :
  contains LF t = false -> lazy_group t = Some (g, ds) ->
  exists sep ws,
    t = g +:+ String sep (ws +:+ ds) /\ is_sep sep = true /\
    all_chars isspace ws = true.
Proof.
  revert g. induction t as [|c t IH]; intros g Hn; cbn [lazy_group].
  - destruct (tail_match EmptyString) eqn:E; [|discriminate].
    intros [= <- <-]. exact (tail_match_shape _ _ Hn E).
  - destruct (tail_match (String c t)) eqn:E.
    + intros [= <- <-]. exact (tail_match_shape _ _ Hn E).
    + destruct (Ascii.eqb c LF); [discriminate|].
      destruct (lazy_group t) as [[g' ds']|] eqn:El; [|discriminate].
      intros [= <- <-]. cbn [contains] in Hn.
      apply orb_false_elim in Hn as [_ Hn].
      destruct (IH _ Hn eq_refl) as (sep & ws & -> & Hs & Hw).
      exists sep, ws. now repeat split.
Qed.

End RegexFacts.
Section ParserFacts.

Import Text ItemLineParser.

Lemma rsplit1_app c l r :
  contains c r = false -> rsplit1 c (l +:+ String c r) = Some (l, r).
Proof.
  intros Hr. induction l as [|d l IH].
  - rewrite append_nil. cbn [rsplit1].
    apply rsplit1_none in Hr. rewrite Hr. now rewrite Ascii.eqb_refl.
  - rewrite append_cons. cbn [rsplit1]. now rewrite IH.
Qed.

Lemma parse_line_comma line0 left_ right_ :
  strip line0 = left_ +:+ String COMMA right_ ->
  contains COMMA right_ = false ->
  parse_line line0 =
    OK (if is_empty (strip left_) then None
        else Some (item (strip left_) (qty_or_1 right_))).
Proof.
  intros E Hr. unfold parse_line. rewrite E.
  assert (Hne : is_empty (left_ +:+ String COMMA right_) = false)
    by (now destruct left_).
  assert (Hc : contains COMMA (left_ +:+ String COMMA right_) = true).
  { rewrite contains_app. cbn [contains]. rewrite Ascii.eqb_refl.
    now rewrite orb_true_r. }
  rewrite Hne, Hc, (rsplit1_app _ _ _ Hr). unfold qty_or_1.
  destruct (int (strip right_)) as [n|e] eqn:Ei; cbn [res_bind].
  - now destruct (is_empty (strip left_)).
  - rewrite (int_raises _ _ Ei). cbn [res_bind].
    now destruct (is_empty (strip left_)).
Qed.

Lemma parse_line_blank line0 : strip line0 = EmptyString -> parse_line line0 = OK None.
Proof. intros E. unfold parse_line. now rewrite E. Qed.

(** *** Lines hold no line boundary *)

Lemma any_char_lstrip p s : any_char p (lstrip s) = true -> any_char p s = true.
Proof.
  induction s as [|c s IH]; simpl; [discriminate|].
  destruct (isspace c); [|exact id]. intros H. rewrite (IH H). apply orb_true_r.
Qed.

Lemma any_char_rstrip p s : any_char p (rstrip s) = true -> any_char p s = true.
Proof.
  induction s as [|c s IH]; simpl; [discriminate|].
  destruct (is_empty (rstrip s) && isspace c); simpl; [discriminate|].
  intros H. apply orb_prop in H as [H | H]; [now rewrite H|].
  rewrite (IH H). apply orb_true_r.
Qed.

Lemma any_char_strip p s : any_char p (strip s) = true -> any_char p s = true.
Proof. intros H. now apply any_char_rstrip, any_char_lstrip. Qed.

Lemma contains_any p c s :
  p c = true -> contains c s = true -> any_char p s = true.
Proof.
  intros Hp. induction s as [|d s IH]; simpl; [discriminate|].
  intros H. apply orb_prop in H as [H | H].
  - apply eqb_ascii_true in H as <-. now rewrite Hp.
  - rewrite (IH H). apply orb_true_r.
Qed.

Lemma splitlines_no_linebreak s :
  Forall (fun l => any_char is_linebreak l = false) (splitlines s).
Proof.
  induction s as [|c s IH]; cbn [splitlines]; [constructor|].
  destruct (is_linebreak c) eqn:Ec.
  - destruct s as [|c' s'']; [repeat constructor|].
    destruct (Ascii.eqb c CR && Ascii.eqb c' LF) eqn:E.
    + constructor; [reflexivity|].
      apply andb_prop in E as [_ E]. apply eqb_ascii_true in E as ->.
      cbn [splitlines] in IH. change (is_linebreak LF) with true in IH.
      cbv iota in IH. change (Ascii.eqb LF CR) with false in IH.
      destruct s'' as [|c2 s2]; [constructor|].
      cbn [andb] in IH. now inversion IH.
    + constructor; [reflexivity|exact IH].
  - destruct (splitlines s) as [|l ls]; constructor.
    + simpl. now rewrite Ec.
    + constructor.
    + simpl. rewrite Ec. now inversion IH.
    + now inversion IH.
Qed.

Lemma line_no_newline items line0 :
  In line0 (splitlines items) -> contains LF (strip line0) = false.
Proof.
  intros Hin. destruct (contains LF (strip line0)) eqn:E; [|reflexivity].
  apply (contains_any is_linebreak) in E; [|reflexivity].
  apply any_char_strip in E.
  pose proof (splitlines_no_linebreak items) as HF.
  rewrite Forall_forall in HF. specialize (HF _ ltac:(apply list_elem_of_In; exact Hin)).
  simpl in HF. congruence.
Qed.

End ParserFacts.
Section LineFacts.

Import Text ItemLineParser.

Lemma strip_name_nonempty line0 name rest :
  strip line0 = name +:+ rest -> name <> EmptyString ->
  strip name <> EmptyString.
Proof.
  intros E Hne. destruct name as [|c name]; [congruence|].
  rewrite append_cons in E. apply strip_head in E.
  now rewrite (strip_nonspace _ _ E).
Qed.

(** Without a newline in the string, a match of the pattern starts at the
    first character. *)
Lemma lazy_group_none_search s :
  contains LF s = false -> lazy_group s = None -> search s = None.
Proof.
  induction s as [|c s IH]; [reflexivity|].
  cbn [contains]. intros H. apply orb_false_elim in H as [Hc Hs].
  cbn [lazy_group search match_here]. rewrite Ascii.eqb_sym, Hc.
  destruct (tail_match (String c s)); [discriminate|].
  destruct (lazy_group s) as [[g ds]|] eqn:E; [discriminate|].
  intros _. now apply IH.
Qed.

Lemma search_group1 s g1 g2 :
  contains LF s = false -> search s = Some (g1, g2) ->
  exists rest, s = g1 +:+ rest /\ g1 <> EmptyString.
Proof.
  destruct s as [|c s]; [discriminate|].
  cbn [contains]. intros H. apply orb_false_elim in H as [Hc Hs].
  cbn [search match_here]. rewrite Ascii.eqb_sym, Hc.
  destruct (lazy_group s) as [[g ds]|] eqn:E.
  - intros [= <- <-].
    assert (Hp : forall t g ds, lazy_group t = Some (g, ds) ->
                 exists rest, t = g +:+ rest).
    { clear. induction t as [|d t IH]; intros g ds; cbn [lazy_group].
      - destruct (tail_match EmptyString); [|discriminate].
        intros [= <- _]. now exists EmptyString.
      - destruct (tail_match (String d t)).
        + intros [= <- _]. now exists (String d t).
        + destruct (Ascii.eqb d LF); [discriminate|].
          destruct (lazy_group t) as [[g' ds']|] eqn:E; [|discriminate].
          intros [= <- _]. destruct (IH _ _ eq_refl) as [rest ->].
          now exists rest. }
    destruct (Hp _ _ _ E) as [rest ->]. exists rest. now split.
  - now rewrite (lazy_group_none_search _ Hs E).
Qed.

Lemma search_shape s g1 g2 :
  contains LF s = false -> search s = Some (g1, g2) ->
  exists sep ws,
    s = g1 +:+ String sep (ws +:+ g2) /\ g1 <> EmptyString /\
    is_sep sep = true /\ all_chars isspace ws = true.
Proof.
  destruct s as [|c s]; [discriminate|].
  cbn [contains]. intros H. apply orb_false_elim in H as [Hc Hs].
  cbn [search match_here]. rewrite Ascii.eqb_sym, Hc.
  destruct (lazy_group s) as [[g ds]|] eqn:E.
  - intros [= <- <-].
    destruct (lazy_group_shape _ _ _ Hs E) as (sep & ws & -> & Hsep & Hw).
    exists sep, ws. now repeat split.
  - now rewrite (lazy_group_none_search _ Hs E).
Qed.

End LineFacts.

(** ** What the loop returns, and when it raises *)

Section ParseResults.

Import Text ItemLineParser.

Lemma parse_line_shorthand line0 :
  strip line0 <> EmptyString -> contains COMMA (strip line0) = false ->
  parse_line line0 =
    match search (strip line0) with
    | Some (g1, g2) =>
        match int g2 with
        | OK qty =>
            OK (if is_empty (strip g1) then None
                else Some (item (strip g1) qty))
        | Raise e => Raise e
        end
    | None => OK (Some (item (strip line0) 1))
    end.
Proof.
  intros Hne Hc. apply is_empty_false in Hne.
  unfold parse_line. rewrite Hne, Hc.
  destruct (search (strip line0)) as [[g1 g2]|]; cbn [res_bind].
  - destruct (int g2) as [q|e]; cbn [res_bind]; [|reflexivity].
    now destruct (is_empty (strip g1)).
  - now rewrite Hne.
Qed.

Lemma parse_line_comma_line line0 :
  contains COMMA (strip line0) = true ->
  exists left_ right_,
    strip line0 = left_ +:+ String COMMA right_ /\
    contains COMMA right_ = false /\
    parse_line line0 =
      OK (if is_empty (strip left_) then None
          else Some (item (strip left_) (qty_or_1 right_))).
Proof.
  intros Hc. destruct (rsplit1 COMMA (strip line0)) as [[l r]|] eqn:Er.
  2: { apply rsplit1_none in Er. congruence. }
  apply rsplit1_some in Er as [El Hr]. exists l, r.
  split; [exact El|]. split; [exact Hr|]. exact (parse_line_comma _ _ _ El Hr).
Qed.

(** The only error of the loop body is the [ValueError] of [int]. *)
Lemma parse_line_cases line0 :
  (exists r, parse_line line0 = OK r) \/ parse_line line0 = Raise ValueError.
Proof.
  destruct (strip line0) as [|c s] eqn:E.
  { left. eexists. now apply parse_line_blank. }
  assert (Hne : strip line0 <> EmptyString) by (rewrite E; discriminate).
  destruct (contains COMMA (strip line0)) eqn:Hc.
  - destruct (parse_line_comma_line _ Hc) as (l & r & _ & _ & ->). eauto.
  - rewrite (parse_line_shorthand _ Hne Hc).
    destruct (search (strip line0)) as [[g1 g2]|]; [|eauto].
    destruct (int g2) as [q|e] eqn:Ei; [eauto|].
    right. now rewrite (int_raises _ _ Ei).
Qed.

Lemma parse_line_raise items line0 e :
  In line0 (splitlines items) -> parse_line line0 = Raise e ->
  e = ValueError /\ overlong line0.
Proof.
  intros Hin Hp.
  destruct (strip line0) as [|c s] eqn:E.
  { rewrite (parse_line_blank _ E) in Hp. discriminate. }
  assert (Hne : strip line0 <> EmptyString) by (rewrite E; discriminate).
  clear E c s.
  destruct (contains COMMA (strip line0)) eqn:Hc.
  { destruct (parse_line_comma_line _ Hc) as (l & r & _ & _ & Hq).
    rewrite Hq in Hp. discriminate. }
  rewrite (parse_line_shorthand _ Hne Hc) in Hp.
  destruct (search (strip line0)) as [[g1 g2]|] eqn:Es; [|discriminate].
  destruct (int g2) as [q|e'] eqn:Ei; [discriminate|].
  injection Hp as ->. split; [exact (int_raises _ _ Ei)|].
  destruct (search_digits _ _ _ Es) as [Hd Hds].
  destruct (search_shape _ _ _ (line_no_newline _ _ Hin) Es)
    as (sep & ws & El & Hg & Hsep & Hw).
  exists g1, sep, ws, g2. rewrite <- El.
  split; [apply strip_trimmed|]. split; [exact Hc|].
  repeat split; try assumption.
  rewrite (int_digits_cases _ Hd Hds) in Ei. unfold int_max_str_digits in Ei.
  destruct (Z.leb_spec (Z.of_nat (String.length g2)) 4300); [discriminate|].
  assumption.
Qed.

Lemma overlong_raise items line0 :
  In line0 (splitlines items) -> overlong line0 ->
  parse_line line0 = Raise ValueError.
Proof.
  intros Hin (name & sep & ws & ds & Ht & Hc & Hne & Hsep & Hw & Hd & Hlen).
  apply trimmed_strip in Ht.
  assert (Hn : contains LF name = false).
  { pose proof (line_no_newline _ _ Hin) as H. rewrite <- Ht, contains_app in H.
    now apply orb_false_elim in H. }
  assert (Hds : ds <> EmptyString) by (intros ->; cbn in Hlen; lia).
  assert (Hl : strip line0 <> EmptyString)
    by (rewrite <- Ht; now destruct name).
  rewrite Ht in Hc.
  rewrite (parse_line_shorthand _ Hl Hc), <- Ht.
  rewrite (search_found _ _ _ _ Hne Hn Hsep Hw Hd Hds).
  now rewrite (int_of_long_digits _ Hd Hlen).
Qed.

Lemma parse_lines_ok lines acc out :
  parse_lines lines acc = OK out -> out = acc ++ flat_map line_items lines.
Proof.
  revert acc. induction lines as [|line rest IH]; intros acc;
    cbn [parse_lines flat_map].
  - intros [= <-]. now rewrite app_nil_r.
  - unfold line_items at 1. destruct (parse_line line) as [r|e];
      cbn [res_bind]; [|discriminate].
    intros H. apply IH in H as ->. destruct r as [it|]; [|reflexivity].
    now rewrite <- app_assoc.
Qed.

Lemma parse_lines_raise lines acc e :
  parse_lines lines acc = Raise e ->
  exists line, In line lines /\ parse_line line = Raise e.
Proof.
  revert acc. induction lines as [|line rest IH]; intros acc;
    cbn [parse_lines]; [discriminate|].
  destruct (parse_line line) as [r|e'] eqn:E; cbn [res_bind].
  - intros H. destruct (IH _ H) as (l & Hin & Hl). exists l. split; [now right|exact Hl].
  - intros [= ->]. exists line. split; [now left|exact E].
Qed.

Lemma parse_lines_run lines acc :
  (forall line, In line lines -> exists r, parse_line line = OK r) ->
  parse_lines lines acc = OK (acc ++ flat_map line_items lines).
Proof.
  intros H. destruct (parse_lines lines acc) as [out|e] eqn:E.
  - now rewrite (parse_lines_ok _ _ _ E).
  - destruct (parse_lines_raise _ _ _ E) as (l & Hin & Hl).
    destruct (H _ Hin) as [r Hr]. congruence.
Qed.

Lemma parse_lines_raises lines acc line :
  In line lines -> parse_line line = Raise ValueError ->
  parse_lines lines acc = Raise ValueError.
Proof.
  revert acc. induction lines as [|l rest IH]; intros acc Hin Hl; [destruct Hin|].
  cbn [parse_lines]. destruct (parse_line_cases l) as [[r Hr] | Hr].
  - rewrite Hr. cbn [res_bind]. destruct Hin as [-> | Hin]; [congruence|].
    now apply IH.
  - now rewrite Hr.
Qed.

Lemma parsed_items_cases items :
  parsed_items items = OK (flat_map line_items (splitlines items)) \/
  parsed_items items = Raise ValueError.
Proof.
  unfold parsed_items.
  destruct (parse_lines (splitlines items) []) as [out|e] eqn:E.
  - left. now rewrite (parse_lines_ok _ _ _ E).
  - right. destruct (parse_lines_raise _ _ _ E) as (l & Hin & Hl).
    now destruct (parse_line_raise _ _ _ Hin Hl) as [-> _].
Qed.

End ParseResults.

(** ** The store *)

Section StoreFacts.

Context {J : JsonCodec}.
Variable ADMIN_PIN : option string.


(** *** Running the monad *)

Lemma bind_lift {A B : Type} (r : res A) (k : A -> M B) f :
  bind (lift r) k f = match r with OK a => k a f | Raise e => (Raise e, f) end.
Proof. now destruct r. Qed.

Lemma bind_load {B : Type} (k : value -> M B) f d f1 :
  load_data f = (OK d, f1) -> bind load_data k f = k d f1.
Proof. intros H. unfold bind. now rewrite H. Qed.

Lemma load_data_file c d : loads c = Some d -> load_data (Some c) = (OK d, Some c).
Proof. intros H. unfold load_data. now rewrite H. Qed.

Lemma json_value_EMPTY : json_value EMPTY = true.
Proof. reflexivity. Qed.

(** The first access creates the file, with the empty document. *)
Lemma load_data_fresh :
  load_data None = (OK EMPTY, Some (dumps (Some 2%nat) EMPTY)).
Proof. unfold load_data. now rewrite (loads_dumps _ _ json_value_EMPTY). Qed.

(** *** Dictionaries *)

Lemma dict_set_absent k v w kvs :
  Py.dict_get k kvs = None ->
  Py.dict_set k v (kvs ++ [(k, w)]) = kvs ++ [(k, v)] /\
  Py.dict_set k v kvs = kvs ++ [(k, v)].
Proof.
  induction kvs as [|[k' v'] kvs IH]; cbn [Py.dict_get Py.dict_set app].
  - intros _. assert (E : Py.key_eqb k k = true).
    { destruct k; simpl; [apply String.eqb_refl | apply Z.eqb_refl]. }
    now rewrite E.
  - destruct (Py.key_eqb k k'); [discriminate|]. intros H.
    destruct (IH H) as [-> ->]. now split.
Qed.

Lemma dict_get_set_same k v kvs :
  Py.dict_get k (Py.dict_set k v kvs) = Some v.
Proof.
  assert (E : Py.key_eqb k k = true).
  { destruct k; simpl; [apply String.eqb_refl | apply Z.eqb_refl]. }
  induction kvs as [|[k' v'] kvs IH]; cbn [Py.dict_get Py.dict_set].
  - now rewrite E.
  - destruct (Py.key_eqb k k') eqn:Ek; cbn [Py.dict_get]; now rewrite ?E, ?Ek.
Qed.

Lemma key_eqb_eq a b : Py.key_eqb a b = true <-> a = b.
Proof.
  destruct a, b; simpl; try (split; congruence).
  - rewrite String.eqb_eq. split; congruence.
  - rewrite Z.eqb_eq. split; congruence.
Qed.

Lemma dict_get_set_other k k' v kvs :
  k <> k' -> Py.dict_get k' (Py.dict_set k v kvs) = Py.dict_get k' kvs.
Proof.
  intros Hne. induction kvs as [|[k2 v2] kvs IH]; cbn [Py.dict_get Py.dict_set].
  - destruct (Py.key_eqb k' k) eqn:E; [|reflexivity].
    apply key_eqb_eq in E. congruence.
  - destruct (Py.key_eqb k k2) eqn:E; cbn [Py.dict_get].
    + apply key_eqb_eq in E as <-.
      destruct (Py.key_eqb k' k) eqn:E'; [|reflexivity].
      apply key_eqb_eq in E'. congruence.
    + now rewrite IH.
Qed.

(** *** [find_box] *)

(** The box found is the first record whose ["id"] is the string looked
    for; every record before it has an ["id"], another one. *)
Lemma find_in_some bs bid k i b :
  find_in bs bid k = OK (Some (i, b)) ->
  (k <= i)%nat /\ bs !! (i - k)%nat = Some b /\ has_id bid b = true /\
  (forall j b', (j < i - k)%nat -> bs !! j = Some b' -> has_id bid b' = false).
Proof.
  revert k. induction bs as [|b0 bs IH]; intros k; cbn [find_in]; [discriminate|].
  destruct (Py.getitem b0 "id") as [v|e] eqn:Eg; cbn [res_bind]; [|discriminate].
  destruct (Py.eq_str v bid) eqn:Ev.
  - intros [= <- <-]. replace (k - k)%nat with 0%nat by lia.
    repeat split; [lia | | intros; lia].
    unfold has_id. now rewrite Eg.
  - intros H. destruct (IH _ H) as (Hk & Hl & Hid & Hbefore).
    replace (i - k)%nat with (S (i - S k)) by lia.
    repeat split; [lia | exact Hl | exact Hid |].
    intros [|j] b' Hj; cbn.
    + intros [= <-]. unfold has_id. now rewrite Eg.
    + apply Hbefore. lia.
Qed.

Lemma find_in_none bs bid k :
  find_in bs bid k = OK None -> forall b, In b bs -> has_id bid b = false.
Proof.
  revert k. induction bs as [|b0 bs IH]; intros k; cbn [find_in]; [now intros _ b []|].
  destruct (Py.getitem b0 "id") as [v|e] eqn:Eg; cbn [res_bind]; [|discriminate].
  destruct (Py.eq_str v bid) eqn:Ev; [discriminate|].
  intros H b [<- | Hin]; [|now apply (IH _ H)].
  unfold has_id. now rewrite Eg.
Qed.

Lemma has_id_dict bid b :
  has_id bid b = true ->
  exists kvs, b = VDict kvs /\ Py.dict_get (KStr "id") kvs = Some (VStr bid).
Proof.
  unfold has_id, Py.getitem. destruct b as [| | | | |kvs]; try discriminate.
  destruct (Py.dict_get (KStr "id") kvs) as [v|] eqn:E; [|discriminate].
  destruct v; try discriminate. cbn [Py.eq_str]. intros H.
  apply String.eqb_eq in H as ->. now exists kvs.
Qed.

Lemma has_id_truthy bid b : has_id bid b = true -> Py.truthy b = true.
Proof.
  intros H. destruct (has_id_dict _ _ H) as (kvs & -> & Hk).
  now destruct kvs.
Qed.

(** A found box is an element of the list [d["boxes"]]. *)
Lemma find_box_some d bid i b :
  find_box d bid = OK (Some (i, b)) ->
  exists bs, boxes_of d = Some bs /\ bs !! i = Some b /\ has_id bid b = true /\
    (forall j b', (j < i)%nat -> bs !! j = Some b' -> has_id bid b' = false).
Proof.
  unfold find_box. destruct (Py.getitem d "boxes") as [boxes|] eqn:Eb;
    cbn [res_bind]; [|discriminate].
  destruct (Py.iter boxes) as [bs|] eqn:Ei; cbn [res_bind]; [|discriminate].
  intros H. destruct (find_in_some _ _ _ _ _ H) as (_ & Hl & Hid & Hbefore).
  rewrite Nat.sub_0_r in *.
  assert (Hb : boxes = VList bs).
  { destruct boxes as [| | |s|l|kvs]; try discriminate.
    - (* the characters of a string are no records *)
      exfalso. cbn in Ei. injection Ei as <-.
      destruct (has_id_dict _ _ Hid) as (kvs & -> & _).
      clear -Hl. revert i Hl. induction s as [|c s IH]; intros [|i]; cbn;
        try discriminate. apply IH.
    - cbn in Ei. congruence.
    - (* nor are the keys of a dictionary *)
      exfalso. cbn in Ei. injection Ei as <-.
      destruct (has_id_dict _ _ Hid) as (kvs' & -> & _).
      rewrite list_lookup_fmap in Hl.
      destruct (kvs !! i) as [[[?|?] ?]|]; discriminate. }
  subst boxes. exists bs. repeat split; try assumption.
  unfold boxes_of. unfold Py.getitem in Eb. destruct d; try discriminate.
  destruct (Py.dict_get (KStr "boxes") kvs); [|discriminate].
  now injection Eb as ->.
Qed.

(** When nothing is found, no record of the list has the id. *)
Lemma find_box_none d bid bs :
  boxes_of d = Some bs -> find_box d bid = OK None ->
  forall b, In b bs -> has_id bid b = false.
Proof.
  unfold boxes_of, find_box, Py.getitem. destruct d as [| | | | |kvs];
    try discriminate.
  destruct (Py.dict_get (KStr "boxes") kvs) as [[| | | |l|]|];
    try discriminate.
  intros [= ->]. cbn [res_bind Py.iter]. apply find_in_none.
Qed.

Lemma or_404_found bid i b :
  has_id bid b = true -> or_404 (Some (i, b)) = OK (i, b).
Proof. intros H. unfold or_404. now rewrite (has_id_truthy _ _ H). Qed.

End StoreFacts.

Section ItemFacts.

Context {J : JsonCodec}.
Variable ADMIN_PIN : option string.

Import ItemLineParser.


Lemma box_items_cases b l :
  box_items b = Some l ->
  exists kvs, b = VDict kvs /\
    ((Py.dict_get (KStr "items") kvs = None /\ l = []) \/
     Py.dict_get (KStr "items") kvs = Some (VList l)).
Proof.
  unfold box_items. destruct b as [| | | | |kvs]; try discriminate.
  destruct (Py.dict_get (KStr "items") kvs) as [v|] eqn:E.
  - destruct v; try discriminate. intros [= <-]. exists kvs. auto.
  - intros [= <-]. exists kvs. auto.
Qed.

(** What [b.setdefault("items", [])] returns and leaves, on a record with
    the item list [l]. *)
Lemma setdefault_items b l :
  box_items b = Some l ->
  exists b1, Py.setdefault b "items" (VList []) = OK (VList l, b1) /\
    forall l', Py.setitem b1 "items" (VList l') = OK (with_items b l').
Proof.
  intros H. destruct (box_items_cases _ _ H) as (kvs & -> & [[E ->] | E]);
    unfold Py.setdefault; rewrite E.
  - eexists. split; [reflexivity|]. intros l'. cbn [Py.setitem with_items].
    destruct (dict_set_absent (KStr "items") (VList l') (VList []) kvs E)
      as [-> ->]. reflexivity.
  - eexists. split; [reflexivity|]. reflexivity.
Qed.

Lemma add_item_run box_id name qty pin f d f1 i b l :
  require_pin ADMIN_PIN pin = OK tt ->
  load_data f = (OK d, f1) ->
  find_box d box_id = OK (Some (i, b)) ->
  box_items b = Some l ->
  add_item ADMIN_PIN box_id name qty pin f =
    (OK (RedirectResponse ("/boxes/" +:+ box_id) 303),
     Some (dumps (Some 2%nat)
             (put_box d i (with_items b (l ++ [item (Text.strip name) qty]))))).
Proof.
  intros Hpin Hload Hfind Hitems.
  destruct (find_box_some _ _ _ _ Hfind) as (bs & _ & _ & Hid & _).
  destruct (setdefault_items _ _ Hitems) as (b1 & Hsd & Hset).
  unfold add_item. rewrite bind_lift, Hpin, (bind_load _ _ _ _ Hload).
  rewrite bind_lift, Hfind, bind_lift, (or_404_found _ _ _ Hid).
  rewrite bind_lift, Hsd, bind_lift. cbn [Py.append].
  rewrite bind_lift, Hset. reflexivity.
Qed.

Lemma add_item_absent box_id name qty pin f d f1 :
  require_pin ADMIN_PIN pin = OK tt ->
  load_data f = (OK d, f1) ->
  find_box d box_id = OK None ->
  add_item ADMIN_PIN box_id name qty pin f = (Raise not_found, f1).
Proof.
  intros Hpin Hload Hfind.
  unfold add_item. rewrite bind_lift, Hpin, (bind_load _ _ _ _ Hload).
  rewrite bind_lift, Hfind, bind_lift. reflexivity.
Qed.

Lemma check_index_out l idx :
  idx < 0 \/ Z.of_nat (length l) <= idx ->
  check_index (VList l) idx = Raise index_error.
Proof.
  intros H. unfold check_index.
  destruct (Z.ltb_spec idx 0) as [Hneg|Hpos]; [reflexivity|].
  cbn [Py.len res_bind].
  replace (idx >=? Z.of_nat (length l)) with true; [reflexivity|].
  symmetry. rewrite Z.geb_leb. apply Z.leb_le. lia.
Qed.

Lemma update_item_out box_id idx name qty pin f d f1 i b l :
  require_pin ADMIN_PIN pin = OK tt ->
  load_data f = (OK d, f1) ->
  find_box d box_id = OK (Some (i, b)) ->
  box_items b = Some l ->
  idx < 0 \/ Z.of_nat (length l) <= idx ->
  update_item ADMIN_PIN box_id idx name qty pin f = (Raise index_error, f1).
Proof.
  intros Hpin Hload Hfind Hitems Hidx.
  destruct (find_box_some _ _ _ _ Hfind) as (bs & _ & _ & Hid & _).
  destruct (setdefault_items _ _ Hitems) as (b1 & Hsd & Hset).
  unfold update_item. rewrite bind_lift, Hpin, (bind_load _ _ _ _ Hload).
  rewrite bind_lift, Hfind, bind_lift, (or_404_found _ _ _ Hid).
  rewrite bind_lift, Hsd, bind_lift, (check_index_out _ _ Hidx). reflexivity.
Qed.

Lemma delete_item_out box_id idx pin f d f1 i b l :
  require_pin ADMIN_PIN pin = OK tt ->
  load_data f = (OK d, f1) ->
  find_box d box_id = OK (Some (i, b)) ->
  box_items b = Some l ->
  idx < 0 \/ Z.of_nat (length l) <= idx ->
  delete_item ADMIN_PIN box_id idx pin f = (Raise index_error, f1).
Proof.
  intros Hpin Hload Hfind Hitems Hidx.
  destruct (find_box_some _ _ _ _ Hfind) as (bs & _ & _ & Hid & _).
  destruct (setdefault_items _ _ Hitems) as (b1 & Hsd & Hset).
  unfold delete_item. rewrite bind_lift, Hpin, (bind_load _ _ _ _ Hload).
  rewrite bind_lift, Hfind, bind_lift, (or_404_found _ _ _ Hid).
  rewrite bind_lift, Hsd, bind_lift, (check_index_out _ _ Hidx). reflexivity.
Qed.

(** What [put_box] and [with_items] change. *)
Lemma boxes_of_put_box d bs i b :
  boxes_of d = Some bs -> boxes_of (put_box d i b) = Some (<[i := b]> bs).
Proof.
  unfold boxes_of, put_box. destruct d as [| | | | |kvs]; try discriminate.
  destruct (Py.dict_get (KStr "boxes") kvs) as [[| | | |l|]|] eqn:E;
    try discriminate.
  intros [= ->]. now rewrite dict_get_set_same.
Qed.

Lemma box_items_with_items kvs l :
  box_items (with_items (VDict kvs) l) = Some l.
Proof. unfold box_items, with_items. now rewrite dict_get_set_same. Qed.

End ItemFacts.

Section NoPartialWrite.

Context {J : JsonCodec}.
Variable ADMIN_PIN : option string.

Lemma quiet_lift {A : Type} (r : res A) : quiet (lift r).
Proof. intros f r' f'. unfold lift. now intros [= _ <-]. Qed.

Lemma safe_raise {A : Type} (e : exn) : safe (raise (A := A) e).
Proof. intros f e' f'. unfold raise. now intros [= _ <-]. Qed.

Lemma safe_ret {A : Type} (a : A) : safe (ret a).
Proof. intros f e f'. unfold ret. discriminate. Qed.

Lemma safe_bind_quiet {A B : Type} (m : M A) (k : A -> M B) :
  quiet m -> (forall a, safe (k a)) -> safe (bind m k).
Proof.
  intros Hm Hk f e f'. unfold bind. destruct (m f) as [[a|e0] f0] eqn:E.
  - apply Hm in E as ->. apply Hk.
  - apply Hm in E as ->. now intros [= _ <-].
Qed.

Lemma safe_save_ret {A : Type} d (a : A) : safe (bind (save_data d) (fun _ => ret a)).
Proof. intros f e f'. unfold bind, save_data, ret. discriminate. Qed.

Lemma load_touched f r f1 : load_data f = (r, f1) -> touched f f1.
Proof.
  unfold load_data, touched. destruct f; intros [= _ <-]; auto.
Qed.

Lemma touched_load_data f f' : touched f f' -> load_data f' = load_data f.
Proof. intros [-> | [-> ->]]; reflexivity. Qed.

Lemma bind_load_touched {B : Type} (k : value -> M B) :
  (forall d, safe (k d)) ->
  forall f e f', bind load_data k f = (Raise e, f') -> touched f f'.
Proof.
  intros Hk f e f'. unfold bind. destruct (load_data f) as [[d|e0] f1] eqn:E.
  - intros H. apply Hk in H as ->. exact (load_touched _ _ _ E).
  - intros [= _ <-]. exact (load_touched _ _ _ E).
Qed.

Lemma touched_after_lift {A B : Type} (r : res A) (k : A -> M B) :
  (forall a f e f', k a f = (Raise e, f') -> touched f f') ->
  forall f e f', bind (lift r) k f = (Raise e, f') -> touched f f'.
Proof.
  intros Hk f e f'. rewrite bind_lift. destruct r as [a|e0]; [apply Hk|].
  intros [= _ <-]. now left.
Qed.

Ltac safe_steps :=
  repeat first
    [ apply safe_save_ret
    | apply safe_raise
    | apply safe_ret
    | apply safe_bind_quiet; [apply quiet_lift | intros ?]
    | match goal with
      | |- safe (let '(_, _) := ?p in _) => destruct p
      | |- safe (if ?c then _ else _) => destruct c
      end ].

Lemma handle_touched rq f e f' :
  handle ADMIN_PIN rq f = (Raise e, f') -> touched f f'.
Proof.
  destruct rq; cbn [handle].
  - apply touched_after_lift. intros _.
    apply bind_load_touched. intros d. safe_steps.
  - apply touched_after_lift. intros _.
    apply bind_load_touched. intros d. safe_steps.
  - unfold export_json. discriminate.
  - intros H. left. revert H. generalize f e f'.
    change (safe (import_json ADMIN_PIN file pin)).
    unfold import_json. safe_steps.
  - apply touched_after_lift. intros _.
    apply bind_load_touched. intros d. safe_steps.
  - apply touched_after_lift. intros _ f0 e0 f0'.
    destruct (negb (String.eqb (Text.upper (Text.strip confirm)) "DELETE")).
    + intros H. left. now apply safe_raise in H.
    + apply bind_load_touched. intros d. safe_steps.
  - apply touched_after_lift. intros _.
    apply bind_load_touched. intros d. safe_steps.
  - apply touched_after_lift. intros _.
    apply bind_load_touched. intros d. safe_steps.
Qed.

End NoPartialWrite.

(** ** Values that JSON has *)

Section JsonFacts.

Import ItemLineParser.

Lemma json_value_dict kvs :
  json_value (VDict kvs) =
    nodup_keys (map fst kvs)
    && forallb (fun kv => is_kstr (fst kv) && json_value (snd kv)) kvs.
Proof.
  cbn [json_value]. f_equal.
  induction kvs as [|[k x] kvs IH]; [reflexivity|].
  cbn [forallb fst snd]. now rewrite IH.
Qed.

Lemma json_value_list l : json_value (VList l) = forallb json_value l.
Proof. reflexivity. Qed.

Lemma existsb_key_dict_set a k v kvs :
  existsb (Py.key_eqb a) (map fst (Py.dict_set k v kvs)) = true ->
  Py.key_eqb a k = true \/ existsb (Py.key_eqb a) (map fst kvs) = true.
Proof.
  induction kvs as [|[k' v'] kvs IH]; cbn [Py.dict_set map fst existsb].
  - rewrite orb_false_r. auto.
  - destruct (Py.key_eqb k k') eqn:E; cbn [map fst existsb].
    + apply key_eqb_eq in E as <-. intros H. apply orb_prop in H as [H | H]; auto.
      right. rewrite H. apply orb_true_r.
    + intros H. apply orb_prop in H as [H | H].
      * right. now rewrite H.
      * destruct (IH H) as [H' | H']; auto. right. rewrite H'. apply orb_true_r.
Qed.

Lemma json_value_dict_set k v kvs :
  json_value (VDict kvs) = true -> json_value v = true ->
  json_value (VDict (Py.dict_set (KStr k) v kvs)) = true.
Proof.
  rewrite !json_value_dict. intros H Hv.
  induction kvs as [|[k' v'] kvs IH]; cbn [Py.dict_set].
  - cbn. now rewrite Hv.
  - cbn [map fst nodup_keys forallb snd] in H.
    apply andb_prop in H as [H1 H2]. apply andb_prop in H1 as [Hk' Hnd].
    apply andb_prop in H2 as [Hv' Hall].
    destruct (Py.key_eqb (KStr k) k') eqn:E.
    + apply key_eqb_eq in E as <-.
      cbn [map fst nodup_keys forallb snd is_kstr].
      now rewrite Hk', Hnd, Hv, Hall.
    + specialize (IH ltac:(now rewrite Hnd, Hall)).
      apply andb_prop in IH as [IH1 IH2].
      cbn [map fst nodup_keys forallb snd]. rewrite IH1, IH2, Hv'.
      rewrite !andb_true_r. apply negb_true_iff.
      destruct (existsb (Py.key_eqb k') (map fst (Py.dict_set (KStr k) v kvs)))
        eqn:Ex; [|reflexivity].
      apply existsb_key_dict_set in Ex as [Ex | Ex].
      * apply key_eqb_eq in Ex as ->.
        assert (Py.key_eqb (KStr k) (KStr k) = true) by now apply key_eqb_eq.
        congruence.
      * apply negb_true_iff in Hk'. congruence.
Qed.

Lemma json_value_dict_get k v kvs :
  json_value (VDict kvs) = true -> Py.dict_get k kvs = Some v ->
  json_value v = true.
Proof.
  rewrite json_value_dict. intros H. apply andb_prop in H as [_ H].
  induction kvs as [|[k' v'] kvs IH]; cbn [Py.dict_get]; [discriminate|].
  cbn [forallb snd] in H. apply andb_prop in H as [Hv Hall].
  apply andb_prop in Hv as [_ Hv].
  destruct (Py.key_eqb k k'); [now intros [= <-] | now apply IH].
Qed.

Lemma forallb_insert {A : Type} (p : A -> bool) l i x :
  forallb p l = true -> p x = true -> forallb p (<[i := x]> l) = true.
Proof.
  revert i. induction l as [|y l IH]; intros i H Hx; [exact H|].
  cbn [forallb] in H. apply andb_prop in H as [Hy Hl].
  destruct i as [|i]; cbn; [now rewrite Hx, Hl | now rewrite Hy, IH].
Qed.

Lemma forallb_lookup {A : Type} (p : A -> bool) (l : list A) i x :
  forallb p l = true -> l !! i = Some x -> p x = true.
Proof.
  revert i. induction l as [|y l IH]; intros i H; [discriminate|].
  cbn [forallb] in H. apply andb_prop in H as [Hy Hl].
  destruct i as [|i]; cbn; [now intros [= <-] | now apply IH].
Qed.

Lemma json_value_put_box d i b :
  json_value d = true -> json_value b = true ->
  json_value (put_box d i b) = true.
Proof.
  intros Hd Hb. unfold put_box. destruct d as [| | | | |kvs]; try exact Hd.
  destruct (Py.dict_get (KStr "boxes") kvs) as [[| | | |l|]|] eqn:E;
    try exact Hd.
  apply json_value_dict_set; [exact Hd|].
  rewrite json_value_list. apply forallb_insert; [|exact Hb].
  now apply (json_value_dict_get _ _ _ Hd) in E.
Qed.

Lemma json_value_with_items b l :
  json_value b = true -> forallb json_value l = true ->
  json_value (with_items b l) = true.
Proof.
  intros Hb Hl. destruct b as [| | | | |kvs]; try exact Hb.
  now apply json_value_dict_set.
Qed.

Lemma json_value_box_items b l :
  json_value b = true -> box_items b = Some l -> forallb json_value l = true.
Proof.
  intros Hb H. destruct (box_items_cases _ _ H) as (kvs & -> & [[_ ->] | E]);
    [reflexivity|].
  now apply (json_value_dict_get _ _ _ Hb) in E.
Qed.

(** Every item the parser writes is a record [{"name": ..., "qty": ...}]. *)
Lemma parse_line_item line it :
  parse_line line = OK (Some it) -> exists name qty, it = item name qty.
Proof.
  unfold parse_line. destruct (Text.is_empty (Text.strip line)); [discriminate|].
  match goal with |- (res_bind ?r _) = _ -> _ => destruct r as [[n q]|e] end;
    cbn [res_bind]; [|discriminate].
  destruct (Text.is_empty n); [discriminate|]. intros [= <-]. eauto.
Qed.

Lemma json_value_line_items lines :
  forallb json_value (flat_map line_items lines) = true.
Proof.
  induction lines as [|line lines IH]; [reflexivity|].
  cbn [flat_map]. rewrite forallb_app, IH, andb_true_r.
  unfold line_items. destruct (parse_line line) as [[it|]|] eqn:E; try reflexivity.
  destruct (parse_line_item _ _ E) as (n & q & ->). reflexivity.
Qed.

End JsonFacts.

(** ** [add_box], [import_json], [export_json] *)

Section DocumentFacts.

Context {J : JsonCodec}.
Variable ADMIN_PIN : option string.

Import ItemLineParser.

Lemma boxes_of_dict d bs :
  boxes_of d = Some bs ->
  exists kvs, d = VDict kvs /\ Py.dict_get (KStr "boxes") kvs = Some (VList bs).
Proof.
  unfold boxes_of. destruct d as [| | | | |kvs]; try discriminate.
  destruct (Py.dict_get (KStr "boxes") kvs) as [[| | | |l|]|] eqn:E;
    try discriminate.
  intros [= ->]. now exists kvs.
Qed.

Lemma boxes_of_prepend d bs b :
  boxes_of d = Some bs -> boxes_of (prepend_box d b) = Some (b :: bs).
Proof.
  intros H. destruct (boxes_of_dict _ _ H) as (kvs & -> & E).
  unfold prepend_box, boxes_of. rewrite E. now rewrite dict_get_set_same.
Qed.

Lemma json_value_prepend d bs b :
  boxes_of d = Some bs -> json_value d = true -> json_value b = true ->
  json_value (prepend_box d b) = true.
Proof.
  intros H Hd Hb. destruct (boxes_of_dict _ _ H) as (kvs & -> & E).
  unfold prepend_box. rewrite E.
  apply json_value_dict_set; [exact Hd|].
  rewrite json_value_list. cbn [forallb]. rewrite Hb.
  now apply (json_value_dict_get _ _ _ Hd) in E.
Qed.

Lemma parsed_items_json items its :
  parsed_items items = OK its -> forallb json_value its = true.
Proof.
  unfold parsed_items. intros H. rewrite (parse_lines_ok _ _ _ H).
  apply json_value_line_items.
Qed.

Lemma json_value_new_box random name location its :
  forallb json_value its = true ->
  json_value (new_box random name location its) = true.
Proof.
  intros H. unfold new_box. rewrite json_value_dict.
  cbn [map fst snd forallb is_kstr]. rewrite json_value_list, H. reflexivity.
Qed.

Lemma load_data_json f d f1 : load_data f = (OK d, f1) -> json_value d = true.
Proof.
  unfold load_data. intros H.
  destruct (loads (match f with Some c => c | None => dumps (Some 2%nat) EMPTY end))
    as [d'|] eqn:E; [|discriminate].
  injection H as <- _. exact (loads_json _ _ E).
Qed.

Lemma load_data_dumps d :
  json_value d = true ->
  load_data (Some (dumps (Some 2%nat) d)) = (OK d, Some (dumps (Some 2%nat) d)).
Proof. intros H. apply load_data_file. now apply loads_dumps. Qed.

Lemma add_box_run name location items pin random f d f1 bs its :
  require_pin ADMIN_PIN pin = OK tt ->
  load_data f = (OK d, f1) ->
  boxes_of d = Some bs ->
  parsed_items items = OK its ->
  add_box ADMIN_PIN name location items pin random f =
    (OK (RedirectResponse "/" 303),
     Some (dumps (Some 2%nat)
             (prepend_box d (new_box random name location its)))).
Proof.
  intros Hpin Hload Hb Hp. destruct (boxes_of_dict _ _ Hb) as (kvs & -> & E).
  unfold add_box. rewrite bind_lift, Hpin, (bind_load _ _ _ _ Hload).
  rewrite bind_lift, Hp.
  rewrite bind_lift. cbn [Py.getitem]. rewrite E.
  rewrite bind_lift. cbn [Py.insert0]. rewrite bind_lift. cbn [Py.setitem].
  unfold prepend_box. rewrite E. reflexivity.
Qed.

(** The items text that [int] refuses makes [add_box] raise, once
    [load_data] has run. *)
Lemma add_box_raise name location items pin random f d f1 e :
  require_pin ADMIN_PIN pin = OK tt ->
  load_data f = (OK d, f1) ->
  parsed_items items = Raise e ->
  add_box ADMIN_PIN name location items pin random f = (Raise e, f1).
Proof.
  intros Hpin Hload Hp.
  unfold add_box. rewrite bind_lift, Hpin, (bind_load _ _ _ _ Hload).
  now rewrite bind_lift, Hp.
Qed.

(** What a call of [add_box] that returned has gone through. *)
Lemma add_box_inv name location items pin random f r f2 :
  add_box ADMIN_PIN name location items pin random f = (OK r, f2) ->
  exists d f1 bs its,
    require_pin ADMIN_PIN pin = OK tt /\
    load_data f = (OK d, f1) /\ boxes_of d = Some bs /\
    parsed_items items = OK its /\
    r = RedirectResponse "/" 303 /\
    f2 = Some (dumps (Some 2%nat)
                 (prepend_box d (new_box random name location its))).
Proof.
  unfold add_box. rewrite bind_lift.
  destruct (require_pin ADMIN_PIN pin) as [[]|] eqn:Hpin; [|discriminate].
  destruct (load_data f) as [[d|e] f1] eqn:Hload.
  2: { unfold bind. rewrite Hload. discriminate. }
  rewrite (bind_load _ _ _ _ Hload), bind_lift.
  destruct (parsed_items items) as [its|] eqn:Hp; [|discriminate].
  rewrite bind_lift.
  destruct (Py.getitem d "boxes") as [boxes|] eqn:Hg; [|discriminate].
  rewrite bind_lift.
  destruct boxes as [| | | |bs|]; try discriminate.
  cbn [Py.insert0]. rewrite bind_lift.
  destruct d as [| | | | |kvs]; try discriminate.
  cbn [Py.setitem Py.getitem] in *.
  destruct (Py.dict_get (KStr "boxes") kvs) as [v|] eqn:E; [|discriminate].
  injection Hg as ->.
  intros H. injection H as <- <-.
  exists (VDict kvs), f1, bs, its. repeat split.
  - unfold boxes_of. now rewrite E.
  - unfold prepend_box. now rewrite E.
Qed.

Lemma find_box_prepend d bs random name location its :
  boxes_of d = Some bs ->
  find_box (prepend_box d (new_box random name location its))
    (Uuid.uuid4_hex random)
  = OK (Some (0%nat, new_box random name location its)).
Proof.
  intros Hb. pose proof (boxes_of_prepend _ _ (new_box random name location its) Hb) as H.
  destruct (boxes_of_dict _ _ H) as (kvs & -> & E).
  unfold find_box. cbn [Py.getitem]. rewrite E. cbn [res_bind Py.iter find_in].
  unfold new_box at 1. cbn [Py.getitem Py.dict_get Py.key_eqb].
  cbn [String.eqb Ascii.eqb Bool.eqb res_bind Py.eq_str].
  now rewrite String.eqb_refl.
Qed.

Lemma import_json_run file pin payload bs f :
  require_pin ADMIN_PIN pin = OK tt ->
  loads file = Some payload ->
  boxes_of payload = Some bs ->
  import_json ADMIN_PIN file pin f =
    (OK (RedirectResponse "/" 303), Some (dumps (Some 2%nat) payload)).
Proof.
  intros Hpin Hl Hb. destruct (boxes_of_dict _ _ Hb) as (kvs & -> & E).
  unfold import_json. rewrite bind_lift, Hpin, bind_lift, Hl.
  rewrite bind_lift. cbn [Py.contains]. rewrite E.
  rewrite bind_lift. cbn [negb Py.getitem]. rewrite E. reflexivity.
Qed.

End DocumentFacts.

Section DictFacts.

Lemma dict_get_app_absent k kvs v :
  Py.dict_get k kvs = None -> Py.dict_get k (kvs ++ [(k, v)]) = Some v.
Proof.
  induction kvs as [|[k' v'] kvs IH]; cbn [Py.dict_get app].
  - intros _. assert (E : Py.key_eqb k k = true) by now apply key_eqb_eq.
    now rewrite E.
  - destruct (Py.key_eqb k k'); [discriminate | exact IH].
Qed.

End DictFacts.

(** ** The id of a version-4 UUID *)

Section UuidFacts.

Import Uuid.

Lemma hex_char_inj m n :
  (m < 16)%N -> (n < 16)%N -> hex_char m = hex_char n -> m = n.
Proof.
  intros Hm Hn. unfold hex_char.
  destruct (N.ltb_spec m 10) as [Ha|Ha], (N.ltb_spec n 10) as [Hb|Hb];
    intros H;
    apply (f_equal N_of_ascii) in H;
    rewrite !N_ascii_embedding in H by lia; lia.
Qed.

Lemma hex_digits_app k n acc :
  hex_digits k n acc = hex_digits k n EmptyString +:+ acc.
Proof.
  revert n acc. induction k as [|k IH]; intros n acc; [reflexivity|].
  cbn [hex_digits]. rewrite (IH _ (String _ acc)), (IH _ (String _ EmptyString)).
  now rewrite append_assoc.
Qed.

Lemma length_append s t :
  String.length (s +:+ t) = (String.length s + String.length t)%nat.
Proof.
  induction s as [|c s IH]; [reflexivity|].
  rewrite append_cons. cbn [String.length]. now rewrite IH.
Qed.

Lemma hex_digits_length k n :
  String.length (hex_digits k n EmptyString) = k.
Proof.
  revert n. induction k as [|k IH]; intros n; [reflexivity|].
  cbn [hex_digits]. rewrite hex_digits_app, length_append, IH.
  cbn [String.length]. lia.
Qed.

Lemma append_last_inj s t a b :
  s +:+ String a EmptyString = t +:+ String b EmptyString -> s = t /\ a = b.
Proof.
  revert t. induction s as [|c s IH]; intros [|d t];
    rewrite ?append_nil, ?append_cons.
  - now intros [= ->].
  - intros [= _ H]. now destruct t.
  - intros [= _ H]. now destruct s.
  - intros [= -> H]. destruct (IH _ H) as [-> ->]. now split.
Qed.

Lemma hex_digits_inj k m n :
  hex_digits k m EmptyString = hex_digits k n EmptyString ->
  (m mod 16 ^ N.of_nat k = n mod 16 ^ N.of_nat k)%N.
Proof.
  revert m n. induction k as [|k IH]; intros m n H.
  - cbn. now rewrite !N.mod_1_r.
  - cbn [hex_digits] in H.
    rewrite (hex_digits_app k (m / 16)), (hex_digits_app k (n / 16)) in H.
    apply append_last_inj in H as [H Hc].
    apply IH in H. apply hex_char_inj in Hc; try (apply N.mod_lt; lia).
    rewrite Nat2N.inj_succ, N.pow_succ_r'.
    rewrite !N.Div0.mod_mul_r. now rewrite H, Hc.
Qed.

Lemma uuid4_hex_int random :
  uuid4_hex random = hex_digits 32 (uuid_int random) EmptyString.
Proof. reflexivity. Qed.

Lemma uuid_int_bit random p :
  N.testbit (uuid_int random) p =
    ((N.testbit (random mod 2 ^ 128) p && negb (N.testbit (N.shiftl 49152 48) p)
      || N.testbit (N.shiftl 32768 48) p)
     && negb (N.testbit (N.shiftl 61440 64) p))
    || N.testbit (N.shiftl 4 76) p.
Proof.
  unfold uuid_int.
  now rewrite N.lor_spec, N.ldiff_spec, N.lor_spec, N.ldiff_spec.
Qed.

Lemma random_bits_bit random p :
  N.testbit (random_bits random) p =
    N.testbit (random mod 2 ^ 128) p
    && negb (N.testbit (N.shiftl 49152 48) p || N.testbit (N.shiftl 61440 64) p).
Proof. unfold random_bits. now rewrite N.ldiff_spec, N.lor_spec. Qed.

Lemma variant_in_mask p :
  N.testbit (N.shiftl 32768 48) p && negb (N.testbit (N.shiftl 49152 48) p)
  = false.
Proof.
  rewrite <- N.ldiff_spec.
  replace (N.ldiff (N.shiftl 32768 48) (N.shiftl 49152 48)) with 0%N
    by reflexivity.
  apply N.bits_0.
Qed.

Lemma version_in_mask p :
  N.testbit (N.shiftl 4 76) p && negb (N.testbit (N.shiftl 61440 64) p)
  = false.
Proof.
  rewrite <- N.ldiff_spec.
  replace (N.ldiff (N.shiftl 4 76) (N.shiftl 61440 64)) with 0%N
    by reflexivity.
  apply N.bits_0.
Qed.

Lemma uuid_int_high random p :
  (128 <= p)%N -> N.testbit (uuid_int random) p = false.
Proof.
  intros Hp. rewrite uuid_int_bit.
  rewrite (N.mod_pow2_bits_high _ _ _ Hp).
  assert (H1 : N.testbit (N.shiftl 32768 48) p = false).
  { rewrite N.shiftl_spec_high' by lia.
    apply (N.bits_above_log2 32768 (p - 48)). cbn. lia. }
  assert (H2 : N.testbit (N.shiftl 4 76) p = false).
  { rewrite N.shiftl_spec_high' by lia.
    apply (N.bits_above_log2 4 (p - 76)). cbn. lia. }
  rewrite H1, H2. now destruct (N.testbit (N.shiftl 61440 64) p).
Qed.

Lemma uuid_int_small random : (uuid_int random mod 2 ^ 128 = uuid_int random)%N.
Proof.
  apply N.bits_inj. intros p.
  destruct (N.lt_ge_cases p 128) as [Hp|Hp].
  - now apply N.mod_pow2_bits_low.
  - now rewrite N.mod_pow2_bits_high, uuid_int_high.
Qed.

(** Two draws give one id exactly when they agree on the bits kept. *)
Lemma uuid4_hex_inj r1 r2 :
  uuid4_hex r1 = uuid4_hex r2 <-> random_bits r1 = random_bits r2.
Proof.
  rewrite !uuid4_hex_int. split.
  - intros H. apply hex_digits_inj in H.
    change (16 ^ N.of_nat 32)%N with (2 ^ 128)%N in H.
    rewrite !uuid_int_small in H.
    apply N.bits_inj. intros p. rewrite !random_bits_bit.
    apply (f_equal (fun x => N.testbit x p)) in H.
    rewrite !uuid_int_bit in H.
    pose proof (variant_in_mask p) as Hv. pose proof (version_in_mask p) as Hw.
    destruct (N.testbit (r1 mod 2 ^ 128) p), (N.testbit (r2 mod 2 ^ 128) p),
      (N.testbit (N.shiftl 49152 48) p), (N.testbit (N.shiftl 61440 64) p),
      (N.testbit (N.shiftl 32768 48) p), (N.testbit (N.shiftl 4 76) p);
      cbn in *; congruence.
  - intros H. f_equal. apply N.bits_inj. intros p. rewrite !uuid_int_bit.
    apply (f_equal (fun x => N.testbit x p)) in H.
    rewrite !random_bits_bit in H.
    destruct (N.testbit (r1 mod 2 ^ 128) p), (N.testbit (r2 mod 2 ^ 128) p),
      (N.testbit (N.shiftl 49152 48) p), (N.testbit (N.shiftl 61440 64) p),
      (N.testbit (N.shiftl 32768 48) p), (N.testbit (N.shiftl 4 76) p);
      cbn in *; congruence.
Qed.

Lemma uuid4_hex_length random : String.length (uuid4_hex random) = 32%nat.
Proof. rewrite uuid4_hex_int. apply hex_digits_length. Qed.

End UuidFacts.

(** * The claims *)

Section ParserClaims.

Import Text ItemLineParser.

Lemma is_sep_iff c :
  is_sep c = true <-> c = "x"%char \/ c = "X"%char \/ c = "215"%char.
Proof.
  unfold is_sep, TIMES. rewrite !orb_true_iff, !eqb_ascii_true. tauto.
Qed.

Lemma qty_or_1_trimmed right_ r :
  trimmed right_ r ->
  (forall n, int r = OK n -> qty_or_1 right_ = n) /\
  (forall e, int r = Raise e -> qty_or_1 right_ = 1).
Proof.
  intros H. apply trimmed_strip in H as ->. unfold qty_or_1.
  split; [intros n -> | intros e ->]; reflexivity.
Qed.

(** C2. A line whose trimmed text holds a comma is cut at its last comma:
    the name is the left part, trimmed, and the quantity is [int] of the
    right part, trimmed, and 1 when [int] fails, as it does on an empty right
    part and on more digits than it reads; digits, up to 4300 of them, give
    the number they denote, also after a minus sign. The item is written
    unless the name is empty. ["Socks, wool, 2"] gives the name
    ["Socks, wool"] and the quantity 2. *)
Theorem comma_line_splits_on_last_comma (line0 line : string) :
  trimmed line0 line ->
  line <> EmptyString ->
  contains COMMA line = true ->
  (exists left_ right_ name r qty,
     line = left_ +:+ String "," right_ /\
     contains "," right_ = false /\
     trimmed left_ name /\ trimmed right_ r /\
     parse_line line0 =
       OK (if is_empty name then None else Some (name_qty name qty)) /\
     (forall n, int r = OK n -> qty = n) /\
     (forall e, int r = Raise e -> qty = 1) /\
     (r = EmptyString -> qty = 1) /\
     (all_chars isdigit r = true -> r <> EmptyString ->
      (Z.of_nat (String.length r) <= 4300 -> qty = decimal 0 r) /\
      (4300 < Z.of_nat (String.length r) -> qty = 1)) /\
     (forall ds,
        r = String "-" ds -> all_chars isdigit ds = true ->
        ds <> EmptyString -> Z.of_nat (String.length ds) <= 4300 ->
        qty = - decimal 0 ds))
  /\
  parse_line "Socks, wool, 2" = OK (Some (name_qty "Socks, wool" 2)) /\
  parse_line ("Nails," +:+ nines 4300)
    = OK (Some (name_qty "Nails" (decimal 0 (nines 4300)))) /\
  parse_line ("Nails," +:+ nines 4301) = OK (Some (name_qty "Nails" 1)).
Proof.
  intros Ht _ Hc. split; [|repeat split; vm_compute; reflexivity].
  apply trimmed_strip in Ht. subst line.
  destruct (parse_line_comma_line _ Hc) as (l & r & El & Hr & Hp).
  exists l, r, (strip l), (strip r), (qty_or_1 r).
  destruct (qty_or_1_trimmed r _ (strip_trimmed r)) as [Hok Hraise].
  split; [exact El|]. split; [exact Hr|].
  split; [apply strip_trimmed|]. split; [apply strip_trimmed|].
  split; [exact Hp|]. split; [exact Hok|]. split; [exact Hraise|].
  split; [|split].
  - intros E. apply (Hraise ValueError). now rewrite E.
  - intros Hd Hne. split; intros Hlen.
    + apply Hok. now apply int_of_digits.
    + apply (Hraise ValueError). now apply int_of_long_digits.
  - intros ds E Hd Hne Hlen. apply Hok. rewrite E.
    now apply int_of_minus_digits.
Qed.

Lemma comma_line_witness :
  trimmed "  Tent , 3 " "Tent , 3" /\
  "Tent , 3" <> EmptyString /\
  contains COMMA "Tent , 3" = true /\
  parse_line "  Tent , 3 " = OK (Some (name_qty "Tent" 3)) /\
  parse_line (String "009" "Rope" +:+ String "009" ", long")
    = OK (Some (name_qty "Rope" 1)) /\
  parse_line "Pegs,-5" = OK (Some (name_qty "Pegs" (-5))) /\
  parse_line "Pegs, 1_0" = OK (Some (name_qty "Pegs" 10)) /\
  exists left_ right_ name r qty,
    "Tent , 3" = left_ +:+ String "," right_ /\
    contains "," right_ = false /\
    trimmed left_ name /\ trimmed right_ r /\
    parse_line "  Tent , 3 " =
      OK (if is_empty name then None else Some (name_qty name qty)).
Proof.
  assert (H0 : trimmed "  Tent , 3 " "Tent , 3")
    by (exists "  ", " "; repeat split; reflexivity).
  assert (H1 : "Tent , 3" <> EmptyString) by discriminate.
  assert (H2 : contains COMMA "Tent , 3" = true) by reflexivity.
  split; [exact H0|]. split; [exact H1|]. split; [exact H2|].
  split; [reflexivity|]. split; [reflexivity|].
  split; [reflexivity|]. split; [reflexivity|].
  destruct (comma_line_splits_on_last_comma _ _ H0 H1 H2)
    as [(l & r & name & t & qty & El & Hr & Hl & Hrt & Hp & _) _].
  exists l, r, name, t, qty. repeat split; assumption.
Defined.

(** C3, as amended. On a line of the input that holds no comma once
    trimmed: when the trimmed line is a non-empty name part, then [x], [X]
    or the sign U+00D7, then spaces if any, then digits up to the end, the
    pattern matches with the name part and the digits for its groups, and,
    the digits being at most 4300, the item has the trimmed name part (which
    is not empty) and the number the digits denote. When the trimmed line
    ends in the separator itself, the pattern does not match and the item is
    the whole trimmed line with quantity 1. *)
Theorem shorthand_line_parsed (items line0 line : string) :
  In line0 (splitlines items) ->
  trimmed line0 line ->
  contains COMMA line = false ->
  (forall name sep ws ds,
     line = name +:+ String sep (ws +:+ ds) ->
     name <> EmptyString ->
     sep = "x"%char \/ sep = "X"%char \/ sep = "215"%char ->
     all_chars isspace ws = true ->
     all_chars isdigit ds = true -> ds <> EmptyString ->
     Z.of_nat (String.length ds) <= 4300 ->
     exists short,
       trimmed name short /\ short <> EmptyString /\
       search line = Some (name, ds) /\
       parse_line line0 = OK (Some (name_qty short (decimal 0 ds))))
  /\
  (forall u sep,
     line = u +:+ String sep EmptyString ->
     sep = "x"%char \/ sep = "X"%char \/ sep = "215"%char ->
     search line = None /\
     parse_line line0 = OK (Some (name_qty line 1)))
  /\
  parse_line "Pegs X12" = OK (Some (name_qty "Pegs" 12)) /\
  parse_line ("Pegs x" +:+ nines 4300)
    = OK (Some (name_qty "Pegs" (decimal 0 (nines 4300)))).
Proof.
  intros Hin Ht Hc. apply trimmed_strip in Ht. subst line.
  split; [|split; [|split; vm_compute; reflexivity]].
  - intros name sep ws ds E Hne Hs Hw Hd Hds Hlen. apply is_sep_iff in Hs.
    assert (Hn : contains LF name = false).
    { pose proof (line_no_newline _ _ Hin) as H. rewrite E, contains_app in H.
      now apply orb_false_elim in H. }
    assert (Hsearch := search_found _ _ _ _ Hne Hn Hs Hw Hd Hds).
    rewrite <- E in Hsearch.
    assert (Hname := strip_name_nonempty _ _ _ E Hne).
    assert (Hline : strip line0 <> EmptyString)
      by (rewrite E; now destruct name).
    exists (strip name). split; [apply strip_trimmed|].
    split; [exact Hname|]. split; [exact Hsearch|].
    rewrite (parse_line_shorthand _ Hline Hc), Hsearch.
    apply is_empty_false in Hname.
    now rewrite (int_of_digits _ Hd Hds Hlen), Hname.
  - intros u sep E Hs. apply is_sep_iff in Hs.
    assert (Hsearch := search_sep_end u _ Hs). rewrite <- E in Hsearch.
    split; [exact Hsearch|].
    assert (Hne : strip line0 <> EmptyString) by (rewrite E; now destruct u).
    now rewrite (parse_line_shorthand _ Hne Hc), Hsearch.
Qed.

(** C3 as stated fails: a line of a name, [x] and 4301 digits has the form
    the claim describes, and the parser returns no item for it. *)
Lemma shorthand_long_digits_not_parsed :
  In ("Pegs x" +:+ nines 4301) (splitlines ("Pegs x" +:+ nines 4301)) /\
  trimmed ("Pegs x" +:+ nines 4301) ("Pegs " +:+ String "x" ("" +:+ nines 4301)) /\
  contains COMMA ("Pegs x" +:+ nines 4301) = false /\
  all_chars isdigit (nines 4301) = true /\
  search ("Pegs x" +:+ nines 4301) = Some ("Pegs ", nines 4301) /\
  parse_line ("Pegs x" +:+ nines 4301) = Raise ValueError /\
  forall it, parse_line ("Pegs x" +:+ nines 4301) <> OK (Some it).
Proof.
  assert (H : parse_line ("Pegs x" +:+ nines 4301) = Raise ValueError)
    by (vm_compute; reflexivity).
  split; [left; vm_compute; reflexivity|].
  split.
  { exists EmptyString, EmptyString. repeat split; vm_compute; reflexivity. }
  split; [vm_compute; reflexivity|]. split; [vm_compute; reflexivity|].
  split; [vm_compute; reflexivity|]. split; [exact H|].
  intros it. rewrite H. discriminate.
Qed.

Lemma shorthand_line_witness :
  In "Stove x2" (splitlines ("Tent,1" +:+ String LF "Stove x2")) /\
  trimmed "Stove x2" "Stove x2" /\
  contains COMMA "Stove x2" = false /\
  parse_line "Stove x2" = OK (Some (name_qty "Stove" 2)) /\
  parse_line (String "L" (String "215" " 07"))
    = OK (Some (name_qty (String "L" EmptyString) 7)) /\
  parse_line "Box X" = OK (Some (name_qty "Box X" 1)) /\
  parse_line "Wad 12" = OK (Some (name_qty "Wad 12" 1)) /\
  parse_line "Wax 12" = OK (Some (name_qty "Wa" 12)) /\
  parse_line "Box x2 x3" = OK (Some (name_qty "Box x2" 3)).
Proof.
  assert (H1 : In "Stove x2" (splitlines ("Tent,1" +:+ String LF "Stove x2")))
    by (right; left; reflexivity).
  assert (H0 : forall s, head_space s = false -> last_space s = false ->
                         trimmed s s).
  { intros s Hh Hl. exists EmptyString, EmptyString.
    rewrite append_nil, append_nil_r. now repeat split. }
  assert (H2 : contains COMMA "Stove x2" = false) by reflexivity.
  split; [exact H1|]. split; [now apply H0|]. split; [exact H2|].
  split; [|split; [|split; [|repeat split; reflexivity]]].
  - destruct (shorthand_line_parsed _ _ _ H1 (H0 "Stove x2" eq_refl eq_refl)
                H2) as [H _].
    destruct (H "Stove " "x"%char EmptyString "2")
      as (short & Hs & _ & _ & Hp);
      [reflexivity | discriminate | now left | reflexivity | reflexivity
      | discriminate | cbn; lia |].
    apply trimmed_strip in Hs. subst short. exact Hp.
  - destruct (shorthand_line_parsed (String "L" (String "215" " 07")) _ _
                (or_introl eq_refl)
                (H0 (String "L" (String "215" " 07")) eq_refl eq_refl) eq_refl)
      as [H _].
    destruct (H (String "L" EmptyString) "215"%char " " "07")
      as (short & Hs & _ & _ & Hp);
      [reflexivity | discriminate | now right; right | reflexivity
      | reflexivity | discriminate | cbn; lia |].
    apply trimmed_strip in Hs. subst short. exact Hp.
  - destruct (shorthand_line_parsed "Box X" _ _ (or_introl eq_refl)
                (H0 "Box X" eq_refl eq_refl) eq_refl) as (_ & H & _).
    apply (H "Box " "X"%char); [reflexivity | now right; left].
Defined.

Lemma skipped_iff line :
  skipped line <->
  strip line = EmptyString \/
  exists left_ right_,
    strip line = left_ +:+ String COMMA right_ /\
    contains COMMA right_ = false /\ strip left_ = EmptyString.
Proof.
  unfold skipped. rewrite trimmed_iff. split.
  - intros [H | (l & r & Ht & Hr & Hl)]; [now left|]. right.
    apply trimmed_strip in Ht, Hl. exists l, r. now repeat split.
  - intros [H | (l & r & Ht & Hr & Hl)]; [now left|]. right.
    exists l, r. rewrite !trimmed_iff. now repeat split.
Qed.

(** C4. The parser raises: a line in the shorthand form with more than 4300
    digits makes the [int] that has no [try] around it raise [ValueError],
    which leaves [add_box] after [load_data] has run, while the same digits
    after a comma give the quantity 1. This is its only error, and it
    raises it exactly when the input has such a line. Without one, the
    result is what the lines of the input add, in their order, each line
    adding one item or nothing; a line of the input adds nothing exactly
    when it is blank once trimmed or is a comma line whose name part is
    blank once trimmed, whatever stands after the comma (so [",5"] adds
    nothing); a comma line with a name whose quantity text [int] refuses
    gets the quantity 1. *)
Theorem long_shorthand_quantity_raises (items : string) :
  (parsed_items ("A x" +:+ nines 4301) = Raise ValueError /\
   parsed_items ("A x" +:+ nines 4300)
     = OK [name_qty (String "A" EmptyString) (decimal 0 (nines 4300))] /\
   parsed_items ("A," +:+ nines 4301)
     = OK [name_qty (String "A" EmptyString) 1] /\
   add_box (J := layout_codec) None "Box" "" ("A x" +:+ nines 4301) None 0
     None
     = (Raise ValueError, Some (Some 2%nat, EMPTY))) /\
  (forall e, parsed_items items = Raise e -> e = ValueError) /\
  (parsed_items items = Raise ValueError <->
   exists line, In line (splitlines items) /\ overlong line) /\
  ((forall line, In line (splitlines items) -> ~ overlong line) ->
   parsed_items items = OK (flat_map line_items (splitlines items))) /\
  (forall line,
     line_items line = [] \/
     exists name qty,
       parse_line line = OK (Some (name_qty name qty)) /\
       line_items line = [name_qty name qty]) /\
  (forall line, In line (splitlines items) ->
     (parse_line line = OK None <-> skipped line)) /\
  parse_line ",5" = OK None /\
  (forall line left_ right_ name r e,
     trimmed line (left_ +:+ String "," right_) ->
     contains "," right_ = false ->
     trimmed left_ name -> name <> EmptyString ->
     trimmed right_ r -> int r = Raise e ->
     parse_line line = OK (Some (name_qty name 1))).
Proof.
  split; [repeat split; vm_compute; reflexivity|].
  split; [|split; [|split; [|split; [|split; [|split]]]]].
  - intros e H. destruct (parsed_items_cases items) as [E | E];
      rewrite E in H; congruence.
  - unfold parsed_items. split.
    + intros H. destruct (parse_lines_raise _ _ _ H) as (line & Hin & Hl).
      exists line. split; [exact Hin|].
      exact (proj2 (parse_line_raise _ _ _ Hin Hl)).
    + intros (line & Hin & Hl).
      exact (parse_lines_raises _ _ _ Hin (overlong_raise _ _ Hin Hl)).
  - intros H. unfold parsed_items. apply (parse_lines_run _ []).
    intros line Hin.
    destruct (parse_line_cases line) as [Hr | Hr]; [exact Hr|].
    destruct (H _ Hin). exact (proj2 (parse_line_raise _ _ _ Hin Hr)).
  - intros line. unfold line_items.
    destruct (parse_line line) as [[it|]|] eqn:E; [right|now left..].
    destruct (parse_line_item _ _ E) as (n & q & ->). now exists n, q.
  - intros line Hin. rewrite skipped_iff. split.
    + intros Hp. destruct (strip line) as [|c s] eqn:E; [now left|]. right.
      assert (Hne : strip line <> EmptyString) by (rewrite E; discriminate).
      rewrite <- E. clear E c s.
      destruct (contains COMMA (strip line)) eqn:Hc.
      * destruct (parse_line_comma_line _ Hc) as (l & r & El & Hr & Hq).
        exists l, r. split; [exact El|]. split; [exact Hr|].
        rewrite Hq in Hp.
        destruct (is_empty (strip l)) eqn:El'; [|discriminate].
        now apply is_empty_true.
      * exfalso. rewrite (parse_line_shorthand _ Hne Hc) in Hp.
        destruct (search (strip line)) as [[g1 g2]|] eqn:Es; [|discriminate].
        destruct (int g2) as [q|]; [|discriminate].
        destruct (search_group1 _ _ _ (line_no_newline _ _ Hin) Es)
          as (rest & Eg & Hg).
        apply (strip_name_nonempty _ _ _ Eg), is_empty_false in Hg.
        rewrite Hg in Hp. discriminate.
    + intros [E | (l & r & El & Hr & Hl)].
      * now apply parse_line_blank.
      * rewrite (parse_line_comma _ _ _ El Hr), Hl. reflexivity.
  - reflexivity.
  - intros line l r name t e El Hr Hl Hne Ht Hi.
    apply trimmed_strip in El, Hl. subst name.
    destruct (qty_or_1_trimmed _ _ Ht) as [_ Hq].
    rewrite (parse_line_comma _ _ _ (eq_sym El) Hr).
    apply is_empty_false in Hne. now rewrite Hne, (Hq _ Hi).
Qed.

Lemma long_shorthand_quantity_raises_witness :
  (forall line,
     In line (splitlines
       ("Tent,1" +:+ String LF (",5" +:+ String CR (String LF
          ("   " +:+ String LF ("Stove x2" +:+ String LF "Rope, long")))))) ->
     ~ overlong line) /\
  parsed_items
    ("Tent,1" +:+ String LF (",5" +:+ String CR (String LF
       ("   " +:+ String LF ("Stove x2" +:+ String LF "Rope, long")))))
  = OK [name_qty "Tent" 1; name_qty "Stove" 2; name_qty "Rope" 1] /\
  (exists line,
     In line (splitlines ("Tent,1" +:+ String LF ("A x" +:+ nines 4301))) /\
     overlong line) /\
  parsed_items ("Tent,1" +:+ String LF ("A x" +:+ nines 4301))
  = Raise ValueError.
Proof.
  assert (Hlen : forall n, String.length (nines n) = n)
    by (induction n; cbn; congruence).
  assert (Hdig : forall n, all_chars isdigit (nines n) = true)
    by (induction n; [reflexivity | exact IHn]).
  assert (Hshort : forall line,
    (String.length line <= 4300)%nat -> ~ overlong line).
  { intros line Hl (name & sep & ws & ds & (a & b & E & _) & _ & _ & _ & _ & _ & H).
    rewrite E, !length_append in Hl. cbn [String.length] in Hl.
    rewrite length_append in Hl. lia. }
  assert (H1 : forall line,
     In line (splitlines
       ("Tent,1" +:+ String LF (",5" +:+ String CR (String LF
          ("   " +:+ String LF ("Stove x2" +:+ String LF "Rope, long")))))) ->
     ~ overlong line).
  { intros line Hin. apply Hshort.
    repeat (destruct Hin as [<- | Hin]; [cbn; lia|]). destruct Hin. }
  assert (H2 : exists line,
     In line (splitlines ("Tent,1" +:+ String LF ("A x" +:+ nines 4301))) /\
     overlong line).
  { exists ("A x" +:+ nines 4301). split.
    - replace (splitlines ("Tent,1" +:+ String LF ("A x" +:+ nines 4301)))
        with ["Tent,1"; "A x" +:+ nines 4301] by (vm_compute; reflexivity).
      right. now left.
    - exists "A ", "x"%char, EmptyString, (nines 4301). split.
      + exists EmptyString, EmptyString. rewrite append_nil, append_nil_r.
        repeat split; vm_compute; reflexivity.
      + split; [vm_compute; reflexivity|]. split; [discriminate|].
        split; [reflexivity|]. split; [reflexivity|]. split; [apply Hdig|].
        rewrite Hlen. lia. }
  split; [exact H1|].
  destruct (long_shorthand_quantity_raises
              ("Tent,1" +:+ String LF (",5" +:+ String CR (String LF
                 ("   " +:+ String LF ("Stove x2" +:+ String LF "Rope, long"))))))
    as (_ & _ & _ & Hok & _).
  split; [rewrite (Hok H1); reflexivity|].
  split; [exact H2|].
  destruct (long_shorthand_quantity_raises
              ("Tent,1" +:+ String LF ("A x" +:+ nines 4301)))
    as (_ & _ & Hiff & _).
  exact (proj2 Hiff H2).
Defined.

End ParserClaims.

Section StoreClaims.

Context {J : JsonCodec}.
Variable ADMIN_PIN : option string.

Import Text ItemLineParser.

Lemma found_box_json d f f1 box_id i b :
  load_data f = (OK d, f1) -> find_box d box_id = OK (Some (i, b)) ->
  json_value d = true /\ json_value b = true.
Proof.
  intros Hload Hfind. pose proof (load_data_json _ _ _ Hload) as Hd.
  split; [exact Hd|].
  destruct (find_box_some _ _ _ _ Hfind) as (bs & Hb & Hl & _).
  destruct (boxes_of_dict _ _ Hb) as (kvs & -> & E).
  apply (json_value_dict_get _ _ _ Hd) in E. rewrite json_value_list in E.
  exact (forallb_lookup _ _ _ _ E Hl).
Qed.

(** C5, as amended. A call of [add_item] that passes the PIN check, on the
    document [d] that [load_data] reads: when [find_box] finds the box, with
    the item list [l], and the quantity is at least 1, the record
    [{"name": ..., "qty": ...}] of the trimmed name (empty or not: the name
    is not validated) and the quantity is put after the last item of that
    box, the other boxes stay as they are, and the document written is the
    one the next [load_data] reads; when no box has the id, the call raises
    [HTTPException(404)] and nothing is written. *)
Theorem add_item_appends (box_id name short : string) (qty : Z)
    (pin : option string) (f f1 : file_state) (d : value) :
  require_pin ADMIN_PIN pin = OK tt ->
  load_data f = (OK d, f1) ->
  trimmed name short ->
  (forall i b l,
     find_box d box_id = OK (Some (i, b)) ->
     box_items b = Some l ->
     1 <= qty ->
     let b' := with_items b (l ++ [name_qty short qty]) in
     let f2 := Some (dumps (Some 2%nat) (put_box d i b')) in
     add_item ADMIN_PIN box_id name qty pin f =
       (OK (RedirectResponse ("/boxes/" +:+ box_id) 303), f2) /\
     load_data f2 = (OK (put_box d i b'), f2) /\
     box_items b' = Some (l ++ [name_qty short qty]) /\
     exists bs, boxes_of d = Some bs /\ bs !! i = Some b /\
                boxes_of (put_box d i b') = Some (<[i := b']> bs))
  /\
  (find_box d box_id = OK None ->
   add_item ADMIN_PIN box_id name qty pin f = (Raise not_found, f1)).
Proof.
  intros Hpin Hload Ht. apply trimmed_strip in Ht. subst short. split.
  - intros i b l Hfind Hitems _ b' f2.
    destruct (found_box_json _ _ _ _ _ _ Hload Hfind) as [Hd Hb].
    destruct (find_box_some _ _ _ _ Hfind) as (bs & Hbs & Hl & _).
    split; [exact (add_item_run _ _ _ _ _ _ _ _ _ _ _ Hpin Hload Hfind Hitems)|].
    split; [|split].
    + apply load_data_dumps, json_value_put_box; [exact Hd|].
      apply json_value_with_items; [exact Hb|].
      rewrite forallb_app, (json_value_box_items _ _ Hb Hitems). reflexivity.
    + destruct (box_items_cases _ _ Hitems) as (kvs & -> & _).
      apply box_items_with_items.
    + exists bs. repeat split; try assumption. now apply boxes_of_put_box.
  - intros Hfind. exact (add_item_absent _ _ _ _ _ _ _ _ Hpin Hload Hfind).
Qed.

(** C6, as amended. [add_box] does not look at the trimmed name: a call
    whose name is blank once trimmed goes as any other. When the parser
    returns the items, the call succeeds, and the box it puts first, and
    writes, has the empty string for a name; the only error the call can
    raise, on a document whose boxes are a list, is the [ValueError] of the
    parser, and none for the name. *)
Theorem add_box_accepts_empty_name (name location loc items : string)
    (pin : option string) (random : N) (f f1 : file_state) (d : value)
    (bs : list value) :
  trimmed name EmptyString ->
  trimmed location loc ->
  require_pin ADMIN_PIN pin = OK tt ->
  load_data f = (OK d, f1) ->
  boxes_of d = Some bs ->
  (forall parsed,
     parsed_items items = OK parsed ->
     let b := VDict [(KStr "id", VStr (Uuid.uuid4_hex random));
                     (KStr "name", VStr EmptyString);
                     (KStr "location", VStr loc);
                     (KStr "items", VList parsed)] in
     let f2 := Some (dumps (Some 2%nat) (prepend_box d b)) in
     add_box ADMIN_PIN name location items pin random f =
       (OK (RedirectResponse "/" 303), f2) /\
     load_data f2 = (OK (prepend_box d b), f2) /\
     boxes_of (prepend_box d b) = Some (b :: bs) /\
     Py.getitem b "name" = OK (VStr EmptyString))
  /\
  (forall e f',
     add_box ADMIN_PIN name location items pin random f = (Raise e, f') ->
     e = ValueError /\ parsed_items items = Raise ValueError /\ f' = f1).
Proof.
  intros Hname Hloc Hpin Hload Hb.
  apply trimmed_strip in Hname, Hloc. split.
  - intros parsed Hp b f2.
    assert (Eb : b = new_box random name location parsed).
    { unfold b, new_box. now rewrite <- Hname, <- Hloc. }
    unfold f2. rewrite Eb.
    split; [exact (add_box_run _ _ _ _ _ _ _ _ _ _ _ Hpin Hload Hb Hp)|].
    split; [|split].
    + apply load_data_dumps. apply (json_value_prepend _ _ _ Hb).
      * exact (load_data_json _ _ _ Hload).
      * apply json_value_new_box. exact (parsed_items_json _ _ Hp).
    + now apply boxes_of_prepend.
    + unfold new_box. now rewrite <- Hname.
  - intros e f' H.
    destruct (parsed_items_cases items) as [Hp | Hp].
    + rewrite (add_box_run _ _ _ _ _ _ _ _ _ _ _ Hpin Hload Hb Hp) in H.
      discriminate.
    + rewrite (add_box_raise _ _ _ _ _ _ _ _ _ _ Hpin Hload Hp) in H.
      injection H as <- <-. now repeat split.
Qed.

(** C7. An index outside the item list of the box makes [update_item] and
    [delete_item] raise [HTTPException(400, "Invalid item index")] and leave
    the file as it is. And whatever the request, when a handler raises, the
    file is as it was before the call, or, where there was no file,
    [load_data] has created it with the empty document; in both cases the
    next [load_data] reads what it would have read before the call. *)
Theorem failed_request_writes_nothing :
  (forall box_id idx name qty pin c d i b l,
     require_pin ADMIN_PIN pin = OK tt ->
     loads c = Some d ->
     find_box d box_id = OK (Some (i, b)) ->
     box_items b = Some l ->
     idx < 0 \/ Z.of_nat (length l) <= idx ->
     update_item ADMIN_PIN box_id idx name qty pin (Some c)
       = (Raise index_error, Some c) /\
     delete_item ADMIN_PIN box_id idx pin (Some c)
       = (Raise index_error, Some c))
  /\
  (forall rq f e f',
     handle ADMIN_PIN rq f = (Raise e, f') ->
     (f' = f \/ (f = None /\ f' = Some (dumps (Some 2%nat) EMPTY))) /\
     load_data f' = load_data f).
Proof.
  split.
  - intros box_id idx name qty pin c d i b l Hpin Hl Hfind Hitems Hidx.
    pose proof (load_data_file _ _ Hl) as Hload. split.
    + exact (update_item_out _ _ _ _ _ _ _ _ _ _ _ _ Hpin Hload Hfind Hitems Hidx).
    + exact (delete_item_out _ _ _ _ _ _ _ _ _ _ Hpin Hload Hfind Hitems Hidx).
  - intros rq f e f' H. apply handle_touched in H.
    split; [exact H | now apply touched_load_data].
Qed.

(** C8. A payload that is a dictionary with a list under ["boxes"]: the
    import writes it in place of whatever the file held, the next
    [load_data] reads the payload, and the content [export_json] then
    returns is the file's, which [json.loads] reads back as the payload. *)
Theorem import_then_export (file : bytes) (pin : option string)
    (payload : value) (bs : list value) (f : file_state) :
  require_pin ADMIN_PIN pin = OK tt ->
  loads file = Some payload ->
  boxes_of payload = Some bs ->
  exists f1 content,
    import_json ADMIN_PIN file pin f = (OK (RedirectResponse "/" 303), f1) /\
    f1 = Some (dumps (Some 2%nat) payload) /\
    load_data f1 = (OK payload, f1) /\
    export_json f1 = (OK (StreamingResponse content "application/json"), f1) /\
    loads content = Some payload.
Proof.
  intros Hpin Hl Hb. pose proof (loads_json _ _ Hl) as Hj.
  exists (Some (dumps (Some 2%nat) payload)), (dumps (Some 2%nat) payload).
  split; [exact (import_json_run _ _ _ _ _ _ Hpin Hl Hb)|].
  split; [reflexivity|]. split; [now apply load_data_dumps|].
  split; [reflexivity | now apply loads_dumps].
Qed.

(** C9. A call of [add_box] that returned has read a document whose boxes
    are a list, and has written that document with the new box put before
    them: the boxes it had stay as they are and in their order, the new box
    has the trimmed name and location and the items parsed, the document
    written is the one the next [load_data] reads, and [find_box] on the new
    id finds the new box, at the first place. The id is the draw as 32
    hexadecimal digits, which keep 122 bits of it: two draws give one id
    exactly when they agree on those bits, so the new id is not the id of
    any box that got its own from a draw that differs in them. *)
Theorem add_box_prepends (name location items : string)
    (pin : option string) (random : N) (f f2 : file_state)
    (r : response bytes) :
  add_box ADMIN_PIN name location items pin random f = (OK r, f2) ->
  exists d f1 bs parsed n l,
    load_data f = (OK d, f1) /\ boxes_of d = Some bs /\
    parsed_items items = OK parsed /\
    trimmed name n /\ trimmed location l /\
    let b := VDict [(KStr "id", VStr (Uuid.uuid4_hex random));
                    (KStr "name", VStr n);
                    (KStr "location", VStr l);
                    (KStr "items", VList parsed)] in
    let d' := prepend_box d b in
    r = RedirectResponse "/" 303 /\
    f2 = Some (dumps (Some 2%nat) d') /\
    load_data f2 = (OK d', f2) /\
    boxes_of d' = Some (b :: bs) /\
    find_box d' (Uuid.uuid4_hex random) = OK (Some (0%nat, b)) /\
    String.length (Uuid.uuid4_hex random) = 32%nat /\
    (forall random0,
       Uuid.uuid4_hex random0 = Uuid.uuid4_hex random <->
       random_bits random0 = random_bits random) /\
    (forall j b0 random0,
       bs !! j = Some b0 ->
       Py.getitem b0 "id" = OK (VStr (Uuid.uuid4_hex random0)) ->
       random_bits random0 <> random_bits random ->
       Py.getitem b0 "id" <> Py.getitem b "id" /\
       has_id (Uuid.uuid4_hex random) b0 = false).
Proof.
  intros H.
  destruct (add_box_inv _ _ _ _ _ _ _ _ _ H)
    as (d & f1 & bs & parsed & Hpin & Hload & Hb & Hp & -> & ->).
  exists d, f1, bs, parsed, (strip name), (strip location).
  split; [exact Hload|]. split; [exact Hb|]. split; [exact Hp|].
  split; [apply strip_trimmed|]. split; [apply strip_trimmed|].
  change (VDict [(KStr "id", VStr (Uuid.uuid4_hex random));
                 (KStr "name", VStr (strip name));
                 (KStr "location", VStr (strip location));
                 (KStr "items", VList parsed)])
    with (new_box random name location parsed).
  cbv zeta. split; [reflexivity|]. split; [reflexivity|].
  split; [|split; [|split; [|split; [|split]]]].
  - apply load_data_dumps. apply (json_value_prepend _ _ _ Hb).
    + exact (load_data_json _ _ _ Hload).
    + apply json_value_new_box. exact (parsed_items_json _ _ Hp).
  - now apply boxes_of_prepend.
  - exact (find_box_prepend _ _ _ _ _ _ Hb).
  - apply uuid4_hex_length.
  - intros random0. apply uuid4_hex_inj.
  - intros j b0 random0 _ Hid Hbits.
    assert (Hne : Uuid.uuid4_hex random0 <> Uuid.uuid4_hex random)
      by (intros E; now apply uuid4_hex_inj in E).
    split.
    + rewrite Hid. unfold new_box.
      cbn [Py.getitem Py.dict_get Py.key_eqb String.eqb Ascii.eqb Bool.eqb].
      intros E. apply Hne.
      exact (f_equal (fun x => match x with
                               | OK (VStr s) => s
                               | _ => EmptyString
                               end) E).
    + unfold has_id. rewrite Hid. cbn [Py.eq_str].
      now apply String.eqb_neq.
Qed.

(** C10. On a box whose record has no ["items"] field, no handler of items
    raises [KeyError]: [add_item] gives the record the field, as its last,
    holding the new item alone, the record of the trimmed name and the
    quantity, and writes the document; [update_item] and [delete_item] raise
    [HTTPException(400, "Invalid item index")] at every index and write
    nothing. *)
Theorem box_without_items_field (box_id : string) (pin : option string)
    (c : bytes) (d : value) (i : nat) (kvs : list (key * value)) :
  require_pin ADMIN_PIN pin = OK tt ->
  loads c = Some d ->
  find_box d box_id = OK (Some (i, VDict kvs)) ->
  Py.dict_get (KStr "items") kvs = None ->
  (forall name short qty,
     trimmed name short ->
     let b' := VDict (kvs ++ [(KStr "items", VList [name_qty short qty])]) in
     let f2 := Some (dumps (Some 2%nat) (put_box d i b')) in
     add_item ADMIN_PIN box_id name qty pin (Some c) =
       (OK (RedirectResponse ("/boxes/" +:+ box_id) 303), f2) /\
     load_data f2 = (OK (put_box d i b'), f2) /\
     Py.getitem b' "items" = OK (VList [name_qty short qty])) /\
  (forall idx name qty,
     update_item ADMIN_PIN box_id idx name qty pin (Some c)
       = (Raise index_error, Some c)) /\
  (forall idx,
     delete_item ADMIN_PIN box_id idx pin (Some c)
       = (Raise index_error, Some c)).
Proof.
  intros Hpin Hl Hfind Hnone. pose proof (load_data_file _ _ Hl) as Hload.
  assert (Hitems : box_items (VDict kvs) = Some []).
  { unfold box_items. now rewrite Hnone. }
  assert (Hidx : forall idx : Z, idx < 0 \/ Z.of_nat (length (@nil value)) <= idx).
  { intros idx. cbn. lia. }
  split; [|split].
  - intros name short qty Ht b' f2. apply trimmed_strip in Ht. subst short.
    assert (Eb : b' = with_items (VDict kvs) ([] ++ [item (strip name) qty])).
    { unfold b', with_items.
      now destruct (dict_set_absent (KStr "items")
                      (VList ([] ++ [item (strip name) qty])) VNone kvs Hnone)
        as [_ ->]. }
    destruct (found_box_json _ _ _ _ _ _ Hload Hfind) as [Hd Hb].
    split; [|split].
    + unfold f2. rewrite Eb.
      exact (add_item_run _ _ _ _ _ _ _ _ _ _ _ Hpin Hload Hfind Hitems).
    + unfold f2. rewrite Eb.
      apply load_data_dumps, json_value_put_box; [exact Hd|].
      now apply json_value_with_items.
    + unfold b'. cbn [Py.getitem].
      now rewrite (dict_get_app_absent _ _ _ Hnone).
  - intros idx name qty.
    exact (update_item_out _ _ _ _ _ _ _ _ _ _ _ _ Hpin Hload Hfind Hitems (Hidx idx)).
  - intros idx.
    exact (delete_item_out _ _ _ _ _ _ _ _ _ _ Hpin Hload Hfind Hitems (Hidx idx)).
Qed.

End StoreClaims.

Lemma add_item_appends_witness :
  require_pin (Some "1234") (Some "1234") = OK tt /\
  load_data (J := layout_codec) (Some (Some 2%nat, doc_tools))
    = (OK doc_tools, Some (Some 2%nat, doc_tools)) /\
  trimmed " Saw " "Saw" /\
  add_item (J := layout_codec) (Some "1234") "a" " Saw " 2 (Some "1234")
    (Some (Some 2%nat, doc_tools))
  = (OK (RedirectResponse "/boxes/a" 303),
     Some (Some 2%nat,
       VDict [(KStr "boxes",
         VList [VDict [(KStr "id", VStr "a"); (KStr "name", VStr "Tools");
                       (KStr "location", VStr "Shelf");
                       (KStr "items",
                        VList [name_qty "Hammer" 1; name_qty "Nails" 40;
                               name_qty "Saw" 2])]])])).
Proof.
  assert (H1 : require_pin (Some "1234") (Some "1234") = OK tt) by reflexivity.
  assert (H2 : load_data (J := layout_codec) (Some (Some 2%nat, doc_tools))
               = (OK doc_tools, Some (Some 2%nat, doc_tools))) by reflexivity.
  assert (H3 : trimmed " Saw " "Saw")
    by (exists " ", " "; repeat split; reflexivity).
  split; [exact H1|]. split; [exact H2|]. split; [exact H3|].
  destruct (add_item_appends (J := layout_codec) (Some "1234") "a" " Saw "
              "Saw" 2 (Some "1234") _ _ _ H1 H2 H3) as [H _].
  apply (H 0%nat box_tools [name_qty "Hammer" 1; name_qty "Nails" 40]);
    [reflexivity | reflexivity | lia].
Defined.

(** C5 as stated fails: a name that is blank once trimmed is accepted, and
    an item with the empty name is written. *)
Lemma add_item_accepts_blank_name :
  Text.strip " " = EmptyString /\
  add_item (J := layout_codec) None "a" " " 1 None
    (Some (Some 2%nat, doc_tools))
  = (OK (RedirectResponse "/boxes/a" 303),
     Some (Some 2%nat,
       VDict [(KStr "boxes",
         VList [VDict [(KStr "id", VStr "a"); (KStr "name", VStr "Tools");
                       (KStr "location", VStr "Shelf");
                       (KStr "items",
                        VList [ItemLineParser.item "Hammer" 1;
                               ItemLineParser.item "Nails" 40;
                               ItemLineParser.item "" 1])]])])).
Proof. split; reflexivity. Qed.

(** C1 fails on the code, which is at fault: [update_item] writes
    [max(1, qty)], while [add_item] writes the quantity it is given and the
    parsing loop of [add_box] the one it read, so both write quantities
    below 1. *)
Theorem quantity_below_one_is_written :
  add_item (J := layout_codec) None "a" "Saw" 0 None
    (Some (Some 2%nat, doc_tools))
  = (OK (RedirectResponse "/boxes/a" 303),
     Some (Some 2%nat,
       VDict [(KStr "boxes",
         VList [VDict [(KStr "id", VStr "a"); (KStr "name", VStr "Tools");
                       (KStr "location", VStr "Shelf");
                       (KStr "items",
                        VList [ItemLineParser.item "Hammer" 1;
                               ItemLineParser.item "Nails" 40;
                               ItemLineParser.item "Saw" 0])]])])) /\
  ItemLineParser.parsed_items "Tent,0" = OK [ItemLineParser.item "Tent" 0] /\
  ItemLineParser.parsed_items "Pegs,-5" = OK [ItemLineParser.item "Pegs" (-5)] /\
  ItemLineParser.parsed_items "Stove x0" = OK [ItemLineParser.item "Stove" 0] /\
  update_item (J := layout_codec) None "a" 0 "Hammer" 0 None
    (Some (Some 2%nat, doc_tools))
  = (OK (RedirectResponse "/boxes/a" 303),
     Some (Some 2%nat,
       VDict [(KStr "boxes",
         VList [VDict [(KStr "id", VStr "a"); (KStr "name", VStr "Tools");
                       (KStr "location", VStr "Shelf");
                       (KStr "items",
                        VList [ItemLineParser.item "Hammer" 1;
                               ItemLineParser.item "Nails" 40])]])])).
Proof. repeat split; reflexivity. Qed.

(** C6 as stated fails: a name of one space is blank once trimmed, and the
    call succeeds and writes a box whose name is empty. *)
Lemma add_box_blank_name_creates_box :
  Text.strip " " = EmptyString /\
  add_box (J := layout_codec) None " " "" "" None 0 None
  = (OK (RedirectResponse "/" 303),
     Some (Some 2%nat,
       VDict [(KStr "boxes",
         VList [VDict [(KStr "id", VStr "00000000000040008000000000000000");
                       (KStr "name", VStr "");
                       (KStr "location", VStr "");
                       (KStr "items", VList [])]])])).
Proof. split; reflexivity. Qed.

Lemma add_box_accepts_empty_name_witness :
  trimmed " " EmptyString /\
  trimmed " Attic" "Attic" /\
  require_pin None None = OK tt /\
  load_data (J := layout_codec) None = (OK EMPTY, Some (Some 2%nat, EMPTY)) /\
  boxes_of EMPTY = Some [] /\
  ItemLineParser.parsed_items "Tent,1" = OK [name_qty "Tent" 1] /\
  add_box (J := layout_codec) None " " " Attic" "Tent,1" None 9 None
  = (OK (RedirectResponse "/" 303),
     Some (Some 2%nat,
       VDict [(KStr "boxes",
         VList [VDict [(KStr "id", VStr "00000000000040008000000000000009");
                       (KStr "name", VStr "");
                       (KStr "location", VStr "Attic");
                       (KStr "items", VList [name_qty "Tent" 1])]])])).
Proof.
  assert (H0 : trimmed " " EmptyString)
    by (exists " ", EmptyString; repeat split; reflexivity).
  assert (H0' : trimmed " Attic" "Attic")
    by (exists " ", EmptyString; repeat split; reflexivity).
  assert (H1 : require_pin None None = OK tt) by reflexivity.
  assert (H2 : load_data (J := layout_codec) None
               = (OK EMPTY, Some (Some 2%nat, EMPTY))) by reflexivity.
  assert (H3 : boxes_of EMPTY = Some []) by reflexivity.
  assert (H4 : ItemLineParser.parsed_items "Tent,1" = OK [name_qty "Tent" 1])
    by reflexivity.
  repeat (split; [assumption|]).
  destruct (add_box_accepts_empty_name (J := layout_codec) None " " " Attic"
              "Attic" "Tent,1" None 9 None _ EMPTY [] H0 H0' H1 H2 H3)
    as [H _].
  exact (proj1 (H _ H4)).
Defined.

Lemma failed_request_writes_nothing_witness :
  update_item (J := layout_codec) (Some "1234") "a" 5 "x" 1 (Some "1234")
    (Some (Some 2%nat, doc_tools))
  = (Raise index_error, Some (Some 2%nat, doc_tools)) /\
  delete_item (J := layout_codec) (Some "1234") "a" (-1) (Some "1234")
    (Some (Some 2%nat, doc_tools))
  = (Raise index_error, Some (Some 2%nat, doc_tools)).
Proof.
  destruct (failed_request_writes_nothing (J := layout_codec) (Some "1234"))
    as [H _].
  split.
  - apply (H "a" 5 "x" 1 (Some "1234") (Some 2%nat, doc_tools) doc_tools
             0%nat box_tools
             [ItemLineParser.item "Hammer" 1; ItemLineParser.item "Nails" 40]);
      try reflexivity. right. cbn. lia.
  - apply (H "a" (-1) "x" 1 (Some "1234") (Some 2%nat, doc_tools) doc_tools
             0%nat box_tools
             [ItemLineParser.item "Hammer" 1; ItemLineParser.item "Nails" 40]);
      try reflexivity. left. lia.
Defined.

Lemma import_then_export_witness :
  require_pin (Some "1234") (Some "1234") = OK tt /\
  loads (JsonCodec := layout_codec) (None, doc_tools) = Some doc_tools /\
  boxes_of doc_tools = Some [box_tools] /\
  exists f1 content,
    import_json (J := layout_codec) (Some "1234") (None, doc_tools)
      (Some "1234") (Some (Some 2%nat, doc_bare))
    = (OK (RedirectResponse "/" 303), f1) /\
    export_json f1 = (OK (StreamingResponse content "application/json"), f1) /\
    loads content = Some doc_tools.
Proof.
  assert (H1 : require_pin (Some "1234") (Some "1234") = OK tt) by reflexivity.
  assert (H2 : loads (JsonCodec := layout_codec) (None, doc_tools)
               = Some doc_tools) by reflexivity.
  assert (H3 : boxes_of doc_tools = Some [box_tools]) by reflexivity.
  repeat (split; [assumption|]).
  destruct (import_then_export (J := layout_codec) (Some "1234")
              (None, doc_tools) (Some "1234") doc_tools [box_tools]
              (Some (Some 2%nat, doc_bare)) H1 H2 H3)
    as (f1 & content & Hi & _ & _ & He & Hc).
  exists f1, content. repeat split; assumption.
Defined.

Lemma add_box_prepends_witness :
  add_box (J := layout_codec) None " Tent Kit" "Garage-A "
    ("Tent,1" +:+ String Text.LF "Stove x2") None 5
    (Some (Some 2%nat, doc_tools))
  = (OK (RedirectResponse "/" 303),
     Some (Some 2%nat,
       VDict [(KStr "boxes",
         VList [VDict [(KStr "id", VStr "00000000000040008000000000000005");
                       (KStr "name", VStr "Tent Kit");
                       (KStr "location", VStr "Garage-A");
                       (KStr "items",
                        VList [name_qty "Tent" 1; name_qty "Stove" 2])];
                box_tools])])) /\
  random_bits 5 <> random_bits 7 /\
  random_bits (5 + 2 ^ 62) = random_bits 5 /\
  Uuid.uuid4_hex (5 + 2 ^ 62) = Uuid.uuid4_hex 5 /\
  exists d f1 bs parsed n l,
    load_data (J := layout_codec) (Some (Some 2%nat, doc_tools)) = (OK d, f1) /\
    boxes_of d = Some bs /\
    ItemLineParser.parsed_items ("Tent,1" +:+ String Text.LF "Stove x2")
      = OK parsed /\
    trimmed " Tent Kit" n /\ trimmed "Garage-A " l /\
    boxes_of
      (prepend_box d
         (VDict [(KStr "id", VStr (Uuid.uuid4_hex 5)); (KStr "name", VStr n);
                 (KStr "location", VStr l); (KStr "items", VList parsed)]))
    = Some (VDict [(KStr "id", VStr (Uuid.uuid4_hex 5)); (KStr "name", VStr n);
                   (KStr "location", VStr l); (KStr "items", VList parsed)]
            :: bs).
Proof.
  assert (H : add_box (J := layout_codec) None " Tent Kit" "Garage-A "
                ("Tent,1" +:+ String Text.LF "Stove x2") None 5
                (Some (Some 2%nat, doc_tools))
              = (OK (RedirectResponse "/" 303),
                 Some (Some 2%nat,
                   VDict [(KStr "boxes",
                     VList [VDict [(KStr "id",
                                    VStr "00000000000040008000000000000005");
                                   (KStr "name", VStr "Tent Kit");
                                   (KStr "location", VStr "Garage-A");
                                   (KStr "items",
                                    VList [name_qty "Tent" 1;
                                           name_qty "Stove" 2])];
                            box_tools])]))) by reflexivity.
  split; [exact H|]. split; [vm_compute; discriminate|].
  split; [vm_compute; reflexivity|]. split; [vm_compute; reflexivity|].
  destruct (add_box_prepends (J := layout_codec) None _ _ _ _ _ _ _ _ H)
    as (d & f1 & bs & parsed & n & l & Hload & Hb & Hp & Hn & Hl & Hrest).
  exists d, f1, bs, parsed, n, l.
  repeat (split; [assumption|]). exact (proj1 (proj2 (proj2 (proj2 Hrest)))).
Defined.

Lemma box_without_items_field_witness :
  require_pin None None = OK tt /\
  loads (JsonCodec := layout_codec) (Some 2%nat, doc_bare) = Some doc_bare /\
  find_box doc_bare "b" = OK (Some (0%nat, box_bare)) /\
  Py.getitem box_bare "items" = Raise KeyError /\
  trimmed "Rope " "Rope" /\
  add_item (J := layout_codec) None "b" "Rope " 1 None
    (Some (Some 2%nat, doc_bare))
  = (OK (RedirectResponse "/boxes/b" 303),
     Some (Some 2%nat,
       VDict [(KStr "boxes",
         VList [VDict [(KStr "id", VStr "b"); (KStr "name", VStr "Bare");
                       (KStr "items", VList [name_qty "Rope" 1])]])])) /\
  update_item (J := layout_codec) None "b" 0 "Rope" 1 None
    (Some (Some 2%nat, doc_bare))
  = (Raise index_error, Some (Some 2%nat, doc_bare)) /\
  delete_item (J := layout_codec) None "b" 0 None
    (Some (Some 2%nat, doc_bare))
  = (Raise index_error, Some (Some 2%nat, doc_bare)).
Proof.
  assert (H1 : require_pin None None = OK tt) by reflexivity.
  assert (H2 : loads (JsonCodec := layout_codec) (Some 2%nat, doc_bare)
               = Some doc_bare) by reflexivity.
  assert (H3 : find_box doc_bare "b" = OK (Some (0%nat, box_bare)))
    by reflexivity.
  assert (H4 : Py.dict_get (KStr "items")
                 [(KStr "id", VStr "b"); (KStr "name", VStr "Bare")] = None)
    by reflexivity.
  assert (H5 : trimmed "Rope " "Rope")
    by (exists EmptyString, " "; repeat split; reflexivity).
  repeat (split; [assumption|]). split; [reflexivity|]. split; [exact H5|].
  destruct (box_without_items_field (J := layout_codec) None "b" None
              (Some 2%nat, doc_bare) doc_bare 0%nat _ H1 H2 H3 H4)
    as (Ha & Hu & Hd).
  split; [exact (proj1 (Ha "Rope " "Rope" 1 H5))|].
  split; [apply Hu | apply Hd].
Defined.

(** * Further properties of the code *)

(** ** The PIN check and the data file *)

Section AccessFacts.

Context {J : JsonCodec}.
Variable ADMIN_PIN : option string.

Lemma require_pin_wrong a pin :
  ADMIN_PIN = Some a -> a <> EmptyString -> pin <> Some a ->
  require_pin ADMIN_PIN pin = Raise (HTTPException 403 (Some "Invalid PIN")).
Proof.
  intros -> Ha Hp. unfold require_pin.
  apply is_empty_false in Ha. rewrite Ha. cbn [negb andb].
  destruct pin as [p|]; [|reflexivity].
  destruct (String.eqb p a) eqn:E; [|reflexivity].
  apply String.eqb_eq in E. congruence.
Qed.

(** X1. With a PIN configured, a request that carries another PIN, or none,
    is refused with [HTTPException(403, "Invalid PIN")] by every handler that
    changes the document, before the data file is read: the file is left as
    it is, and is not created when there is none. *)
Theorem wrong_pin_is_refused (rq : request) (a : string)
    (pin : option string) (f : file_state) :
  ADMIN_PIN = Some a -> a <> EmptyString ->
  pin_of J rq = Some pin -> pin <> Some a ->
  handle ADMIN_PIN rq f = (Raise (HTTPException 403 (Some "Invalid PIN")), f).
Proof.
  intros HA Ha Hrq Hp. pose proof (require_pin_wrong a pin HA Ha Hp) as E.
  destruct rq; cbn [pin_of] in Hrq; try discriminate;
    injection Hrq as ->; cbn [handle];
    [ unfold add_box | unfold add_item | unfold import_json
    | unfold update_box | unfold delete_box | unfold update_item
    | unfold delete_item ];
    rewrite bind_lift, E; reflexivity.
Qed.

(** X2. Without a data file, [load_data] creates it with the empty document
    and returns [{"boxes": []}]; with a data file it leaves the file as it
    is; and a second [load_data] returns what the first returned, changing
    nothing. *)
Theorem load_data_creates_once :
  load_data None = (OK EMPTY, Some (dumps (Some 2%nat) EMPTY)) /\
  (forall c, snd (load_data (Some c)) = Some c) /\
  (forall f r f1, load_data f = (r, f1) -> load_data f1 = (r, f1)).
Proof.
  split; [apply load_data_fresh|]. split; [reflexivity|].
  intros f r f1. unfold load_data. destruct f; intros [= <- <-]; reflexivity.
Qed.

End AccessFacts.

Lemma wrong_pin_is_refused_witness :
  handle (J := layout_codec) (Some "1234")
    (DeleteBox "a" "DELETE" (Some "0000")) None
  = (Raise (HTTPException 403 (Some "Invalid PIN")), None).
Proof.
  apply (wrong_pin_is_refused (J := layout_codec) (Some "1234")
           (DeleteBox "a" "DELETE" (Some "0000")) "1234" (Some "0000") None);
    [reflexivity | discriminate | reflexivity | discriminate].
Defined.

(** ** [find_box] *)

Section FindFacts.

Lemma has_id_other_id bid b :
  has_some_id b = true -> other_id bid b = negb (has_id bid b).
Proof.
  unfold has_some_id, other_id, has_id.
  now destruct (Py.getitem b "id").
Qed.

Lemma find_in_first bs bid k i b :
  bs !! i = Some b -> has_id bid b = true ->
  (forall j b', (j < i)%nat -> bs !! j = Some b' -> other_id bid b' = true) ->
  find_in bs bid k = OK (Some ((k + i)%nat, b)).
Proof.
  revert k i. induction bs as [|b0 bs IH]; intros k i Hl Hid Hbefore;
    [discriminate|].
  cbn [find_in]. destruct i as [|i].
  - injection Hl as ->. unfold has_id in Hid.
    destruct (Py.getitem b "id") as [v|]; [|discriminate].
    cbn [res_bind]. rewrite Hid. now rewrite Nat.add_0_r.
  - pose proof (Hbefore 0%nat b0 ltac:(lia) eq_refl) as H0.
    unfold other_id in H0.
    destruct (Py.getitem b0 "id") as [v|]; [|discriminate].
    cbn [res_bind]. apply negb_true_iff in H0. rewrite H0.
    replace (k + S i)%nat with (S k + i)%nat by lia.
    apply IH; [exact Hl | exact Hid |].
    intros j b' Hj Hb'. apply (Hbefore (S j)); [lia | exact Hb'].
Qed.

Lemma find_in_found bs bid k i b :
  find_in bs bid k = OK (Some (i, b)) ->
  (k <= i)%nat /\ bs !! (i - k)%nat = Some b /\ has_id bid b = true /\
  (forall j b', (j < i - k)%nat -> bs !! j = Some b' -> other_id bid b' = true).
Proof.
  revert k. induction bs as [|b0 bs IH]; intros k; cbn [find_in]; [discriminate|].
  destruct (Py.getitem b0 "id") as [v|e] eqn:Eg; cbn [res_bind]; [|discriminate].
  destruct (Py.eq_str v bid) eqn:Ev.
  - intros [= <- <-]. replace (k - k)%nat with 0%nat by lia.
    repeat split; [lia | | intros; lia].
    unfold has_id. now rewrite Eg.
  - intros H. destruct (IH _ H) as (Hk & Hl & Hid & Hbefore).
    replace (i - k)%nat with (S (i - S k)) by lia.
    repeat split; [lia | exact Hl | exact Hid |].
    intros [|j] b' Hj.
    + intros [= <-]. unfold other_id. now rewrite Eg, Ev.
    + apply Hbefore. lia.
Qed.

Lemma find_in_missing bs bid k :
  find_in bs bid k = OK None <-> forallb (other_id bid) bs = true.
Proof.
  revert k. induction bs as [|b0 bs IH]; intros k; cbn [find_in forallb];
    [tauto|].
  unfold other_id at 1.
  destruct (Py.getitem b0 "id") as [v|e]; cbn [res_bind andb].
  - destruct (Py.eq_str v bid); cbn [negb andb]; [split; discriminate|].
    apply IH.
  - split; discriminate.
Qed.

Lemma find_in_raises bs bid k i b e :
  bs !! i = Some b -> Py.getitem b "id" = Raise e ->
  (forall j b', (j < i)%nat -> bs !! j = Some b' -> other_id bid b' = true) ->
  find_in bs bid k = Raise e.
Proof.
  revert k i. induction bs as [|b0 bs IH]; intros k i Hl Hid Hbefore;
    [discriminate|].
  cbn [find_in]. destruct i as [|i].
  - injection Hl as ->. now rewrite Hid.
  - pose proof (Hbefore 0%nat b0 ltac:(lia) eq_refl) as H0.
    unfold other_id in H0.
    destruct (Py.getitem b0 "id") as [v|]; [|discriminate].
    cbn [res_bind]. apply negb_true_iff in H0. rewrite H0.
    apply (IH _ i); [exact Hl | exact Hid |].
    intros j b' Hj Hb'. apply (Hbefore (S j)); [lia | exact Hb'].
Qed.

Lemma find_box_list d bs bid :
  boxes_of d = Some bs -> find_box d bid = find_in bs bid 0.
Proof.
  intros H. destruct (boxes_of_dict _ _ H) as (kvs & -> & E).
  unfold find_box, Py.getitem. now rewrite E.
Qed.

(** X3. On a document whose ["boxes"] is a list, [find_box] returns the
    first record whose ["id"] is the string looked for, and only when every
    record before it has an ["id"], another one: of two boxes with one id the
    first is found. It returns [None] exactly when every record has an
    ["id"] and none is the one looked for. When a record that comes before
    any match cannot give its ["id"], [find_box] raises what that lookup
    raises ([KeyError] for a record without the field). *)
Theorem find_box_first_match (d : value) (bs : list value) (bid : string) :
  boxes_of d = Some bs ->
  (forall i b,
     find_box d bid = OK (Some (i, b)) <->
     bs !! i = Some b /\ has_id bid b = true /\
     forall j b', (j < i)%nat -> bs !! j = Some b' -> other_id bid b' = true)
  /\
  (find_box d bid = OK None <-> forallb (other_id bid) bs = true)
  /\
  (forall i b e,
     bs !! i = Some b -> Py.getitem b "id" = Raise e ->
     (forall j b', (j < i)%nat -> bs !! j = Some b' ->
                   other_id bid b' = true) ->
     find_box d bid = Raise e).
Proof.
  intros Hb. rewrite (find_box_list _ _ _ Hb). split; [|split].
  - intros i b. split.
    + intros H. apply find_in_found in H as (_ & Hl & Hid & Hbefore).
      rewrite Nat.sub_0_r in *. auto.
    + intros (Hl & Hid & Hbefore).
      exact (find_in_first _ _ 0%nat _ _ Hl Hid Hbefore).
  - apply find_in_missing.
  - intros i b e. apply find_in_raises.
Qed.

End FindFacts.

Lemma find_box_first_match_witness :
  boxes_of (VDict [(KStr "boxes",
                    VList [box_bare; box_tools; with_items box_tools []])])
    = Some [box_bare; box_tools; with_items box_tools []] /\
  find_box (VDict [(KStr "boxes",
                    VList [box_bare; box_tools; with_items box_tools []])]) "a"
    = OK (Some (1%nat, box_tools)).
Proof.
  assert (H : boxes_of (VDict [(KStr "boxes",
                VList [box_bare; box_tools; with_items box_tools []])])
              = Some [box_bare; box_tools; with_items box_tools []])
    by reflexivity.
  split; [exact H|].
  destruct (find_box_first_match _ _ "a" H) as [Hf _].
  apply Hf. split; [reflexivity|]. split; [reflexivity|].
  intros [|j] b' Hj; [intros [= <-]; reflexivity | lia].
Defined.

(** ** [update_box] and [delete_box] *)

Section BoxFacts.

Context {J : JsonCodec}.
Variable ADMIN_PIN : option string.

Lemma put_box_boxes d bs i b :
  boxes_of d = Some bs -> put_box d i b = set_boxes d (<[i := b]> bs).
Proof.
  intros H. destruct (boxes_of_dict _ _ H) as (kvs & -> & E).
  unfold put_box, set_boxes. now rewrite E.
Qed.

Lemma boxes_of_set_boxes d bs l :
  boxes_of d = Some bs -> boxes_of (set_boxes d l) = Some l.
Proof.
  intros H. destruct (boxes_of_dict _ _ H) as (kvs & -> & E).
  unfold set_boxes, boxes_of. now rewrite dict_get_set_same.
Qed.

Lemma json_value_set_boxes d l :
  json_value d = true -> forallb json_value l = true ->
  json_value (set_boxes d l) = true.
Proof.
  intros Hd Hl. destruct d as [| | | | |kvs]; try exact Hd.
  now apply json_value_dict_set.
Qed.

(** A box changed in place, its id kept, is found where it was. *)
Lemma find_box_put_box d bid i b b' :
  find_box d bid = OK (Some (i, b)) -> has_id bid b' = true ->
  find_box (put_box d i b') bid = OK (Some (i, b')).
Proof.
  intros Hfind Hid.
  destruct (find_box_some _ _ _ _ Hfind) as (bs & Hb & Hl & _).
  rewrite (find_box_list _ _ _ Hb) in Hfind.
  apply find_in_found in Hfind as (_ & _ & _ & Hbefore).
  rewrite Nat.sub_0_r in Hbefore.
  rewrite (find_box_list _ (<[i := b']> bs)).
  2: { rewrite (put_box_boxes _ _ _ _ Hb). exact (boxes_of_set_boxes _ _ _ Hb). }
  apply (find_in_first _ _ 0%nat); [| exact Hid |].
  - apply list_lookup_insert_eq. now apply lookup_lt_Some in Hl.
  - intros j b0 Hj Hb0. rewrite list_lookup_insert_ne in Hb0 by lia.
    now apply (Hbefore j).
Qed.

Lemma has_id_dict_set bid k v kvs :
  k <> "id" -> has_id bid (VDict kvs) = true ->
  has_id bid (VDict (Py.dict_set (KStr k) v kvs)) = true.
Proof.
  intros Hk. unfold has_id, Py.getitem.
  rewrite dict_get_set_other by congruence. exact id.
Qed.

Lemma update_box_run box_id name location pin f d f1 i kvs :
  require_pin ADMIN_PIN pin = OK tt ->
  load_data f = (OK d, f1) ->
  find_box d box_id = OK (Some (i, VDict kvs)) ->
  update_box ADMIN_PIN box_id name location pin f =
    (OK (RedirectResponse ("/boxes/" +:+ box_id) 303),
     Some (dumps (Some 2%nat)
        (put_box d i
           (VDict (Py.dict_set (KStr "location") (VStr (Text.strip location))
                    (Py.dict_set (KStr "name") (VStr (Text.strip name))
                       kvs)))))).
Proof.
  intros Hpin Hload Hfind.
  destruct (find_box_some _ _ _ _ Hfind) as (bs & _ & _ & Hid & _).
  unfold update_box. rewrite bind_lift, Hpin, (bind_load _ _ _ _ Hload).
  rewrite bind_lift, Hfind, bind_lift, (or_404_found _ _ _ Hid).
  reflexivity.
Qed.

(** X4. [update_box] on the box [find_box] finds: the record gets the
    trimmed name and the trimmed location and keeps every other field, its
    id and its items among them; it stays at its place among the boxes, which
    are otherwise as they were, and is found again under its id; the document
    written is the one the next [load_data] reads. When no box has the id,
    the call raises [HTTPException(404)] and writes nothing. *)
Theorem update_box_keeps_id_and_items (box_id name location : string)
    (pin : option string) (f f1 : file_state) (d : value) :
  require_pin ADMIN_PIN pin = OK tt ->
  load_data f = (OK d, f1) ->
  (forall i kvs,
     find_box d box_id = OK (Some (i, VDict kvs)) ->
     let kvs' := Py.dict_set (KStr "location") (VStr (Text.strip location))
                   (Py.dict_set (KStr "name") (VStr (Text.strip name)) kvs) in
     let d' := put_box d i (VDict kvs') in
     let f2 := Some (dumps (Some 2%nat) d') in
     update_box ADMIN_PIN box_id name location pin f =
       (OK (RedirectResponse ("/boxes/" +:+ box_id) 303), f2) /\
     load_data f2 = (OK d', f2) /\
     Py.dict_get (KStr "name") kvs' = Some (VStr (Text.strip name)) /\
     Py.dict_get (KStr "location") kvs' = Some (VStr (Text.strip location)) /\
     (forall k, k <> "name" -> k <> "location" ->
                Py.dict_get (KStr k) kvs' = Py.dict_get (KStr k) kvs) /\
     box_items (VDict kvs') = box_items (VDict kvs) /\
     find_box d' box_id = OK (Some (i, VDict kvs')) /\
     exists bs, boxes_of d = Some bs /\
                boxes_of d' = Some (<[i := VDict kvs']> bs))
  /\
  (find_box d box_id = OK None ->
   update_box ADMIN_PIN box_id name location pin f = (Raise not_found, f1)).
Proof.
  intros Hpin Hload. split.
  - intros i kvs Hfind kvs' d' f2.
    destruct (find_box_some _ _ _ _ Hfind) as (bs & Hb & Hl & Hid & _).
    pose proof (load_data_json _ _ _ Hload) as Hd.
    assert (Hbj : json_value (VDict kvs) = true).
    { destruct (boxes_of_dict _ _ Hb) as (dk & -> & E).
      apply (json_value_dict_get _ _ _ Hd) in E. rewrite json_value_list in E.
      exact (forallb_lookup _ _ _ _ E Hl). }
    assert (Hother : forall k, k <> "name" -> k <> "location" ->
              Py.dict_get (KStr k) kvs' = Py.dict_get (KStr k) kvs).
    { intros k Hn Hloc. unfold kvs'.
      rewrite !dict_get_set_other by congruence. reflexivity. }
    split; [exact (update_box_run _ _ _ _ _ _ _ _ _ Hpin Hload Hfind)|].
    split; [|split; [|split; [|split; [|split; [|split]]]]].
    + apply load_data_dumps, json_value_put_box; [exact Hd|].
      unfold kvs'. repeat apply json_value_dict_set; auto.
    + unfold kvs'. rewrite dict_get_set_other by congruence.
      apply dict_get_set_same.
    + apply dict_get_set_same.
    + exact Hother.
    + unfold box_items. rewrite Hother by discriminate. reflexivity.
    + apply (find_box_put_box _ _ _ _ _ Hfind). unfold kvs'.
      repeat apply has_id_dict_set; try discriminate. exact Hid.
    + exists bs. split; [exact Hb|]. now apply boxes_of_put_box.
  - intros Hfind. unfold update_box.
    rewrite bind_lift, Hpin, (bind_load _ _ _ _ Hload).
    rewrite bind_lift, Hfind, bind_lift. reflexivity.
Qed.

(** *** [delete_box] *)

Lemma keep_other_filter bs box_id :
  forallb has_some_id bs = true ->
  keep_other bs box_id = OK (without_id box_id bs).
Proof.
  induction bs as [|b bs IH]; [reflexivity|].
  cbn [forallb keep_other without_id List.filter]. intros H.
  apply andb_prop in H as [Hb Hbs]. rewrite (IH Hbs).
  unfold has_some_id in Hb. unfold has_id.
  destruct (Py.getitem b "id") as [v|]; [|discriminate].
  cbn [res_bind]. now destruct (Py.eq_str v box_id).
Qed.

Lemma without_id_length box_id bs :
  (length (without_id box_id bs) <= length bs)%nat /\
  (length (without_id box_id bs) = length bs <->
   existsb (has_id box_id) bs = false).
Proof.
  induction bs as [|b bs [IH1 IH2]]; [cbn; split; [lia | split; reflexivity]|].
  cbn [without_id List.filter existsb length].
  fold (without_id box_id bs).
  destruct (has_id box_id b); cbn [negb orb length].
  - split; [lia|]. split; [lia | discriminate].
  - split; [lia|]. rewrite <- IH2. lia.
Qed.

Lemma without_id_other box_id bs :
  forallb has_some_id bs = true ->
  forallb (other_id box_id) (without_id box_id bs) = true.
Proof.
  induction bs as [|b bs IH]; [reflexivity|].
  cbn [forallb without_id List.filter]. intros H.
  apply andb_prop in H as [Hb Hbs]. fold (without_id box_id bs).
  destruct (has_id box_id b) eqn:E; cbn [negb]; [now apply IH|].
  cbn [forallb]. rewrite (IH Hbs), (has_id_other_id _ _ Hb), E. reflexivity.
Qed.

Lemma forallb_filter {A : Type} (p q : A -> bool) l :
  forallb p l = true -> forallb p (List.filter q l) = true.
Proof.
  induction l as [|x l IH]; [reflexivity|]. cbn [forallb List.filter].
  intros H. apply andb_prop in H as [Hx Hl].
  destruct (q x); cbn [forallb]; rewrite ?Hx; now apply IH.
Qed.

Lemma delete_box_run box_id confirm pin f d f1 bs :
  require_pin ADMIN_PIN pin = OK tt ->
  Text.upper (Text.strip confirm) = "DELETE" ->
  load_data f = (OK d, f1) ->
  boxes_of d = Some bs ->
  forallb has_some_id bs = true ->
  delete_box ADMIN_PIN box_id confirm pin f =
    if existsb (has_id box_id) bs
    then (OK (RedirectResponse "/" 303),
          Some (dumps (Some 2%nat) (set_boxes d (without_id box_id bs))))
    else (Raise not_found, f1).
Proof.
  intros Hpin Hc Hload Hb Hids.
  destruct (boxes_of_dict _ _ Hb) as (kvs & -> & E).
  unfold delete_box. rewrite bind_lift, Hpin, Hc, String.eqb_refl.
  cbn [negb].
  rewrite (bind_load _ _ _ _ Hload), bind_lift. cbn [Py.getitem]. rewrite E.
  rewrite bind_lift. cbn [Py.len]. rewrite bind_lift. cbn [Py.iter].
  rewrite bind_lift, (keep_other_filter _ _ Hids), bind_lift.
  cbn [Py.setitem].
  destruct (without_id_length box_id bs) as [_ Hlen].
  destruct (existsb (has_id box_id) bs) eqn:Ex.
  - replace (Z.of_nat (length (without_id box_id bs)) =? Z.of_nat (length bs))
      with false; [reflexivity|].
    symmetry. apply Z.eqb_neq. intros H. apply Nat2Z.inj in H.
    apply Hlen in H. discriminate.
  - replace (Z.of_nat (length (without_id box_id bs)) =? Z.of_nat (length bs))
      with true; [reflexivity|].
    symmetry. apply Z.eqb_eq. f_equal. now apply Hlen.
Qed.

(** X5. [delete_box] with a confirmation other than [DELETE] (trimmed,
    letters of either case) raises [HTTPException(400)] before it reads the
    data file: the file is left as it is, and not created when there is
    none. *)
Theorem delete_box_needs_confirmation (box_id confirm : string)
    (pin : option string) (f : file_state) :
  require_pin ADMIN_PIN pin = OK tt ->
  Text.upper (Text.strip confirm) <> "DELETE" ->
  delete_box ADMIN_PIN box_id confirm pin f =
    (Raise (HTTPException 400 (Some confirm_detail)), f).
Proof.
  intros Hpin Hc. unfold delete_box. rewrite bind_lift, Hpin.
  destruct (String.eqb (Text.upper (Text.strip confirm)) "DELETE") eqn:E;
    [|reflexivity].
  apply String.eqb_eq in E. congruence.
Qed.

(** X6. [delete_box], confirmed, on a document whose records all have an
    ["id"]: when some box has the id, every box with that id is removed (all
    of them, where several share it), the other boxes stay in their order,
    the document written is the one the next [load_data] reads, and
    [find_box] no longer finds the id; when no box has the id, the call
    raises [HTTPException(404)] and writes nothing. *)
Theorem delete_box_removes_every_match (box_id confirm : string)
    (pin : option string) (f f1 : file_state) (d : value)
    (bs : list value) :
  require_pin ADMIN_PIN pin = OK tt ->
  Text.upper (Text.strip confirm) = "DELETE" ->
  load_data f = (OK d, f1) ->
  boxes_of d = Some bs ->
  forallb has_some_id bs = true ->
  let d' := set_boxes d (without_id box_id bs) in
  let f2 := Some (dumps (Some 2%nat) d') in
  (existsb (has_id box_id) bs = true ->
   delete_box ADMIN_PIN box_id confirm pin f =
     (OK (RedirectResponse "/" 303), f2) /\
   load_data f2 = (OK d', f2) /\
   boxes_of d' = Some (without_id box_id bs) /\
   (forall b, In b (without_id box_id bs) <->
              In b bs /\ has_id box_id b = false) /\
   find_box d' box_id = OK None)
  /\
  (existsb (has_id box_id) bs = false ->
   delete_box ADMIN_PIN box_id confirm pin f = (Raise not_found, f1)).
Proof.
  intros Hpin Hc Hload Hb Hids d' f2.
  pose proof (delete_box_run box_id _ _ _ _ _ _ Hpin Hc Hload Hb Hids) as Hrun.
  split; intros Hex; rewrite Hex in Hrun; [|exact Hrun].
  pose proof (boxes_of_set_boxes _ _ (without_id box_id bs) Hb) as Hb'.
  split; [exact Hrun|]. split; [|split; [exact Hb' | split]].
  - apply load_data_dumps, json_value_set_boxes.
    + exact (load_data_json _ _ _ Hload).
    + apply forallb_filter.
      pose proof (load_data_json _ _ _ Hload) as Hd.
      destruct (boxes_of_dict _ _ Hb) as (kvs & -> & E).
      now apply (json_value_dict_get _ _ _ Hd) in E.
  - intros b. unfold without_id. rewrite filter_In, negb_true_iff. tauto.
  - rewrite (find_box_list _ _ _ Hb'). apply find_in_missing.
    now apply without_id_other.
Qed.

End BoxFacts.

(** ** [update_item] and [delete_item] within the bounds *)

Section ItemRangeFacts.

Context {J : JsonCodec}.
Variable ADMIN_PIN : option string.

Import ItemLineParser.

Lemma check_index_in (l : list value) idx :
  0 <= idx < Z.of_nat (length l) -> check_index (VList l) idx = OK tt.
Proof.
  intros H. unfold check_index.
  destruct (Z.ltb_spec idx 0) as [Hneg|Hpos]; [lia|].
  cbn [Py.len res_bind].
  replace (idx >=? Z.of_nat (length l)) with false; [reflexivity|].
  symmetry. rewrite Z.geb_leb. apply Z.leb_gt. lia.
Qed.

Lemma in_range_test (l : list value) idx :
  0 <= idx < Z.of_nat (length l) ->
  (0 <=? idx) && (idx <? Z.of_nat (length l)) = true.
Proof. intros H. apply andb_true_iff. rewrite Z.leb_le, Z.ltb_lt. lia. Qed.

Lemma forallb_delete {A : Type} (p : A -> bool) (l : list A) i :
  forallb p l = true -> forallb p (delete i l) = true.
Proof.
  revert i. induction l as [|x l IH]; intros i H; [exact H|].
  cbn [forallb] in H. apply andb_prop in H as [Hx Hl].
  destruct i as [|i]; cbn; [exact Hl | now rewrite Hx, IH].
Qed.


Lemma delete_item_run box_id idx pin f d f1 i b l :
  require_pin ADMIN_PIN pin = OK tt ->
  load_data f = (OK d, f1) ->
  find_box d box_id = OK (Some (i, b)) ->
  box_items b = Some l ->
  0 <= idx < Z.of_nat (length l) ->
  delete_item ADMIN_PIN box_id idx pin f =
    (OK (RedirectResponse ("/boxes/" +:+ box_id) 303),
     Some (dumps (Some 2%nat)
        (put_box d i (with_items b (delete (Z.to_nat idx) l))))).
Proof.
  intros Hpin Hload Hfind Hitems Hidx.
  destruct (find_box_some _ _ _ _ Hfind) as (bs & _ & _ & Hid & _).
  destruct (setdefault_items _ _ Hitems) as (b1 & Hsd & Hset).
  unfold delete_item. rewrite bind_lift, Hpin, (bind_load _ _ _ _ Hload).
  rewrite bind_lift, Hfind, bind_lift, (or_404_found _ _ _ Hid).
  rewrite bind_lift, Hsd, bind_lift, (check_index_in _ _ Hidx).
  rewrite bind_lift. cbn [Py.pop]. rewrite (in_range_test _ _ Hidx).
  rewrite bind_lift, Hset. reflexivity.
Qed.

Lemma changed_items_json f d f1 box_id i b l' :
  load_data f = (OK d, f1) -> find_box d box_id = OK (Some (i, b)) ->
  forallb json_value l' = true ->
  load_data (Some (dumps (Some 2%nat) (put_box d i (with_items b l'))))
  = (OK (put_box d i (with_items b l')),
     Some (dumps (Some 2%nat) (put_box d i (with_items b l')))).
Proof.
  intros Hload Hfind Hl'.
  pose proof (load_data_json _ _ _ Hload) as Hd.
  destruct (find_box_some _ _ _ _ Hfind) as (bs & Hb & Hl & _).
  assert (Hbj : json_value b = true).
  { destruct (boxes_of_dict _ _ Hb) as (kvs & -> & E).
    apply (json_value_dict_get _ _ _ Hd) in E. rewrite json_value_list in E.
    exact (forallb_lookup _ _ _ _ E Hl). }
  apply load_data_dumps, json_value_put_box; [exact Hd|].
  now apply json_value_with_items.
Qed.

Lemma found_box_items_json f d f1 box_id i b l :
  load_data f = (OK d, f1) -> find_box d box_id = OK (Some (i, b)) ->
  box_items b = Some l -> forallb json_value l = true.
Proof.
  intros Hload Hfind Hitems.
  pose proof (load_data_json _ _ _ Hload) as Hd.
  destruct (find_box_some _ _ _ _ Hfind) as (bs & Hb & Hl & _).
  destruct (boxes_of_dict _ _ Hb) as (kvs & -> & E).
  apply (json_value_dict_get _ _ _ Hd) in E. rewrite json_value_list in E.
  exact (json_value_box_items _ _ (forallb_lookup _ _ _ _ E Hl) Hitems).
Qed.

Lemma box_items_with_items_found d box_id i b l :
  find_box d box_id = OK (Some (i, b)) ->
  box_items (with_items b l) = Some l.
Proof.
  intros Hfind. destruct (find_box_some _ _ _ _ Hfind) as (bs & _ & _ & Hid & _).
  destruct (has_id_dict _ _ Hid) as (kvs & -> & _).
  apply box_items_with_items.
Qed.


(** X8. [delete_item] with an index within the item list of the box:
    the item at that index is removed, the items before it keep their
    places, the items after it move one place down, and the list is one item
    shorter; the document written is the one the next [load_data] reads. *)
Theorem delete_item_removes_one (box_id : string) (idx : Z)
    (pin : option string) (f f1 : file_state) (d : value) (i : nat)
    (b : value) (l : list value) :
  require_pin ADMIN_PIN pin = OK tt ->
  load_data f = (OK d, f1) ->
  find_box d box_id = OK (Some (i, b)) ->
  box_items b = Some l ->
  0 <= idx < Z.of_nat (length l) ->
  let l' := delete (Z.to_nat idx) l in
  let d' := put_box d i (with_items b l') in
  let f2 := Some (dumps (Some 2%nat) d') in
  delete_item ADMIN_PIN box_id idx pin f =
    (OK (RedirectResponse ("/boxes/" +:+ box_id) 303), f2) /\
  load_data f2 = (OK d', f2) /\
  box_items (with_items b l') = Some l' /\
  S (length l') = length l /\
  (forall j, (j < Z.to_nat idx)%nat -> l' !! j = l !! j) /\
  (forall j, (Z.to_nat idx <= j)%nat -> l' !! j = l !! S j).
Proof.
  intros Hpin Hload Hfind Hitems Hidx l' d' f2.
  split; [exact (delete_item_run _ _ _ _ _ _ _ _ _ Hpin Hload Hfind Hitems Hidx)|].
  split; [|split; [|split; [|split]]].
  - apply (changed_items_json _ _ _ _ _ _ _ Hload Hfind).
    apply forallb_delete.
    exact (found_box_items_json _ _ _ _ _ _ _ Hload Hfind Hitems).
  - exact (box_items_with_items_found _ _ _ _ _ Hfind).
  - unfold l'. rewrite length_delete.
    + lia.
    + apply lookup_lt_is_Some. lia.
  - intros j Hj. now apply list_lookup_delete_lt.
  - intros j Hj. now apply list_lookup_delete_ge.
Qed.

End ItemRangeFacts.

(** ** [add_item], then [delete_item] on the item added *)

Section AddDeleteFacts.

Context {J : JsonCodec}.
Variable ADMIN_PIN : option string.

Import ItemLineParser.

Lemma dict_set_twice k v w kvs :
  Py.dict_set k v (Py.dict_set k w kvs) = Py.dict_set k v kvs.
Proof.
  assert (E : Py.key_eqb k k = true) by now apply key_eqb_eq.
  induction kvs as [|[k' v'] kvs IH]; cbn [Py.dict_set].
  - now rewrite E.
  - destruct (Py.key_eqb k k') eqn:Ek; cbn [Py.dict_set]; rewrite ?E, ?Ek;
      congruence.
Qed.

Lemma dict_set_same k v kvs :
  Py.dict_get k kvs = Some v -> Py.dict_set k v kvs = kvs.
Proof.
  induction kvs as [|[k' v'] kvs IH]; cbn [Py.dict_get Py.dict_set];
    [discriminate|].
  destruct (Py.key_eqb k k') eqn:Ek.
  - intros [= ->]. apply key_eqb_eq in Ek as ->. reflexivity.
  - intros H. now rewrite (IH H).
Qed.

Lemma with_items_twice b l1 l2 :
  with_items (with_items b l1) l2 = with_items b l2.
Proof.
  destruct b as [| | | | |kvs]; try reflexivity.
  cbn [with_items]. now rewrite dict_set_twice.
Qed.

Lemma put_box_twice d bs i b1 b2 :
  boxes_of d = Some bs -> put_box (put_box d i b1) i b2 = put_box d i b2.
Proof.
  intros Hb.
  rewrite (put_box_boxes _ _ _ b2 (boxes_of_put_box _ _ i b1 Hb)).
  rewrite !(put_box_boxes _ _ _ _ Hb).
  destruct (boxes_of_dict _ _ Hb) as (kvs & -> & _).
  cbn [set_boxes]. now rewrite dict_set_twice, list_insert_insert_eq.
Qed.

Lemma put_box_same d bs i b :
  boxes_of d = Some bs -> bs !! i = Some b -> put_box d i b = d.
Proof.
  intros Hb Hl. rewrite (put_box_boxes _ _ _ _ Hb).
  destruct (boxes_of_dict _ _ Hb) as (kvs & -> & E).
  cbn [set_boxes]. rewrite (list_insert_id _ _ _ Hl).
  now rewrite (dict_set_same _ _ _ E).
Qed.

Lemma with_items_same b l :
  Py.getitem b "items" = OK (VList l) -> with_items b l = b.
Proof.
  unfold Py.getitem. destruct b as [| | | | |kvs]; try discriminate.
  destruct (Py.dict_get (KStr "items") kvs) as [v|] eqn:E; [|discriminate].
  intros [= ->]. cbn [with_items]. now rewrite (dict_set_same _ _ _ E).
Qed.

Lemma has_id_with_items bid b l :
  has_id bid b = true -> has_id bid (with_items b l) = true.
Proof.
  intros H. destruct (has_id_dict _ _ H) as (kvs & -> & _).
  apply has_id_dict_set; [discriminate | exact H].
Qed.

(** X9. [delete_item] at the index of the item that [add_item] has just
    appended gives the box its item list back: the document written holds
    the box with the items it had before the two calls, and, when the record
    had its ["items"] list already, it is the document as it was before
    them. *)
Theorem add_item_then_delete_item_restores (box_id name : string) (qty : Z)
    (pin : option string) (f f1 : file_state) (d : value) (i : nat)
    (b : value) (l : list value) :
  require_pin ADMIN_PIN pin = OK tt ->
  load_data f = (OK d, f1) ->
  find_box d box_id = OK (Some (i, b)) ->
  box_items b = Some l ->
  delete_item ADMIN_PIN box_id (Z.of_nat (length l)) pin
    (snd (add_item ADMIN_PIN box_id name qty pin f))
  = (OK (RedirectResponse ("/boxes/" +:+ box_id) 303),
     Some (dumps (Some 2%nat) (put_box d i (with_items b l)))) /\
  (Py.getitem b "items" = OK (VList l) -> put_box d i (with_items b l) = d).
Proof.
  intros Hpin Hload Hfind Hitems.
  destruct (find_box_some _ _ _ _ Hfind) as (bs & Hb & Hl & Hid & _).
  set (it := item (Text.strip name) qty).
  rewrite (add_item_run _ _ _ _ _ _ _ _ _ _ _ Hpin Hload Hfind Hitems).
  cbn [snd]. fold it. split.
  - assert (Hload2 := changed_items_json _ _ _ _ _ _ (l ++ [it]) Hload Hfind).
    rewrite forallb_app in Hload2.
    rewrite (found_box_items_json _ _ _ _ _ _ _ Hload Hfind Hitems) in Hload2.
    specialize (Hload2 eq_refl).
    assert (Hfind2 := find_box_put_box _ _ _ _ _ Hfind
                        (has_id_with_items _ _ (l ++ [it]) Hid)).
    assert (Hitems2 := box_items_with_items_found _ _ _ _ (l ++ [it]) Hfind).
    rewrite (delete_item_run _ _ _ _ _ _ _ _ _ _ Hpin Hload2 Hfind2 Hitems2).
    2: { rewrite length_app. cbn [length]. lia. }
    rewrite Nat2Z.id, with_items_twice, (put_box_twice _ _ _ _ _ Hb).
    replace (delete (length l) (l ++ [it])) with l; [reflexivity|].
    rewrite delete_middle. now rewrite app_nil_r.
  - intros Hget. rewrite (with_items_same _ _ Hget).
    exact (put_box_same _ _ _ _ Hb Hl).
Qed.

End AddDeleteFacts.

(** ** [import_json] and [export_json] *)

Section TransferFacts.

Context {J : JsonCodec}.
Variable ADMIN_PIN : option string.

(** X10. [import_json] writes nothing unless the uploaded file holds a
    dictionary with a list under ["boxes"]: a file that [json.loads] refuses
    raises [ValueError], a dictionary without the key, or with something else
    than a list under it, raises [HTTPException(400)], and any other payload
    raises too; in every case the data file is left as it is. *)
Theorem import_json_checks_shape (file : bytes) (pin : option string)
    (f : file_state) :
  require_pin ADMIN_PIN pin = OK tt ->
  (loads file = None ->
   import_json ADMIN_PIN file pin f = (Raise ValueError, f)) /\
  (forall kvs,
     loads file = Some (VDict kvs) -> boxes_of (VDict kvs) = None ->
     import_json ADMIN_PIN file pin f = (Raise invalid_json, f)) /\
  (forall payload,
     loads file = Some payload -> boxes_of payload = None ->
     exists e, import_json ADMIN_PIN file pin f = (Raise e, f)).
Proof.
  intros Hpin.
  assert (Hd : forall kvs, loads file = Some (VDict kvs) ->
             boxes_of (VDict kvs) = None ->
             import_json ADMIN_PIN file pin f = (Raise invalid_json, f)).
  { intros kvs Hl Hb. unfold import_json.
    rewrite bind_lift, Hpin, bind_lift, Hl, bind_lift.
    cbn [Py.contains Py.getitem]. cbn [boxes_of] in Hb.
    destruct (Py.dict_get (KStr "boxes") kvs) as [v|]; cbn [negb];
      rewrite bind_lift; cbn [res_bind]; [|reflexivity].
    destruct v; try discriminate; reflexivity. }
  split; [|split; [exact Hd|]].
  - intros Hl. unfold import_json.
    rewrite bind_lift, Hpin, bind_lift, Hl. reflexivity.
  - intros payload Hl Hb.
    destruct payload as [| | |s|l|kvs];
      try (eexists; apply (Hd _ Hl Hb));
      unfold import_json; rewrite bind_lift, Hpin, bind_lift, Hl, bind_lift;
      cbn [Py.contains]; try (eexists; reflexivity).
    + destruct (Py.substring_of "boxes" s); cbn [negb]; rewrite bind_lift;
        cbn [Py.getitem res_bind]; eexists; reflexivity.
    + destruct (existsb (fun x => Py.eq_str x "boxes") l); cbn [negb];
        rewrite bind_lift; cbn [Py.getitem res_bind]; eexists; reflexivity.
Qed.

(** X11. A copy taken with [export_json] brings the document back: the
    export of a data file returns its content and leaves it as it is, and
    [import_json] of that content, whatever the data file has become in
    between, writes the document that [load_data] read at the time of the
    export, which the next [load_data] reads again; when [save_data] had
    written the file, the import writes that very file. Without a data file
    the export returns the empty document and stores nothing, and the
    import of it writes the file that [load_data] would have created. *)
Theorem export_then_import_restores (c : bytes) (d : value)
    (bs : list value) (pin : option string) (f' : file_state) :
  require_pin ADMIN_PIN pin = OK tt ->
  loads c = Some d ->
  boxes_of d = Some bs ->
  (export_json (Some c)
     = (OK (StreamingResponse c "application/json"), Some c) /\
   load_data (Some c) = (OK d, Some c) /\
   import_json ADMIN_PIN c pin f'
     = (OK (RedirectResponse "/" 303), Some (dumps (Some 2%nat) d)) /\
   load_data (Some (dumps (Some 2%nat) d))
     = (OK d, Some (dumps (Some 2%nat) d)) /\
   (forall d0,
      json_value d0 = true -> c = dumps (Some 2%nat) d0 ->
      import_json ADMIN_PIN c pin f'
        = (OK (RedirectResponse "/" 303), Some c)))
  /\
  (export_json None
     = (OK (StreamingResponse (dumps None EMPTY) "application/json"), None) /\
   import_json ADMIN_PIN (dumps None EMPTY) pin f'
     = (OK (RedirectResponse "/" 303), snd (load_data None))).
Proof.
  intros Hpin Hl Hb. pose proof (loads_json _ _ Hl) as Hj.
  pose proof (import_json_run _ _ _ _ _ f' Hpin Hl Hb) as Hi.
  split; [split; [reflexivity|]; split; [now apply load_data_file|];
          split; [exact Hi|]; split; [now apply load_data_dumps|]|].
  - intros d0 Hj0 E. rewrite Hi. subst c.
    rewrite (loads_dumps _ _ Hj0) in Hl. now injection Hl as ->.
  - split; [reflexivity|].
    apply (import_json_run _ _ _ EMPTY []); [exact Hpin| |reflexivity].
    now apply loads_dumps.
Qed.

End TransferFacts.

(** ** The items the parser writes *)

Section ItemShapeFacts.

Import Text ItemLineParser.

Lemma lstrip_twice s : lstrip (lstrip s) = lstrip s.
Proof.
  induction s as [|c s IH]; [reflexivity|]. cbn [lstrip].
  destruct (isspace c) eqn:E; [exact IH|]. cbn [lstrip]. now rewrite E.
Qed.

Lemma rstrip_twice s : rstrip (rstrip s) = rstrip s.
Proof.
  induction s as [|c s IH]; [reflexivity|]. cbn [rstrip].
  destruct (is_empty (rstrip s) && isspace c) eqn:E; [reflexivity|].
  cbn [rstrip]. rewrite IH, E. reflexivity.
Qed.

(** Taking spaces off the left leaves the right end as it is. *)
Lemma rstrip_lstrip s : rstrip s = s -> rstrip (lstrip s) = lstrip s.
Proof.
  induction s as [|c s IH]; [reflexivity|]. cbn [lstrip].
  destruct (isspace c) eqn:E; [|exact id].
  intros H. apply IH. cbn [rstrip] in H. rewrite E, andb_true_r in H.
  destruct (is_empty (rstrip s)); [discriminate | congruence].
Qed.

Lemma strip_twice s : strip (strip s) = strip s.
Proof.
  unfold strip. rewrite (rstrip_lstrip _ (rstrip_twice s)). apply lstrip_twice.
Qed.

Lemma decimal_nonneg ds acc :
  all_chars isdigit ds = true -> 0 <= acc -> 0 <= decimal acc ds.
Proof.
  revert acc. induction ds as [|c ds IH]; intros acc H Hacc; [exact Hacc|].
  cbn [all_chars] in H. apply andb_prop in H as [Hc Hds].
  cbn [decimal]. apply IH; [exact Hds|].
  unfold isdigit in Hc. cbv zeta in Hc. apply andb_prop in Hc as [Hc _].
  apply N.leb_le in Hc. unfold digit_value. lia.
Qed.

(** What the loop body writes for a line: the name comes out of [strip] and
    is not empty. *)
Lemma parse_line_name line it :
  parse_line line = OK (Some it) ->
  exists name qty s,
    it = item name qty /\ name = strip s /\ name <> EmptyString /\
    (contains COMMA (strip line) = false -> 0 <= qty).
Proof.
  unfold parse_line. destruct (is_empty (strip line)) eqn:El; [discriminate|].
  destruct (contains COMMA (strip line)) eqn:Hc.
  - destruct (rsplit1 COMMA (strip line)) as [[l r]|]; [|discriminate].
    assert (H : forall q,
      (if is_empty (strip l) then OK None else OK (Some (item (strip l) q)))
      = OK (Some it) ->
      exists name qty s, it = item name qty /\ name = strip s /\
        name <> EmptyString /\ (true = false -> 0 <= qty)).
    { intros q. destruct (is_empty (strip l)) eqn:E; [discriminate|].
      intros [= <-]. exists (strip l), q, l.
      repeat split; [now apply is_empty_false | discriminate]. }
    destruct (int (strip r)) as [q|e]; [apply H|].
    destruct e; cbn [res_bind]; try discriminate. apply H.
  - destruct (search (strip line)) as [[g1 g2]|] eqn:Es.
    + destruct (search_digits _ _ _ Es) as [Hd Hne].
      rewrite (int_digits_cases _ Hd Hne).
      destruct (Z.of_nat (String.length g2) <=? int_max_str_digits);
        cbn [res_bind]; [|discriminate].
      destruct (is_empty (strip g1)) eqn:E; [discriminate|].
      intros [= <-]. exists (strip g1), (decimal 0 g2), g1.
      repeat split; [now apply is_empty_false|].
      intros _. apply decimal_nonneg; [exact Hd | lia].
    + cbn [res_bind]. rewrite El. intros [= <-].
      exists (strip line), 1, line.
      repeat split; [now apply is_empty_false | lia].
Qed.

(** X12. Every record [add_box] parses out of its [items] text is
    [{"name": ..., "qty": ...}] with a name that is not empty and has no
    whitespace at its front nor at its end; each line of the text gives at
    most one record. *)
Theorem parsed_items_have_trimmed_names (items : string) (out : list value) :
  parsed_items items = OK out ->
  Forall (fun it => exists name qty,
            it = name_qty name qty /\ name <> EmptyString /\
            head_space name = false /\ last_space name = false)
         out /\
  (length out <= length (splitlines items))%nat.
Proof.
  unfold parsed_items. intros H. apply parse_lines_ok in H as ->. cbn [app].
  induction (splitlines items) as [|line lines [IH1 IH2]];
    [split; [constructor | reflexivity]|].
  cbn [flat_map]. unfold line_items at 1 3.
  destruct (parse_line line) as [[it|]|] eqn:E; cbn [app length];
    [|split; [exact IH1 | lia] ..].
  split; [|lia]. constructor; [|exact IH1].
  destruct (parse_line_name _ _ E) as (name & qty & s & -> & -> & Hne & _).
  exists (strip s), qty. split; [reflexivity|]. split; [exact Hne|].
  split; [apply head_space_lstrip|].
  apply last_space_lstrip, last_space_rstrip.
Qed.

(** X13. A line without a comma never gives a negative quantity: the
    shorthand pattern reads digits only, no sign, so a sign before the digits
    stays in the name. (After a comma, [int] reads a sign.) *)
Theorem shorthand_quantity_is_not_negative (line name : string) (qty : Z) :
  contains COMMA (strip line) = false ->
  parse_line line = OK (Some (item name qty)) ->
  0 <= qty.
Proof.
  intros Hc H.
  destruct (parse_line_name _ _ H) as (n & q & s & E & _ & _ & Hq).
  injection E as _ ->. now apply Hq.
Qed.

End ItemShapeFacts.

(** ** The pages after a change *)

Section PageFacts.

Context {J : JsonCodec}.
Variable ADMIN_PIN : option string.

Import ItemLineParser.

Context {page : Type}.
Variable render : string -> list (string * value) -> res page.

Lemma home_run f d f1 bs :
  load_data f = (OK d, f1) -> boxes_of d = Some bs ->
  home ADMIN_PIN render f
  = (render "index.html"
       [("boxes", VList bs); ("pin_required", pin_required ADMIN_PIN)],
     f1).
Proof.
  intros Hload Hb. destruct (boxes_of_dict _ _ Hb) as (kvs & -> & E).
  unfold home. rewrite (bind_load _ _ _ _ Hload), bind_lift.
  cbn [Py.getitem]. now rewrite E.
Qed.

Lemma labels_run f d f1 bs :
  load_data f = (OK d, f1) -> boxes_of d = Some bs ->
  labels render f = (render "labels.html" [("boxes", VList bs)], f1).
Proof.
  intros Hload Hb. destruct (boxes_of_dict _ _ Hb) as (kvs & -> & E).
  unfold labels. rewrite (bind_load _ _ _ _ Hload), bind_lift.
  cbn [Py.getitem]. now rewrite E.
Qed.

Lemma box_public_run bid f d f1 :
  load_data f = (OK d, f1) ->
  box_public bid f =
    match find_box d bid with
    | OK (Some (i, b)) =>
        if Py.truthy b
        then (OK (TemplateResponse "box_public.html" [("box", b)]), f1)
        else (Raise not_found, f1)
    | OK None => (Raise not_found, f1)
    | Raise e => (Raise e, f1)
    end.
Proof.
  intros Hload. unfold box_public.
  rewrite (bind_load _ _ _ _ Hload), bind_lift.
  destruct (find_box d bid) as [[[i b]|]|e]; try reflexivity.
  rewrite bind_lift. cbn [or_404]. now destruct (Py.truthy b).
Qed.

Lemma box_admin_run bid f d f1 :
  load_data f = (OK d, f1) ->
  box_admin ADMIN_PIN bid f =
    match find_box d bid with
    | OK (Some (i, b)) =>
        if Py.truthy b
        then (OK (TemplateResponse "box_admin.html"
                    [("box", b); ("pin_required", pin_required ADMIN_PIN)]),
              f1)
        else (Raise not_found, f1)
    | OK None => (Raise not_found, f1)
    | Raise e => (Raise e, f1)
    end.
Proof.
  intros Hload. unfold box_admin.
  rewrite (bind_load _ _ _ _ Hload), bind_lift.
  destruct (find_box d bid) as [[[i b]|]|e]; try reflexivity.
  rewrite bind_lift. cbn [or_404]. now destruct (Py.truthy b).
Qed.

(** X14. After an [add_box] that returned, the home page and the page of
    labels are rendered from the new box first, then the boxes the document
    had, in their order: each is what the rendering gives, or raises, on
    that list; showing them changes nothing in the file. *)
Theorem home_lists_newest_first (name location items : string)
    (pin : option string) (random : N) (f f2 : file_state)
    (r : response bytes) :
  add_box ADMIN_PIN name location items pin random f = (OK r, f2) ->
  exists d f1 bs parsed n l,
    load_data f = (OK d, f1) /\ boxes_of d = Some bs /\
    parsed_items items = OK parsed /\
    trimmed name n /\ trimmed location l /\
    let listed :=
      VList (VDict [(KStr "id", VStr (Uuid.uuid4_hex random));
                    (KStr "name", VStr n);
                    (KStr "location", VStr l);
                    (KStr "items", VList parsed)] :: bs) in
    home ADMIN_PIN render f2
    = (render "index.html"
         [("boxes", listed); ("pin_required", pin_required ADMIN_PIN)],
       f2) /\
    labels render f2 = (render "labels.html" [("boxes", listed)], f2).
Proof.
  intros H.
  destruct (add_box_inv _ _ _ _ _ _ _ _ _ H)
    as (d & f1 & bs & parsed & Hpin & Hload & Hb & Hp & -> & ->).
  exists d, f1, bs, parsed, (Text.strip name), (Text.strip location).
  repeat (split; [first [assumption | apply strip_trimmed]|]).
  change (VDict [(KStr "id", VStr (Uuid.uuid4_hex random));
                 (KStr "name", VStr (Text.strip name));
                 (KStr "location", VStr (Text.strip location));
                 (KStr "items", VList parsed)])
    with (new_box random name location parsed).
  cbv zeta.
  set (d' := prepend_box d (new_box random name location parsed)).
  assert (Hload' : load_data (Some (dumps (Some 2%nat) d'))
                   = (OK d', Some (dumps (Some 2%nat) d'))).
  { apply load_data_dumps, (json_value_prepend _ _ _ Hb).
    - exact (load_data_json _ _ _ Hload).
    - apply json_value_new_box. exact (parsed_items_json _ _ Hp). }
  pose proof (boxes_of_prepend _ _ (new_box random name location parsed) Hb)
    as Hb'.
  split; [exact (home_run _ _ _ _ Hload' Hb') | exact (labels_run _ _ _ _ Hload' Hb')].
Qed.

(** X15. After a [delete_box] that returned, the public page and the edit
    page of that id raise [HTTPException(404)]: the QR code of a deleted box
    leads nowhere. *)
Theorem deleted_box_has_no_page (box_id confirm : string)
    (pin : option string) (f f1 : file_state) (d : value)
    (bs : list value) (r : response bytes) (f2 : file_state) :
  load_data f = (OK d, f1) ->
  boxes_of d = Some bs ->
  forallb has_some_id bs = true ->
  delete_box ADMIN_PIN box_id confirm pin f = (OK r, f2) ->
  box_public box_id f2 = (Raise not_found, f2) /\
  box_admin ADMIN_PIN box_id f2 = (Raise not_found, f2).
Proof.
  intros Hload Hb Hids Hdel.
  assert (Hpin : require_pin ADMIN_PIN pin = OK tt).
  { unfold delete_box in Hdel. rewrite bind_lift in Hdel.
    destruct (require_pin ADMIN_PIN pin) as [[]|]; [reflexivity|discriminate]. }
  assert (Hc : Text.upper (Text.strip confirm) = "DELETE").
  { unfold delete_box in Hdel. rewrite bind_lift, Hpin in Hdel.
    destruct (String.eqb (Text.upper (Text.strip confirm)) "DELETE") eqn:E;
      [now apply String.eqb_eq in E | discriminate]. }
  rewrite (delete_box_run _ box_id _ _ _ _ _ _ Hpin Hc Hload Hb Hids) in Hdel.
  destruct (existsb (has_id box_id) bs); [|discriminate].
  injection Hdel as _ <-.
  set (d' := set_boxes d (without_id box_id bs)).
  assert (Hload' : load_data (Some (dumps (Some 2%nat) d'))
                   = (OK d', Some (dumps (Some 2%nat) d'))).
  { pose proof (load_data_json _ _ _ Hload) as Hd.
    apply load_data_dumps, json_value_set_boxes; [exact Hd|].
    apply forallb_filter.
    destruct (boxes_of_dict _ _ Hb) as (kvs & -> & E).
    now apply (json_value_dict_get _ _ _ Hd) in E. }
  assert (Hnone : find_box d' box_id = OK None).
  { unfold d'. rewrite (find_box_list _ _ _ (boxes_of_set_boxes _ _ _ Hb)).
    apply find_in_missing. now apply without_id_other. }
  rewrite (box_public_run _ _ _ _ Hload'), (box_admin_run _ _ _ _ Hload').
  rewrite Hnone. split; reflexivity.
Qed.

(** X16. After an [add_item] that found the box, the public page of the box
    is given the record with the new item after the items it had. *)
Theorem public_page_shows_added_item (box_id name : string) (qty : Z)
    (pin : option string) (f f1 : file_state) (d : value) (i : nat)
    (b : value) (l : list value) :
  require_pin ADMIN_PIN pin = OK tt ->
  load_data f = (OK d, f1) ->
  find_box d box_id = OK (Some (i, b)) ->
  box_items b = Some l ->
  let f2 := snd (add_item ADMIN_PIN box_id name qty pin f) in
  let b' := with_items b (l ++ [item (Text.strip name) qty]) in
  box_public box_id f2
    = (OK (TemplateResponse "box_public.html" [("box", b')]), f2) /\
  box_items b' = Some (l ++ [item (Text.strip name) qty]).
Proof.
  intros Hpin Hload Hfind Hitems f2 b'. unfold f2.
  destruct (find_box_some _ _ _ _ Hfind) as (bs & Hb & Hl & Hid & _).
  rewrite (add_item_run _ _ _ _ _ _ _ _ _ _ _ Hpin Hload Hfind Hitems).
  cbn [snd]. fold b'.
  assert (Hload' := changed_items_json _ _ _ _ _ _
                      (l ++ [item (Text.strip name) qty]) Hload Hfind).
  rewrite forallb_app in Hload'.
  rewrite (found_box_items_json _ _ _ _ _ _ _ Hload Hfind Hitems) in Hload'.
  specialize (Hload' eq_refl). fold b' in Hload'.
  pose proof (has_id_with_items _ _ (l ++ [item (Text.strip name) qty]) Hid)
    as Hid'. fold b' in Hid'.
  split.
  - rewrite (box_public_run _ _ _ _ Hload').
    rewrite (find_box_put_box _ _ _ _ _ Hfind Hid').
    now rewrite (has_id_truthy _ _ Hid').
  - exact (box_items_with_items_found _ _ _ _ _ Hfind).
Qed.

(** X17. [import_json] does not look into the boxes: a payload whose first
    box cannot give its ["id"] (a record without the field, or no record at
    all) is written, and from then on every handler that looks a box up
    raises what that lookup raises ([KeyError] for the missing field), for
    every id, and writes nothing. *)
Theorem import_json_admits_boxes_without_id (file : bytes)
    (pin : option string) (payload b0 : value) (bs : list value) (e : exn)
    (f : file_state) :
  require_pin ADMIN_PIN pin = OK tt ->
  loads file = Some payload ->
  boxes_of payload = Some (b0 :: bs) ->
  Py.getitem b0 "id" = Raise e ->
  let f2 := snd (import_json ADMIN_PIN file pin f) in
  f2 = Some (dumps (Some 2%nat) payload) /\
  forall box_id name location idx qty,
    add_item ADMIN_PIN box_id name qty pin f2 = (Raise e, f2) /\
    update_box ADMIN_PIN box_id name location pin f2 = (Raise e, f2) /\
    update_item ADMIN_PIN box_id idx name qty pin f2 = (Raise e, f2) /\
    delete_item ADMIN_PIN box_id idx pin f2 = (Raise e, f2) /\
    delete_box ADMIN_PIN box_id "DELETE" pin f2 = (Raise e, f2) /\
    box_public box_id f2 = (Raise e, f2) /\
    box_admin ADMIN_PIN box_id f2 = (Raise e, f2).
Proof.
  intros Hpin Hl Hb Hid f2. unfold f2.
  rewrite (import_json_run _ _ _ _ _ _ Hpin Hl Hb). cbn [snd].
  split; [reflexivity|].
  assert (Hload : load_data (Some (dumps (Some 2%nat) payload))
                  = (OK payload, Some (dumps (Some 2%nat) payload))).
  { apply load_data_dumps. exact (loads_json _ _ Hl). }
  assert (Hfind : forall box_id, find_box payload box_id = Raise e).
  { intros box_id. rewrite (find_box_list _ _ _ Hb). cbn [find_in].
    now rewrite Hid. }
  intros box_id name location idx qty.
  repeat split.
  - unfold add_item. rewrite bind_lift, Hpin, (bind_load _ _ _ _ Hload).
    now rewrite bind_lift, Hfind.
  - unfold update_box. rewrite bind_lift, Hpin, (bind_load _ _ _ _ Hload).
    now rewrite bind_lift, Hfind.
  - unfold update_item. rewrite bind_lift, Hpin, (bind_load _ _ _ _ Hload).
    now rewrite bind_lift, Hfind.
  - unfold delete_item. rewrite bind_lift, Hpin, (bind_load _ _ _ _ Hload).
    now rewrite bind_lift, Hfind.
  - destruct (boxes_of_dict _ _ Hb) as (kvs & -> & E).
    unfold delete_box. rewrite bind_lift, Hpin. cbn [negb].
    change (negb (String.eqb (Text.upper (Text.strip "DELETE")) "DELETE"))
      with false. cbv iota.
    rewrite (bind_load _ _ _ _ Hload), bind_lift. cbn [Py.getitem].
    rewrite E, bind_lift. cbn [Py.len]. rewrite bind_lift. cbn [Py.iter].
    rewrite bind_lift. cbn [keep_other]. now rewrite Hid.
  - rewrite (box_public_run _ _ _ _ Hload). now rewrite Hfind.
  - rewrite (box_admin_run _ _ _ _ Hload). now rewrite Hfind.
Qed.

End PageFacts.

(** ** The ids of the boxes *)

Section IdFacts.

Context {J : JsonCodec}.
Variable ADMIN_PIN : option string.

Lemma ids_of_insert bs i b b2 :
  bs !! i = Some b -> Py.getitem b2 "id" = Py.getitem b "id" ->
  ids_of (<[i := b2]> bs) = ids_of bs.
Proof.
  intros Hl Hid. unfold ids_of. rewrite list_fmap_insert, Hid.
  apply list_insert_id. rewrite list_lookup_fmap, Hl. reflexivity.
Qed.

Lemma id_after_setitem b k v b2 :
  Py.setitem b k v = OK b2 -> k <> "id" ->
  Py.getitem b2 "id" = Py.getitem b "id".
Proof.
  unfold Py.setitem. destruct b as [| | | | |kvs]; try discriminate.
  intros [= <-] Hk. cbn [Py.getitem]. rewrite dict_get_set_other by congruence.
  reflexivity.
Qed.

Lemma dict_get_app_present k kvs more v :
  Py.dict_get k kvs = Some v -> Py.dict_get k (kvs ++ more) = Some v.
Proof.
  induction kvs as [|[k' v'] kvs IH]; cbn [Py.dict_get app]; [discriminate|].
  destruct (Py.key_eqb k k'); [exact id | exact IH].
Qed.

Lemma id_after_setdefault bid b k dflt x b1 :
  has_id bid b = true -> Py.setdefault b k dflt = OK (x, b1) ->
  Py.getitem b1 "id" = Py.getitem b "id".
Proof.
  intros Hid. destruct (has_id_dict _ _ Hid) as (kvs & -> & E).
  unfold Py.setdefault. destruct (Py.dict_get (KStr k) kvs).
  - now intros [= _ <-].
  - intros [= _ <-]. cbn [Py.getitem].
    now rewrite (dict_get_app_present _ _ _ _ E), E.
Qed.

(** What a request that changes one box has done when it returns. *)
Lemma one_box_changed rq f d f1 r f2 :
  changes_one_box J rq = true ->
  load_data f = (OK d, f1) ->
  handle ADMIN_PIN rq f = (OK r, f2) ->
  exists bid i b b2,
    find_box d bid = OK (Some (i, b)) /\
    Py.getitem b2 "id" = Py.getitem b "id" /\
    f2 = Some (dumps (Some 2%nat) (put_box d i b2)).
Proof.
  intros Hrq Hload.
  destruct rq; try discriminate Hrq; cbn [handle];
    [ unfold add_item | unfold update_box | unfold update_item
    | unfold delete_item ];
    rewrite bind_lift;
    (destruct (require_pin ADMIN_PIN pin) as [[]|]; [|intros; discriminate]);
    rewrite (bind_load _ _ _ _ Hload), bind_lift;
    (destruct (find_box d box_id) as [[[i b]|]|] eqn:Hfind;
       [| rewrite bind_lift; cbn [or_404]; intros; discriminate
        | intros; discriminate]);
    destruct (find_box_some _ _ _ _ Hfind) as (bs & _ & _ & Hid & _);
    rewrite bind_lift, (or_404_found _ _ _ Hid); cbv beta iota;
    rewrite bind_lift.
  - destruct (Py.setdefault b "items" (VList [])) as [[items b1]|] eqn:Hsd;
      [|discriminate].
    rewrite bind_lift.
    destruct (Py.append items _) as [items'|]; [|discriminate].
    rewrite bind_lift.
    destruct (Py.setitem b1 "items" items') as [b2|] eqn:Hset; [|discriminate].
    intros [= _ <-]. exists box_id, i, b, b2. repeat split; [exact Hfind|].
    rewrite (id_after_setitem _ _ _ _ Hset) by discriminate.
    exact (id_after_setdefault _ _ _ _ _ _ Hid Hsd).
  - destruct (Py.setitem b "name" _) as [b1|] eqn:Hs1; [|discriminate].
    rewrite bind_lift.
    destruct (Py.setitem b1 "location" _) as [b2|] eqn:Hs2; [|discriminate].
    intros [= _ <-]. exists box_id, i, b, b2. repeat split; [exact Hfind|].
    rewrite (id_after_setitem _ _ _ _ Hs2) by discriminate.
    apply (id_after_setitem _ _ _ _ Hs1). discriminate.
  - destruct (Py.setdefault b "items" (VList [])) as [[items b1]|] eqn:Hsd;
      [|discriminate].
    rewrite bind_lift.
    destruct (check_index items idx) as [[]|]; [|discriminate].
    rewrite bind_lift.
    destruct (Py.setitem_int items idx _) as [items'|]; [|discriminate].
    rewrite bind_lift.
    destruct (Py.setitem b1 "items" items') as [b2|] eqn:Hset; [|discriminate].
    intros [= _ <-]. exists box_id, i, b, b2. repeat split; [exact Hfind|].
    rewrite (id_after_setitem _ _ _ _ Hset) by discriminate.
    exact (id_after_setdefault _ _ _ _ _ _ Hid Hsd).
  - destruct (Py.setdefault b "items" (VList [])) as [[items b1]|] eqn:Hsd;
      [|discriminate].
    rewrite bind_lift.
    destruct (check_index items idx) as [[]|]; [|discriminate].
    rewrite bind_lift.
    destruct (Py.pop items idx) as [items'|]; [|discriminate].
    rewrite bind_lift.
    destruct (Py.setitem b1 "items" items') as [b2|] eqn:Hset; [|discriminate].
    intros [= _ <-]. exists box_id, i, b, b2. repeat split; [exact Hfind|].
    rewrite (id_after_setitem _ _ _ _ Hset) by discriminate.
    exact (id_after_setdefault _ _ _ _ _ _ Hid Hsd).
Qed.

(** X18. The ids of the boxes are stable: when [add_item], [update_box],
    [update_item] or [delete_item] returns, the document written has as many
    boxes as before, each with the ["id"] it had, in the same order, whatever
    the box and its items were. *)
Theorem changing_a_box_keeps_every_id (rq : request) (f f1 f2 : file_state)
    (d : value) (bs : list value) (r : response bytes) :
  changes_one_box J rq = true ->
  load_data f = (OK d, f1) ->
  boxes_of d = Some bs ->
  handle ADMIN_PIN rq f = (OK r, f2) ->
  exists d' bs',
    f2 = Some (dumps (Some 2%nat) d') /\
    boxes_of d' = Some bs' /\
    length bs' = length bs /\
    ids_of bs' = ids_of bs.
Proof.
  intros Hrq Hload Hb H.
  destruct (one_box_changed _ _ _ _ _ _ Hrq Hload H)
    as (bid & i & b & b2 & Hfind & Hid & ->).
  destruct (find_box_some _ _ _ _ Hfind) as (bs0 & Hb0 & Hl & _).
  assert (bs0 = bs) as -> by congruence.
  exists (put_box d i b2), (<[i := b2]> bs).
  split; [reflexivity|]. split; [now apply boxes_of_put_box|].
  split; [apply length_insert | exact (ids_of_insert _ _ _ _ Hl Hid)].
Qed.

End IdFacts.

(** ** The templates *)

(** X19. [seed] never replaces a template that is there: the directory is
    then as it was, so a second [seed] of a name, whatever its content, keeps
    what the first wrote; a name that is not there gets the content without
    the spaces at its ends; no other file is touched. *)
Theorem seed_never_overwrites (name c1 c2 : string)
    (dir : string -> option string) :
  (forall t, dir name = Some t -> seed name c1 dir = dir) /\
  (dir name = None -> seed name c1 dir name = Some (Text.strip c1)) /\
  (forall p, p <> name -> seed name c1 dir p = dir p) /\
  seed name c2 (seed name c1 dir) = seed name c1 dir.
Proof.
  assert (H1 : forall c t d, d name = Some t -> seed name c d = d).
  { intros c t d H. unfold seed. now rewrite H. }
  split; [intros t; apply H1|]. split; [|split].
  - intros H. unfold seed. rewrite H. now rewrite String.eqb_refl.
  - intros p Hp. unfold seed. destruct (dir name); [reflexivity|].
    destruct (String.eqb p name) eqn:E; [|reflexivity].
    apply String.eqb_eq in E. congruence.
  - destruct (dir name) as [t|] eqn:E.
    + rewrite (H1 c1 t dir E). now apply (H1 c2 t).
    + apply (H1 c2 (Text.strip c1)). unfold seed. rewrite E.
      now rewrite String.eqb_refl.
Qed.

(** ** The further properties on documents *)

Section ExtraWitnesses.

Import ItemLineParser.

Lemma update_box_keeps_id_and_items_witness :
  require_pin pin1 pin1 = OK tt /\
  load_data file_tools = (OK doc_tools, file_tools) /\
  update_box (J := layout_codec) pin1 "a" " Garden " "Shed " pin1 file_tools
  = (OK (RedirectResponse "/boxes/a" 303),
     Some (Some 2%nat,
       VDict [(KStr "boxes",
         VList [VDict [(KStr "id", VStr "a"); (KStr "name", VStr "Garden");
                       (KStr "location", VStr "Shed");
                       (KStr "items",
                        VList [item "Hammer" 1; item "Nails" 40])]])])).
Proof.
  assert (H1 : require_pin pin1 pin1 = OK tt) by reflexivity.
  assert (H2 : load_data file_tools = (OK doc_tools, file_tools))
    by reflexivity.
  split; [exact H1|]. split; [exact H2|].
  destruct (update_box_keeps_id_and_items (J := layout_codec) pin1 "a"
              " Garden " "Shed " pin1 _ _ _ H1 H2) as [H _].
  exact (proj1 (H 0%nat _ eq_refl)).
Defined.

Lemma delete_box_needs_confirmation_witness :
  require_pin None None = OK tt /\
  Text.upper (Text.strip " yes ") <> "DELETE" /\
  delete_box (J := layout_codec) None "a" " yes " None None
  = (Raise (HTTPException 400 (Some confirm_detail)), None).
Proof.
  assert (H1 : require_pin None None = OK tt) by reflexivity.
  assert (H2 : Text.upper (Text.strip " yes ") <> "DELETE") by discriminate.
  split; [exact H1|]. split; [exact H2|].
  exact (delete_box_needs_confirmation (J := layout_codec) None "a" " yes "
           None None H1 H2).
Defined.

Lemma delete_box_removes_every_match_witness :
  require_pin None None = OK tt /\
  Text.upper (Text.strip " delete ") = "DELETE" /\
  load_data file_twins = (OK doc_twins, file_twins) /\
  delete_box (J := layout_codec) None "a" " delete " None file_twins
  = (OK (RedirectResponse "/" 303),
     Some (Some 2%nat,
       VDict [(KStr "boxes",
         VList [VDict [(KStr "id", VStr "b"); (KStr "name", VStr "Bare")]])])).
Proof.
  assert (H1 : require_pin None None = OK tt) by reflexivity.
  assert (H2 : Text.upper (Text.strip " delete ") = "DELETE") by reflexivity.
  assert (H3 : load_data file_twins = (OK doc_twins, file_twins))
    by reflexivity.
  split; [exact H1|]. split; [exact H2|]. split; [exact H3|].
  destruct (delete_box_removes_every_match (J := layout_codec) None "a"
              " delete " None _ _ _ _ H1 H2 H3 eq_refl eq_refl) as [H _].
  exact (proj1 (H eq_refl)).
Defined.


Lemma delete_item_removes_one_witness :
  require_pin pin1 pin1 = OK tt /\
  load_data file_tools = (OK doc_tools, file_tools) /\
  find_box doc_tools "a" = OK (Some (0%nat, box_tools)) /\
  delete_item (J := layout_codec) pin1 "a" 0 pin1 file_tools
  = (OK (RedirectResponse "/boxes/a" 303),
     Some (Some 2%nat,
       put_box doc_tools 0 (with_items box_tools [item "Nails" 40]))).
Proof.
  assert (H1 : require_pin pin1 pin1 = OK tt) by reflexivity.
  assert (H2 : load_data file_tools = (OK doc_tools, file_tools))
    by reflexivity.
  assert (H3 : find_box doc_tools "a" = OK (Some (0%nat, box_tools)))
    by reflexivity.
  split; [exact H1|]. split; [exact H2|]. split; [exact H3|].
  apply (delete_item_removes_one (J := layout_codec) pin1 "a" 0 pin1 _ _ _ _ _
           [item "Hammer" 1; item "Nails" 40] H1 H2 H3 eq_refl).
  cbn. lia.
Defined.

Lemma add_item_then_delete_item_restores_witness :
  require_pin pin1 pin1 = OK tt /\
  load_data file_tools = (OK doc_tools, file_tools) /\
  find_box doc_tools "a" = OK (Some (0%nat, box_tools)) /\
  delete_item (J := layout_codec) pin1 "a" 2 pin1
    (snd (add_item (J := layout_codec) pin1 "a" "Saw" 1 pin1 file_tools))
  = (OK (RedirectResponse "/boxes/a" 303), file_tools).
Proof.
  assert (H1 : require_pin pin1 pin1 = OK tt) by reflexivity.
  assert (H2 : load_data file_tools = (OK doc_tools, file_tools))
    by reflexivity.
  assert (H3 : find_box doc_tools "a" = OK (Some (0%nat, box_tools)))
    by reflexivity.
  split; [exact H1|]. split; [exact H2|]. split; [exact H3|].
  destruct (add_item_then_delete_item_restores (J := layout_codec) pin1 "a"
              "Saw" 1 pin1 _ _ _ _ _ [item "Hammer" 1; item "Nails" 40]
              H1 H2 H3 eq_refl) as [H Hsame].
  rewrite (Hsame eq_refl) in H. exact H.
Defined.

Lemma import_json_checks_shape_witness :
  require_pin pin1 pin1 = OK tt /\
  import_json (J := layout_codec) pin1
    (None, VDict [(KStr "boxes", VNone)]) pin1 file_tools
  = (Raise invalid_json, file_tools).
Proof.
  assert (H1 : require_pin pin1 pin1 = OK tt) by reflexivity.
  split; [exact H1|].
  destruct (import_json_checks_shape (J := layout_codec) pin1
              (None, VDict [(KStr "boxes", VNone)]) pin1 file_tools H1)
    as (_ & H & _).
  exact (H _ eq_refl eq_refl).
Defined.

Lemma export_then_import_restores_witness :
  require_pin pin1 pin1 = OK tt /\
  loads (JsonCodec := layout_codec) (Some 2%nat, doc_tools) = Some doc_tools /\
  boxes_of doc_tools = Some [box_tools] /\
  export_json file_tools
    = (OK (StreamingResponse (Some 2%nat, doc_tools) "application/json"),
       file_tools) /\
  import_json (J := layout_codec) pin1 (Some 2%nat, doc_tools) pin1 file_twins
    = (OK (RedirectResponse "/" 303), file_tools).
Proof.
  assert (H1 : require_pin pin1 pin1 = OK tt) by reflexivity.
  assert (H2 : loads (JsonCodec := layout_codec) (Some 2%nat, doc_tools)
               = Some doc_tools) by reflexivity.
  assert (H3 : boxes_of doc_tools = Some [box_tools]) by reflexivity.
  split; [exact H1|]. split; [exact H2|]. split; [exact H3|].
  destruct (export_then_import_restores (J := layout_codec) pin1
              (Some 2%nat, doc_tools) doc_tools [box_tools] pin1 file_twins
              H1 H2 H3) as [(He & _ & _ & _ & Hi) _].
  split; [exact He|]. exact (Hi doc_tools eq_refl eq_refl).
Defined.

Lemma parsed_items_have_trimmed_names_witness :
  parsed_items ("  Tent , 1" +:+ String Text.LF "Stove x2")
    = OK [name_qty "Tent" 1; name_qty "Stove" 2] /\
  Forall (fun it => exists name qty,
            it = name_qty name qty /\ name <> EmptyString /\
            head_space name = false /\ last_space name = false)
         [name_qty "Tent" 1; name_qty "Stove" 2].
Proof.
  assert (H : parsed_items ("  Tent , 1" +:+ String Text.LF "Stove x2")
              = OK [name_qty "Tent" 1; name_qty "Stove" 2]) by reflexivity.
  split; [exact H|].
  exact (proj1 (parsed_items_have_trimmed_names _ _ H)).
Defined.

Lemma shorthand_quantity_is_not_negative_witness :
  Text.contains Text.COMMA (Text.strip "Pegs x-5") = false /\
  parse_line "Pegs x-5" = OK (Some (item "Pegs x-5" 1)) /\
  0 <= 1.
Proof.
  assert (H1 : Text.contains Text.COMMA (Text.strip "Pegs x-5") = false)
    by reflexivity.
  assert (H2 : parse_line "Pegs x-5" = OK (Some (item "Pegs x-5" 1)))
    by reflexivity.
  split; [exact H1|]. split; [exact H2|].
  exact (shorthand_quantity_is_not_negative _ _ _ H1 H2).
Defined.

Lemma home_lists_newest_first_witness :
  add_box (J := layout_codec) None " Tent Kit" "" "Tent,1" None 5 file_tools
  = (OK (RedirectResponse "/" 303),
     Some (Some 2%nat,
       VDict [(KStr "boxes",
         VList [VDict [(KStr "id", VStr "00000000000040008000000000000005");
                       (KStr "name", VStr "Tent Kit");
                       (KStr "location", VStr "");
                       (KStr "items", VList [name_qty "Tent" 1])];
                box_tools])])) /\
  home (J := layout_codec) None unrendered
    (snd (add_box (J := layout_codec) None " Tent Kit" "" "Tent,1" None 5
            file_tools))
  = (OK (TemplateResponse "index.html"
           [("boxes",
             VList [VDict [(KStr "id",
                            VStr "00000000000040008000000000000005");
                           (KStr "name", VStr "Tent Kit");
                           (KStr "location", VStr "");
                           (KStr "items", VList [name_qty "Tent" 1])];
                    box_tools]);
            ("pin_required", VBool false)]),
     snd (add_box (J := layout_codec) None " Tent Kit" "" "Tent,1" None 5
            file_tools)) /\
  exists bs parsed n l,
    home (J := layout_codec) None unrendered
      (snd (add_box (J := layout_codec) None " Tent Kit" "" "Tent,1" None 5
              file_tools))
    = (unrendered "index.html"
         [("boxes",
           VList (VDict [(KStr "id", VStr (Uuid.uuid4_hex 5));
                         (KStr "name", VStr n); (KStr "location", VStr l);
                         (KStr "items", VList parsed)] :: bs));
          ("pin_required", pin_required None)],
       snd (add_box (J := layout_codec) None " Tent Kit" "" "Tent,1" None 5
              file_tools)).
Proof.
  assert (H : add_box (J := layout_codec) None " Tent Kit" "" "Tent,1" None 5
                file_tools
              = (OK (RedirectResponse "/" 303),
                 Some (Some 2%nat,
                   VDict [(KStr "boxes",
                     VList [VDict [(KStr "id",
                                    VStr "00000000000040008000000000000005");
                                   (KStr "name", VStr "Tent Kit");
                                   (KStr "location", VStr "");
                                   (KStr "items", VList [name_qty "Tent" 1])];
                            box_tools])]))) by reflexivity.
  split; [exact H|]. split; [reflexivity|].
  destruct (home_lists_newest_first (J := layout_codec) None unrendered
              _ _ _ _ _ _ _ _ H)
    as (d & f1 & bs & parsed & n & l & _ & _ & _ & _ & _ & Hh & _).
  exists bs, parsed, n, l. rewrite H. exact Hh.
Defined.

Lemma deleted_box_has_no_page_witness :
  load_data file_twins = (OK doc_twins, file_twins) /\
  box_public (J := layout_codec) "a"
    (snd (delete_box (J := layout_codec) None "a" "DELETE" None file_twins))
  = (Raise not_found,
     snd (delete_box (J := layout_codec) None "a" "DELETE" None file_twins)).
Proof.
  assert (H1 : load_data file_twins = (OK doc_twins, file_twins))
    by reflexivity.
  split; [exact H1|].
  exact (proj1 (deleted_box_has_no_page (J := layout_codec) None "a" "DELETE"
                  None _ _ _ _ _ _ H1 eq_refl eq_refl eq_refl)).
Defined.

Lemma public_page_shows_added_item_witness :
  require_pin pin1 pin1 = OK tt /\
  load_data file_tools = (OK doc_tools, file_tools) /\
  find_box doc_tools "a" = OK (Some (0%nat, box_tools)) /\
  box_public (J := layout_codec) "a"
    (snd (add_item (J := layout_codec) pin1 "a" "Saw" 1 pin1 file_tools))
  = (OK (TemplateResponse "box_public.html"
           [("box", with_items box_tools
                      [item "Hammer" 1; item "Nails" 40; item "Saw" 1])]),
     snd (add_item (J := layout_codec) pin1 "a" "Saw" 1 pin1 file_tools)).
Proof.
  assert (H1 : require_pin pin1 pin1 = OK tt) by reflexivity.
  assert (H2 : load_data file_tools = (OK doc_tools, file_tools))
    by reflexivity.
  assert (H3 : find_box doc_tools "a" = OK (Some (0%nat, box_tools)))
    by reflexivity.
  split; [exact H1|]. split; [exact H2|]. split; [exact H3|].
  exact (proj1 (public_page_shows_added_item (J := layout_codec) pin1 "a"
                  "Saw" 1 pin1 _ _ _ _ _ [item "Hammer" 1; item "Nails" 40]
                  H1 H2 H3 eq_refl)).
Defined.

Lemma import_json_admits_boxes_without_id_witness :
  require_pin None None = OK tt /\
  Py.getitem (VDict [(KStr "name", VStr "Nameless")]) "id" = Raise KeyError /\
  add_item (J := layout_codec) None "a" "Saw" 1 None
    (snd (import_json (J := layout_codec) None
            (None, VDict [(KStr "boxes",
                           VList [VDict [(KStr "name", VStr "Nameless")];
                                  box_tools])])
            None file_tools))
  = (Raise KeyError,
     snd (import_json (J := layout_codec) None
            (None, VDict [(KStr "boxes",
                           VList [VDict [(KStr "name", VStr "Nameless")];
                                  box_tools])])
            None file_tools)).
Proof.
  assert (H1 : require_pin None None = OK tt) by reflexivity.
  assert (H2 : Py.getitem (VDict [(KStr "name", VStr "Nameless")]) "id"
               = Raise KeyError) by reflexivity.
  split; [exact H1|]. split; [exact H2|].
  destruct (import_json_admits_boxes_without_id (J := layout_codec) None
              (None, VDict [(KStr "boxes",
                             VList [VDict [(KStr "name", VStr "Nameless")];
                                    box_tools])])
              None _ _ _ _ file_tools H1 eq_refl eq_refl H2) as [_ H].
  exact (proj1 (H "a" "Saw" "" 0 1)).
Defined.

Lemma changing_a_box_keeps_every_id_witness :
  load_data file_twins = (OK doc_twins, file_twins) /\
  exists d' bs',
    snd (handle (J := layout_codec) None (DeleteItem "a" 0 None) file_twins)
      = Some (Some 2%nat, d') /\
    boxes_of d' = Some bs' /\
    ids_of bs' = [OK (VStr "a"); OK (VStr "b"); OK (VStr "a")].
Proof.
  assert (H1 : load_data file_twins = (OK doc_twins, file_twins))
    by reflexivity.
  split; [exact H1|].
  destruct (changing_a_box_keeps_every_id (J := layout_codec) None
              (DeleteItem "a" 0 None) file_twins _ _ _ _ _
              eq_refl H1 eq_refl eq_refl)
    as (d' & bs' & Hf & Hb & _ & Hids).
  exists d', bs'. split; [|split; assumption].
  cbn [handle]. exact Hf.
Defined.

End ExtraWitnesses.
